(** * The audit-logged mutation pipeline of the admin panel server

    A shallow embedding of [server/src/middleware/audit.ts],
    [server/src/middleware/auth.ts], [server/src/routes/auth.ts],
    [server/src/routes/index.ts] and of the update handlers of
    [server/src/routes/characters.ts] and [server/src/routes/items.ts].

    Conventions.
    - A JavaScript string is a [string]: a sequence of code units below 256.
      [<] and [>] on strings compare code units, as [String.compare] does.
    - A JavaScript object used as a record of named properties is an
      association list in insertion order.
    - Code that reads the clock, the environment, the file system or the
      console is a function in the monad [Eff]: it takes the [World], and
      gives back the new world and either a value or the exception thrown.
    - The runtime's [JSON.stringify], [JSON.parse], [String.prototype.localeCompare]
      and the [jsonwebtoken] library are not code of this repository: they are
      variables of the sections that use them. [JSON.parse] gives a value;
      the source types it [AuditLogEntry] and checks nothing, so the reader
      holds whatever the lines hold.
    - The framework's [res.send] and [res.json] are modelled as far as the
      wrapper of the Audit Interceptor can tell them apart: [res.json] calls
      [this.send] with a text, and [res.send] hands what is no text to
      [res.json].
    - An update handler takes the result of its zod schema, the validated
      data or the validation error, as an argument.
    - Numbers are integers: the columns the handlers write are integer
      columns. Where a number is printed it is one JavaScript prints in
      full, below 10^21. *)

From Stdlib Require Import ZArith Ascii String.
From stdpp Require Import base option list sorting strings pretty gmap.

Local Open Scope string_scope.
Local Open Scope Z_scope.
#[local] Set Warnings "-register-all".

(** ** JavaScript values *)

Inductive JsValue : Type :=
| JsUndefined
| JsNull
| JsBool (b : bool)
| JsNumber (n : Z)
| JsString (s : string)
| JsArray (elements : list JsValue)
| JsObject (props : list (string * JsValue)).

Record JsError : Type := mkError { err_name : string; err_message : string }.

(** [a || b] on an optional string: the empty string and [undefined] are falsy. *)
Definition truthy (o : option string) : bool :=
  match o with
  | Some s => negb (String.eqb s "")
  | None => false
  end.

Definition or_else (o : option string) (d : string) : string :=
  match o with
  | Some s => if String.eqb s "" then d else s
  | None => d
  end.

(** [s.split(c)] for a one-character separator [c]. *)
Fixpoint split (c : ascii) (s : string) : list string :=
  match s with
  | EmptyString => [EmptyString]
  | String a rest =>
      if Ascii.eqb a c then EmptyString :: split c rest
      else match split c rest with
           | [] => [String a EmptyString]
           | hd :: tl => String a hd :: tl
           end
  end.

(** Property read [o[k]] on an object in insertion order. *)
Fixpoint obj_get {V : Type} (o : list (string * V)) (k : string) : option V :=
  match o with
  | [] => None
  | (k', v) :: rest => if String.eqb k' k then Some v else obj_get rest k
  end.

(** Property write [o[k] = v]: an existing key keeps its place. *)
Fixpoint obj_set {V : Type} (o : list (string * V)) (k : string) (v : V)
  : list (string * V) :=
  match o with
  | [] => [(k, v)]
  | (k', v') :: rest =>
      if String.eqb k' k then (k, v) :: rest else (k', v') :: obj_set rest k v
  end.

(** ** The audit log entry ([AuditLogEntry] of audit.ts) *)

Record Target : Type := mkTarget {
  target_type : string;
  target_id : string;
  target_name : option string
}.

Record Change : Type := mkChange { from : JsValue; to : JsValue }.

Record AuditLogEntry : Type := mkEntry {
  timestamp : string;
  action : string;
  admin : string;
  target : option Target;
  changes : option (list (string * Change));
  metadata : option (list (string * JsValue));
  ip : string;
  userAgent : option string
}.

(** The [options] argument of [logAuditAction]. *)
Record AuditOptions : Type := mkOptions {
  opt_target : option Target;
  opt_changes : option (list (string * Change));
  opt_metadata : option (list (string * JsValue));
  opt_ip : option string;
  opt_userAgent : option string
}.

(** ** The world: environment, clock, log directory, console *)

Record File : Type := mkFile {
  content : string;
  read_error : option JsError       (* the error [readFileSync] raises, if any *)
}.

Record FileSystem : Type := mkFS {
  logDir : option (list (string * File));   (* [None]: the directory is absent *)
  mkdir_error : option JsError;             (* the error [mkdirSync] raises, if any *)
  append_error : option JsError;            (* the error [appendFileSync] raises, if any *)
  readdir_error : option JsError            (* the error [readdirSync] raises, if any *)
}.

(** A stored row, as the data layer returns it: column name to value. *)
Definition Row : Type := list (string * JsValue).

Record Database : Type := mkDB {
  characters : list (string * Row);   (* by id *)
  items : list (Z * Row);             (* by id *)
  db_error : option JsError           (* the error the next query raises, if any *)
}.

Inductive Level : Type := Log | Warn | Error.

Inductive ConsoleArg : Type :=
| Text (s : string)
| Thrown (e : JsError).

Record ConsoleLine : Type := mkLine { level : Level; args : list ConsoleArg }.

Record World : Type := mkWorld {
  env : gmap string string;       (* [process.env] *)
  clock : nat -> string;          (* the n-th reading of [new Date().toISOString()] *)
  ticks : nat;                    (* readings taken so far *)
  fs : FileSystem;
  console : list ConsoleLine;
  db : Database
}.

Definition set_fs (w : World) (f : FileSystem) : World :=
  mkWorld (env w) (clock w) (ticks w) f (console w) (db w).

Definition set_console (w : World) (c : list ConsoleLine) : World :=
  mkWorld (env w) (clock w) (ticks w) (fs w) c (db w).

Definition set_env (w : World) (e : gmap string string) : World :=
  mkWorld e (clock w) (ticks w) (fs w) (console w) (db w).

Definition set_db (w : World) (d : Database) : World :=
  mkWorld (env w) (clock w) (ticks w) (fs w) (console w) d.

(** ** The effect monad *)

Inductive Outcome (A : Type) : Type :=
| Returns (a : A)
| Throws (e : JsError).
Arguments Returns {A} a.
Arguments Throws {A} e.

Definition Eff (A : Type) : Type := World -> World * Outcome A.

Definition ret {A} (a : A) : Eff A := fun w => (w, Returns a).

Definition throw {A} (e : JsError) : Eff A := fun w => (w, Throws e).

Definition bind {A B} (m : Eff A) (k : A -> Eff B) : Eff B :=
  fun w =>
    match m w with
    | (w', Returns a) => k a w'
    | (w', Throws e) => (w', Throws e)
    end.

(** [try { m } catch (e) { h e }] *)
Definition try_catch {A} (m : Eff A) (h : JsError -> Eff A) : Eff A :=
  fun w =>
    match m w with
    | (w', Returns a) => (w', Returns a)
    | (w', Throws e) => h e w'
    end.

Definition lift {A} (o : Outcome A) : Eff A := fun w => (w, o).

Notation "'let*' x ':=' m 'in' k" := (bind m (fun x => k))
  (at level 10, x name, m at level 100, k at level 200).

(** ** Runtime services *)

Definition getenv (name : string) : Eff (option string) :=
  fun w => (w, Returns (env w !! name)).

(** [new Date().toISOString()] *)
Definition Date_toISOString : Eff string :=
  fun w => (mkWorld (env w) (clock w) (S (ticks w)) (fs w) (console w) (db w),
            Returns (clock w (ticks w))).

Definition console_emit (l : Level) (a : list ConsoleArg) : Eff unit :=
  fun w => (set_console w (console w ++ [mkLine l a]), Returns tt).

(** [fs.existsSync(LOG_DIR)] *)
Definition existsSync : Eff bool :=
  fun w => (w, Returns (match logDir (fs w) with Some _ => true | None => false end)).

Definition ENOENT : JsError := mkError "Error" "ENOENT: no such file or directory".

(** [fs.mkdirSync(LOG_DIR, { recursive: true })] *)
Definition mkdirSync : Eff unit :=
  fun w =>
    match mkdir_error (fs w) with
    | Some e => (w, Throws e)
    | None =>
        match logDir (fs w) with
        | Some _ => (w, Returns tt)
        | None =>
            (set_fs w (mkFS (Some []) None (append_error (fs w)) (readdir_error (fs w))),
             Returns tt)
        end
    end.

(** Appending to a file of the directory: the file is created when absent. *)
Fixpoint append_file (files : list (string * File)) (name data : string)
  : list (string * File) :=
  match files with
  | [] => [(name, mkFile data None)]
  | (n, f) :: rest =>
      if String.eqb n name
      then (n, mkFile (content f ++ data) (read_error f)) :: rest
      else (n, f) :: append_file rest name data
  end.

(** [fs.appendFileSync(path.resolve(LOG_DIR, name), data)] *)
Definition appendFileSync (name data : string) : Eff unit :=
  fun w =>
    match append_error (fs w) with
    | Some e => (w, Throws e)
    | None =>
        match logDir (fs w) with
        | None => (w, Throws ENOENT)
        | Some files =>
            (set_fs w (mkFS (Some (append_file files name data)) (mkdir_error (fs w))
                            None (readdir_error (fs w))),
             Returns tt)
        end
    end.

(** [fs.readdirSync(LOG_DIR)] *)
Definition readdirSync : Eff (list string) :=
  fun w =>
    match readdir_error (fs w) with
    | Some e => (w, Throws e)
    | None =>
        match logDir (fs w) with
        | None => (w, Throws ENOENT)
        | Some files => (w, Returns (map fst files))
        end
    end.

(** [fs.readFileSync(path.join(LOG_DIR, name), 'utf-8')] *)
Definition readFileSync (name : string) : Eff string :=
  fun w =>
    match logDir (fs w) with
    | None => (w, Throws ENOENT)
    | Some files =>
        match obj_get files name with
        | None => (w, Throws ENOENT)
        | Some f =>
            match read_error f with
            | Some e => (w, Throws e)
            | None => (w, Returns (content f))
            end
        end
    end.

(** ** The Audit Recorder (audit.ts, lines 23-81) *)

(** [ensureLogDir] *)
Definition ensureLogDir : Eff unit :=
  let* present := existsSync in
  if negb present then mkdirSync else ret tt.

(** [getLogFilePath]: the file of the current day, [audit-<date>.json]. *)
Definition getLogFilePath : Eff string :=
  let* iso := Date_toISOString in
  let date := hd "" (split "T" iso) in
  ret ("audit-" ++ date ++ ".json").

Definition newline : string := String (ascii_of_nat 10) EmptyString.

(** The console line of [logAuditAction]. *)
Definition audit_console_line (admin action : string) (options : option AuditOptions)
  : ConsoleLine :=
  mkLine Log
    [Text ("[Audit] " ++ admin ++ " performed " ++ action);
     Text (match options with
           | Some o =>
               match opt_target o with
               | Some t => "on " ++ target_type t ++ ":" ++ target_id t
               | None => ""
               end
           | None => ""
           end)].

Definition write_failure_line (e : JsError) : ConsoleLine :=
  mkLine Error [Text "[Audit] Failed to write log:"; Thrown e].

(** The error the write path of [appendToLog] meets first, if any: the
    directory cannot be created, the entry cannot be serialised, or the
    append fails. *)
Definition write_fault (f : FileSystem) (json : Outcome string) : option JsError :=
  match logDir f, mkdir_error f with
  | None, Some e => Some e
  | _, _ =>
      match json with
      | Throws e => Some e
      | Returns _ => append_error f
      end
  end.

Section Recorder.

(** [JSON.stringify] of an entry: the line, or the exception it throws. *)
Variable JSON_stringify : AuditLogEntry -> Outcome string.

(** The body of the [try] block of [appendToLog]. *)
Definition writeEntry (entry : AuditLogEntry) : Eff unit :=
  let* _ := ensureLogDir in
  let* logPath := getLogFilePath in
  let* json := lift (JSON_stringify entry) in
  appendFileSync logPath (json ++ newline).

(** [appendToLog] *)
Definition appendToLog (entry : AuditLogEntry) : Eff unit :=
  let* enabled := getenv "AUDIT_LOG_ENABLED" in
  if negb (bool_decide (enabled = Some "true")) then ret tt
  else
    try_catch (writeEntry entry)
              (fun error => console_emit Error [Text "[Audit] Failed to write log:"; Thrown error]).

Definition buildEntry (now admin action : string) (options : option AuditOptions)
  : AuditLogEntry :=
  {| timestamp := now;
     action := action;
     admin := admin;
     target := o ← options; opt_target o;
     changes := o ← options; opt_changes o;
     metadata := o ← options; opt_metadata o;
     ip := or_else (o ← options; opt_ip o) "unknown";
     userAgent := o ← options; opt_userAgent o |}.

(** [logAuditAction] *)
Definition logAuditAction (admin action : string) (options : option AuditOptions)
  : Eff unit :=
  let* now := Date_toISOString in
  let entry := buildEntry now admin action options in
  let* _ := appendToLog entry in
  console_emit Log (args (audit_console_line admin action options)).

End Recorder.

(** ** The Audit Reader (audit.ts, lines 114-150) *)

(** [s.startsWith(p)] and [s.endsWith(p)] *)
Definition startsWith (s p : string) : bool := String.prefix p s.

Definition endsWith (s p : string) : bool :=
  let n := String.length s in
  let m := String.length p in
  if (m <=? n)%nat then String.eqb (substring (n - m) m s) p else false.

(** [\d] *)
Definition is_digit (a : ascii) : bool :=
  let n := nat_of_ascii a in ((48 <=? n)%nat && (n <=? 57)%nat)%bool.

Definition dash : ascii := "-"%char.

(** [\d{4}-\d{2}-\d{2}] against a whole string *)
Definition date_shape (d : string) : bool :=
  match list_ascii_of_string d with
  | [y1; y2; y3; y4; s1; m1; m2; s2; d1; d2] =>
      (is_digit y1 && is_digit y2 && is_digit y3 && is_digit y4 && Ascii.eqb s1 dash
       && is_digit m1 && is_digit m2 && Ascii.eqb s2 dash
       && is_digit d1 && is_digit d2)%bool
  | _ => false
  end.

(** The pattern [/audit-(\d{4}-\d{2}-\d{2})\.json/] at the start of [s]:
    the captured group. *)
Definition match_here (s : string) : option string :=
  let d := substring 6 10 s in
  if (String.prefix "audit-" s && date_shape d
      && String.eqb (substring 16 5 s) ".json")%bool
  then Some d else None.

(** [file.match(/audit-(\d{4}-\d{2}-\d{2})\.json/)]: the pattern is not
    anchored, the leftmost match wins. *)
Fixpoint match_date (file : string) : option string :=
  match match_here file with
  | Some d => Some d
  | None =>
      match file with
      | EmptyString => None
      | String _ rest => match_date rest
      end
  end.

(** White space of [String.prototype.trim] among the code units below 256. *)
Definition is_space (a : ascii) : bool :=
  let n := nat_of_ascii a in
  ((9 <=? n)%nat && (n <=? 13)%nat || (n =? 32)%nat || (n =? 160)%nat)%bool.

Fixpoint trimStart (s : string) : string :=
  match s with
  | EmptyString => EmptyString
  | String a rest => if is_space a then trimStart rest else s
  end.

Fixpoint trimEnd (s : string) : string :=
  match s with
  | EmptyString => EmptyString
  | String a rest =>
      let rest' := trimEnd rest in
      if (is_space a && String.eqb rest' "")%bool then EmptyString
      else String a rest'
  end.

Definition trim (s : string) : string := trimEnd (trimStart s).

Definition LF : ascii := ascii_of_nat 10.

(** [content.trim().split('\n').filter(Boolean)] *)
Definition fileLines (content : string) : list string :=
  List.filter (fun l => negb (String.eqb l "")) (split LF (trim content)).

Definition parse_warning (line : string) : ConsoleLine :=
  mkLine Warn [Text "[Audit] Failed to parse log line:"; Text line].

(** [Array.prototype.sort(compare)]. The sort is stable, and an exception
    of the comparator ends it. Which pairs the engine compares, in which
    order and with which element first, is its own business: the insertion
    sort below is one stable sort, and it gives the array every stable sort
    gives when the comparator returns, on the elements at hand, a consistent
    order. Statements about a sort that throws are made below only where
    every comparison of two elements throws, which ends every sort of two
    or more elements. *)
Fixpoint insert_by {A : Type} (compare : A -> A -> Outcome Z) (x : A) (l : list A)
  : Outcome (list A) :=
  match l with
  | [] => Returns [x]
  | y :: rest =>
      match compare x y with
      | Throws e => Throws e
      | Returns c =>
          if c <=? 0 then Returns (x :: y :: rest)
          else match insert_by compare x rest with
               | Returns rest' => Returns (y :: rest')
               | Throws e => Throws e
               end
      end
  end.

Fixpoint sort_by {A : Type} (compare : A -> A -> Outcome Z) (l : list A)
  : Outcome (list A) :=
  match l with
  | [] => Returns []
  | x :: rest =>
      match sort_by compare rest with
      | Returns sorted => insert_by compare x sorted
      | Throws e => Throws e
      end
  end.

(** The same sort under a comparator that cannot throw. *)
Fixpoint insert_sorted {A : Type} (compare : A -> A -> Z) (x : A) (l : list A)
  : list A :=
  match l with
  | [] => [x]
  | y :: rest =>
      if compare x y <=? 0 then x :: y :: rest
      else y :: insert_sorted compare x rest
  end.

Definition sort {A : Type} (compare : A -> A -> Z) (l : list A) : list A :=
  foldr (insert_sorted compare) [] l.

Definition TypeError (message : string) : JsError := mkError "TypeError" message.

(** [String(v)], the conversion [localeCompare] applies to its argument. A
    value here comes out of [JSON.parse]: an object converts to
    ["[object Object]"] unless it has a property [toString] of its own,
    which is no function, and then the conversion throws. *)
Fixpoint ToString (v : JsValue) : Outcome string :=
  match v with
  | JsUndefined => Returns "undefined"
  | JsNull => Returns "null"
  | JsBool b => Returns (if b then "true" else "false")
  | JsNumber n => Returns (pretty n)
  | JsString s => Returns s
  | JsArray elements =>
      (fix join (l : list JsValue) : Outcome string :=
         match l with
         | [] => Returns ""
         | x :: rest =>
             match match x with
                   | JsUndefined | JsNull => Returns ""
                   | _ => ToString x
                   end with
             | Throws e => Throws e
             | Returns first =>
                 match rest with
                 | [] => Returns first
                 | _ => match join rest with
                        | Returns others => Returns (first ++ "," ++ others)
                        | Throws e => Throws e
                        end
                 end
             end
         end) elements
  | JsObject props =>
      if existsb (String.eqb "toString") (map fst props)
      then Throws (TypeError "Cannot convert object to primitive value")
      else Returns "[object Object]"
  end.

(** [v.timestamp]: [null] and [undefined] have no properties to read; a
    value that is no object has no property of that name. *)
Definition read_timestamp (v : JsValue) : Outcome JsValue :=
  match v with
  | JsUndefined | JsNull =>
      Throws (TypeError "Cannot read properties of null (reading 'timestamp')")
  | JsObject props => Returns (default JsUndefined (obj_get props "timestamp"))
  | JsBool _ | JsNumber _ | JsString _ | JsArray _ => Returns JsUndefined
  end.

Section Reader.

(** [JSON.parse] of a line: the value, whatever it is (the source types it
    [AuditLogEntry] and checks nothing); [Throws] is the [SyntaxError] of a
    malformed line. *)
Variable JSON_parse : string -> Outcome JsValue.

(** [a.localeCompare(b)]: negative, zero or positive. *)
Variable localeCompare : string -> string -> Z.

(** The comparator [(a, b) => b.timestamp.localeCompare(a.timestamp)]:
    [b.timestamp] is read, then its [localeCompare], then [a.timestamp];
    the call needs a string on its left and converts what is on its
    right. *)
Definition newest_first (a b : JsValue) : Outcome Z :=
  match read_timestamp b with
  | Throws e => Throws e
  | Returns (JsUndefined | JsNull) =>
      Throws (TypeError "Cannot read properties of undefined (reading 'localeCompare')")
  | Returns tb =>
      match read_timestamp a with
      | Throws e => Throws e
      | Returns ta =>
          match tb with
          | JsString s =>
              match ToString ta with
              | Returns t => Returns (localeCompare s t)
              | Throws e => Throws e
              end
          | _ => Throws (TypeError "b.timestamp.localeCompare is not a function")
          end
      end
  end.

(** The inner loop over the lines of one file (lines 140-146). *)
Fixpoint parseLines (lines : list string) (entries : list JsValue)
  : Eff (list JsValue) :=
  match lines with
  | [] => ret entries
  | line :: rest =>
      let* entries' :=
        try_catch
          (let* e := lift (JSON_parse line) in ret (entries ++ [e])%list)
          (fun _ =>
             let* _ := console_emit Warn (args (parse_warning line)) in
             ret entries) in
      parseLines rest entries'
  end.

(** The loop over the files (lines 126-147); [continue] skips to the rest. *)
Fixpoint readFiles (startDate endDate : option string) (files : list string)
  (entries : list JsValue) : Eff (list JsValue) :=
  match files with
  | [] => ret entries
  | file :: rest =>
      match match_date file with
      | None => readFiles startDate endDate rest entries
      | Some fileDate =>
          if (truthy startDate && String.ltb fileDate (default "" startDate))%bool
          then readFiles startDate endDate rest entries
          else if (truthy endDate && String.ltb (default "" endDate) fileDate)%bool
          then readFiles startDate endDate rest entries
          else
            let* content := readFileSync file in
            let* entries' := parseLines (fileLines content) entries in
            readFiles startDate endDate rest entries'
      end
  end.

(** [readAuditLogs] *)
Definition readAuditLogs (startDate endDate : option string)
  : Eff (list JsValue) :=
  let* _ := ensureLogDir in
  let* names := readdirSync in
  let files :=
    List.filter (fun f => (startsWith f "audit-" && endsWith f ".json")%bool) names in
  let* entries := readFiles startDate endDate files [] in
  lift (sort_by newest_first entries).

End Reader.


(** ** What a read is expected to give *)

(** The date [d] lies in the inclusive range; a bound that is absent or the
    empty string is no bound. *)
Definition InRange (startDate endDate : option string) (d : string) : Prop :=
  (forall a, startDate = Some a -> a <> "" -> String.leb a d = true)
  /\ (forall b, endDate = Some b -> b <> "" -> String.leb d b = true).

(** A decimal digit. *)
Definition Digit (a : ascii) : Prop :=
  In a ["0"; "1"; "2"; "3"; "4"; "5"; "6"; "7"; "8"; "9"]%char.

(** A date as a file name carries it: [YYYY-MM-DD]. *)
Definition IsDate (d : string) : Prop :=
  exists y1 y2 y3 y4 m1 m2 d1 d2,
    Forall Digit [y1; y2; y3; y4; m1; m2; d1; d2]
    /\ d = string_of_list_ascii [y1; y2; y3; y4; "-"; m1; m2; "-"; d1; d2]%char.

(** The text [audit-<d>.json] stands in [file] after [n] characters. *)
Definition Embeds (file d : string) (n : nat) : Prop :=
  IsDate d
  /\ exists before after,
       file = before ++ "audit-" ++ d ++ ".json" ++ after
       /\ String.length before = n.

(** The date a file name embeds is that of the first such text in it. *)
Definition EmbeddedDate (file d : string) : Prop :=
  exists n, Embeds file d n /\ forall m d', (m < n)%nat -> ~ Embeds file d' m.

(** A daily log file: the name starts with [audit-], ends with [.json] and
    embeds the date [d]. The name the recorder gives the file of a day,
    [audit-<d>.json], is the plain case. *)
Definition DailyFile (file d : string) : Prop :=
  (exists rest, file = "audit-" ++ rest)
  /\ (exists stem, file = stem ++ ".json")
  /\ EmbeddedDate file d.

(** The filters of [readAuditLogs] as one test on a name. *)
Definition in_window (startDate endDate : option string) (file : string) : bool :=
  match match_date file with
  | None => false
  | Some d =>
      (negb (truthy startDate && String.ltb d (default "" startDate))
       && negb (truthy endDate && String.ltb (default "" endDate) d))%bool
  end.

Definition selected (startDate endDate : option string) (file : string) : bool :=
  (startsWith file "audit-" && endsWith file ".json"
   && in_window startDate endDate file)%bool.

(** The error reading the file [name] raises, if any. *)
Definition read_fault (files : list (string * File)) (name : string) : option JsError :=
  match obj_get files name with
  | None => Some ENOENT
  | Some f => read_error f
  end.

Definition first_read_fault (files : list (string * File)) (names : list string)
  : option JsError :=
  head (omap (read_fault files) names).

(** The names before the first one that cannot be read. *)
Fixpoint before_fault (files : list (string * File)) (names : list string)
  : list string :=
  match names with
  | [] => []
  | name :: rest =>
      match read_fault files name with
      | Some _ => []
      | None => name :: before_fault files rest
      end
  end.

Definition content_of (files : list (string * File)) (name : string) : string :=
  match obj_get files name with
  | Some f => content f
  | None => ""
  end.

(** The shape of [Date.prototype.toISOString]: [YYYY-MM-DDTHH:mm:ss.sssZ]. *)
Definition iso_timestamp (s : string) : bool :=
  match list_ascii_of_string s with
  | [y1; y2; y3; y4; p1; m1; m2; p2; d1; d2; t; h1; h2; p3; i1; i2; p4; s1; s2; p5;
     f1; f2; f3; z] =>
      (forallb is_digit [y1; y2; y3; y4; m1; m2; d1; d2; h1; h2; i1; i2; s1; s2; f1; f2; f3]
       && String.eqb (string_of_list_ascii [p1; p2; t; p3; p4; p5; z]) "--T::.Z")%bool
  | _ => false
  end.


(** The content of a file to which the lines were appended one by one, each
    followed by a line feed, as [appendToLog] does. *)
Definition written (lines : list string) : string :=
  fold_right (fun l rest => l ++ String LF rest) "" lines.

Fixpoint no_line_feed (s : string) : bool :=
  match s with
  | EmptyString => true
  | String a rest => (negb (Ascii.eqb a LF) && no_line_feed rest)%bool
  end.

Fixpoint ends_visible (s : string) : bool :=
  match s with
  | EmptyString => false
  | String a EmptyString => negb (is_space a)
  | String _ rest => ends_visible rest
  end.

(** A line of text: no line feed inside, and a visible character at each end. *)
Definition text_line (l : string) : bool :=
  match l with
  | EmptyString => false
  | String a _ => (negb (is_space a) && no_line_feed l && ends_visible l)%bool
  end.

Section ReaderSpec.

Variable JSON_parse : string -> Outcome JsValue.

Definition parsed_line (line : string) : option JsValue :=
  match JSON_parse line with
  | Returns e => Some e
  | Throws _ => None
  end.

Definition malformed (line : string) : bool :=
  match JSON_parse line with
  | Returns _ => false
  | Throws _ => true
  end.

(** The values of the lines that parse, in the order of the lines. *)
Definition entries_of (lines : list string) : list JsValue :=
  omap parsed_line lines.

(** One warning for each line that does not parse. *)
Definition warnings_of (lines : list string) : list ConsoleLine :=
  map parse_warning (List.filter malformed lines).

Definition collected (files : list (string * File)) (names : list string)
  : list JsValue :=
  flat_map (fun name => entries_of (fileLines (content_of files name))) names.

Definition collected_warnings (files : list (string * File)) (names : list string)
  : list ConsoleLine :=
  flat_map (fun name => warnings_of (fileLines (content_of files name))) names.

End ReaderSpec.

(** The time stamp of a value that is an entry: an object with a string
    under [timestamp]. *)
Definition stamp (v : JsValue) : option string :=
  match v with
  | JsObject props =>
      match obj_get props "timestamp" with
      | Some (JsString s) => Some s
      | _ => None
      end
  | _ => None
  end.

(** An entry, as far as the reader's sort looks at it. *)
Definition Entry (v : JsValue) : Prop := is_Some (stamp v).

(** The number the comparator of the reader returns for two entries. *)
Definition by_stamp (localeCompare : string -> string -> Z) (a b : JsValue) : Z :=
  localeCompare (default "" (stamp b)) (default "" (stamp a)).

(** Newest first: both are entries, and the time stamp of [a] is not below
    that of [b]. *)
Definition newer_or_same (a b : JsValue) : Prop :=
  exists ta tb, stamp a = Some ta /\ stamp b = Some tb /\ String.leb tb ta = true.

(** ** What it means that an entry was recorded *)

(** The line the recorder prints for an entry. *)
Definition audit_line_of (e : AuditLogEntry) : ConsoleLine :=
  mkLine Log [Text ("[Audit] " ++ admin e ++ " performed " ++ action e);
              Text (match target e with
                    | Some t => "on " ++ target_type t ++ ":" ++ target_id t
                    | None => ""
                    end)].

(** Between [w] and [w'] the entry [e] was recorded. The entry carries the
    time of [w]. The console has gained the entry's line, after error lines
    only. With persistence off the files are as they were. With persistence
    on and no fault in the way (the entry has a JSON text, the directory is
    there or can be made, the append succeeds) the file of the day has
    gained that text and a line feed, and no other file has changed.
    Environment and database are as they were. *)
Definition Recorded (stringify : AuditLogEntry -> Outcome string)
  (e : AuditLogEntry) (w w' : World) : Prop :=
  let file := "audit-" ++ hd "" (split "T" (clock w (S (ticks w)))) ++ ".json" in
  let before := default [] (logDir (fs w)) in
  timestamp e = clock w (ticks w)
  /\ env w' = env w /\ db w' = db w
  /\ (exists errs, console w' = (console w ++ errs ++ [audit_line_of e])%list
                   /\ Forall (fun l => level l = Error) errs)
  /\ (env w !! "AUDIT_LOG_ENABLED" <> Some "true" ->
      fs w' = fs w /\ console w' = (console w ++ [audit_line_of e])%list)
  /\ (env w !! "AUDIT_LOG_ENABLED" = Some "true" ->
      forall text,
        stringify e = Returns text ->
        (logDir (fs w) = None -> mkdir_error (fs w) = None) ->
        append_error (fs w) = None ->
        console w' = (console w ++ [audit_line_of e])%list
        /\ exists after,
             logDir (fs w') = Some after
             /\ forall name,
                  content_of after name =
                    if String.eqb file name
                    then content_of before file ++ text ++ newline
                    else content_of before name).

(** ** Requests and responses *)

(** [AdminPayload] of auth.ts *)
Record AdminPayload : Type := mkAdmin { username : string; iat : Z; exp : Z }.

Record Request : Type := mkRequest {
  method : string;
  path : string;
  params : list (string * string);
  query : list (string * string);
  req_ip : option string;
  remoteAddress : option string;          (* [req.socket?.remoteAddress] *)
  headers : list (string * string);
  cookies : list (string * string);
  req_admin : option AdminPayload;        (* [req.admin] *)
  body : list (string * JsValue)
}.

(** The function stored in [res.send]: the framework's own, or the wrapper
    [auditMiddleware] installs around the function it found there. *)
Inductive SendFn : Type :=
| originalSend
| auditedSend (actionPrefix : string) (inner : SendFn).

Record Cookie : Type := mkCookie {
  cookie_name : string;
  cookie_value : string;
  httpOnly : bool;
  secure : bool;
  sameSite : string;
  maxAge : Z
}.

Record Response : Type := mkResponse {
  statusCode : Z;
  send : SendFn;
  emitted : list (Z * JsValue);           (* what went out: status and body *)
  set_cookies : list Cookie
}.

(** The request and the response of one exchange: the two objects every
    middleware and handler of the exchange shares. *)
Record Exchange : Type := mkExchange { req : Request; res : Response }.

Definition set_admin (x : Exchange) (a : AdminPayload) : Exchange :=
  let r := req x in
  mkExchange
    (mkRequest (method r) (path r) (params r) (query r) (req_ip r) (remoteAddress r)
               (headers r) (cookies r) (Some a) (body r))
    (res x).

(** [res.status(code)] *)
Definition status (code : Z) (x : Exchange) : Exchange :=
  let r := res x in
  mkExchange (req x) (mkResponse code (send r) (emitted r) (set_cookies r)).

Definition set_send (x : Exchange) (f : SendFn) : Exchange :=
  let r := res x in
  mkExchange (req x) (mkResponse (statusCode r) f (emitted r) (set_cookies r)).

(** The framework's [send]: the response goes out with the current status. *)
Definition emit (payload : JsValue) (x : Exchange) : Exchange :=
  let r := res x in
  mkExchange (req x)
    (mkResponse (statusCode r) (send r) (emitted r ++ [(statusCode r, payload)])
                (set_cookies r)).

(** [res.cookie(name, value, options)] *)
Definition cookie (c : Cookie) (x : Exchange) : Exchange :=
  let r := res x in
  mkExchange (req x)
    (mkResponse (statusCode r) (send r) (emitted r) (set_cookies r ++ [c])).

Definition mutating_methods : list string := ["POST"; "PUT"; "PATCH"; "DELETE"].

(** [list.includes(s)] *)
Definition includes (l : list string) (s : string) : bool :=
  existsb (String.eqb s) l.

Definition error_body (message : string) : JsValue :=
  JsObject [("error", JsString message)].

(** ** The Audit Interceptor (audit.ts, lines 83-112) *)

Section Interceptor.

Variable JSON_stringify : AuditLogEntry -> Outcome string.

(** The options the wrapper passes to [logAuditAction] (lines 95-103). *)
Definition interceptor_options (x : Exchange) : AuditOptions :=
  {| opt_target := None;
     opt_changes := None;
     opt_metadata :=
       Some [("path", JsString (path (req x)));
             ("params", JsObject (map (fun kv => (fst kv, JsString (snd kv)))
                                      (params (req x))));
             ("statusCode", JsNumber (statusCode (res x)))];
     opt_ip := Some (or_else (req_ip (req x))
                             (or_else (remoteAddress (req x)) "unknown"));
     opt_userAgent := obj_get (headers (req x)) "user-agent" |}.

(** The [if] of the wrapper (lines 89-105): it reads [req] and [res] when
    it runs; they are the objects of the exchange. *)
Definition auditedSend_log (actionPrefix : string) (x : Exchange) : Eff unit :=
  if (includes mutating_methods (method (req x))
      && (statusCode (res x) <? 400))%bool
  then
    logAuditAction JSON_stringify
      (or_else (username <$> req_admin (req x)) "unknown")
      (actionPrefix ++ "_" ++ method (req x))
      (Some (interceptor_options x))
  else ret tt.

(** Calling the function [f] as [res.send(text)], [text] being the JSON
    text of [payload]: a string, which the framework's [send] writes out.
    A response is kept as the value it carries. *)
Fixpoint call_send_text (f : SendFn) (payload : JsValue) (x : Exchange)
  : Eff Exchange :=
  match f with
  | originalSend => ret (emit payload x)
  | auditedSend actionPrefix inner =>
      let* _ := auditedSend_log actionPrefix x in
      call_send_text inner payload x
  end.

(** [res.json(payload)]: the framework serialises and calls [this.send],
    the function stored in [res.send] at that time, with the text. *)
Definition json (payload : JsValue) (x : Exchange) : Eff Exchange :=
  call_send_text (send (res x)) payload x.

(** The framework's [send] hands a boolean, a number and an object other
    than [null] to [this.json]; a string, [undefined] and [null] it writes
    out itself. *)
Definition sent_as_json (payload : JsValue) : bool :=
  match payload with
  | JsBool _ | JsNumber _ | JsArray _ | JsObject _ => true
  | JsUndefined | JsNull | JsString _ => false
  end.

(** Calling the function [f] as [res.send(payload)]. *)
Fixpoint call_send (f : SendFn) (payload : JsValue) (x : Exchange) : Eff Exchange :=
  match f with
  | originalSend =>
      if sent_as_json payload then json payload x else ret (emit payload x)
  | auditedSend actionPrefix inner =>
      let* _ := auditedSend_log actionPrefix x in
      call_send inner payload x
  end.

(** [res.send(payload)] *)
Definition res_send (payload : JsValue) (x : Exchange) : Eff Exchange :=
  call_send (send (res x)) payload x.

(** [auditMiddleware(actionPrefix)] applied to an exchange, with [next]
    the rest of the chain. *)
Definition auditMiddleware (actionPrefix : string) (x : Exchange)
  (next : Exchange -> Eff Exchange) : Eff Exchange :=
  let originalSend := send (res x) in
  next (set_send x (auditedSend actionPrefix originalSend)).

End Interceptor.

(** ** Values in conditions and comparisons *)

(** [!v] is [negb (js_truthy v)] *)
Definition js_truthy (v : JsValue) : bool :=
  match v with
  | JsUndefined | JsNull => false
  | JsBool b => b
  | JsNumber n => negb (n =? 0)
  | JsString s => negb (String.eqb s "")
  | JsArray _ | JsObject _ => true
  end.

(** [a === b]; two objects are equal only when they are one object, which
    no comparison of this program meets. *)
Definition strict_eq (a b : JsValue) : bool :=
  match a, b with
  | JsUndefined, JsUndefined => true
  | JsNull, JsNull => true
  | JsBool x, JsBool y => Bool.eqb x y
  | JsNumber x, JsNumber y => x =? y
  | JsString x, JsString y => String.eqb x y
  | _, _ => false
  end.

Definition primitive (v : JsValue) : Prop :=
  match v with
  | JsArray _ | JsObject _ => False
  | _ => True
  end.

(** [o[k]] as a value: [undefined] for a missing property. *)
Definition get (o : Row) (k : string) : JsValue := default JsUndefined (obj_get o k).

(** A value at a place the source types [string]. *)
Definition string_of (v : JsValue) : string :=
  match v with
  | JsString s => s
  | _ => ""
  end.

(** ** The Auth Gate and the login handler (auth.ts) *)

Section Auth.

Variable JSON_stringify : AuditLogEntry -> Outcome string.

(** [jwt.sign({ username }, secret, { expiresIn })] *)
Variable jwt_sign : JsValue -> string -> string -> Outcome string.

(** [jwt.verify(token, secret)] *)
Variable jwt_verify : string -> string -> Outcome AdminPayload.

(** [validateAdminCredentials] *)
Definition validateAdminCredentials (username password : JsValue) : Eff bool :=
  let* adminUsername := getenv "ADMIN_USERNAME" in
  let* adminPassword := getenv "ADMIN_PASSWORD" in
  if (negb (truthy adminUsername) || negb (truthy adminPassword))%bool then
    let* _ := console_emit Error
                [Text "[Auth] ADMIN_USERNAME or ADMIN_PASSWORD not configured"] in
    ret false
  else if negb (strict_eq username (JsString (default "" adminUsername))) then
    ret false
  else
    ret (strict_eq password (JsString (default "" adminPassword))).

(** [generateToken] *)
Definition generateToken (username : JsValue) : Eff string :=
  let* secret := getenv "JWT_SECRET" in
  if negb (truthy secret) then throw (mkError "Error" "JWT_SECRET is not configured")
  else
    let* configured := getenv "JWT_EXPIRES_IN" in
    let expiresIn := or_else configured "24h" in
    lift (jwt_sign username (default "" secret) expiresIn).

(** [verifyToken] *)
Definition verifyToken (token : string) : Eff (option AdminPayload) :=
  let* secret := getenv "JWT_SECRET" in
  if negb (truthy secret) then throw (mkError "Error" "JWT_SECRET is not configured")
  else
    try_catch
      (let* payload := lift (jwt_verify token (default "" secret)) in ret (Some payload))
      (fun _ => ret None).

(** [authMiddleware] *)
Definition authMiddleware (x : Exchange) (next : Exchange -> Eff Exchange)
  : Eff Exchange :=
  let authHeader := obj_get (headers (req x)) "authorization" in
  let adminToken := obj_get (cookies (req x)) "adminToken" in
  let token :=
    if (truthy authHeader && startsWith (default "" authHeader) "Bearer ")%bool
    then (fun h => substring 7 (String.length h - 7) h) <$> authHeader
    else if truthy adminToken then adminToken
    else None in
  if negb (truthy token) then
    json JSON_stringify (error_body "Authentication required") (status 401 x)
  else
    let* payload := verifyToken (default "" token) in
    match payload with
    | None =>
        json JSON_stringify (error_body "Invalid or expired token") (status 401 x)
    | Some p => next (set_admin x p)
    end.

Definition login_failed_options (username : JsValue) (x : Exchange) : AuditOptions :=
  {| opt_target := None;
     opt_changes := None;
     opt_metadata := Some [("username", username)];
     opt_ip := Some (or_else (req_ip (req x)) "unknown");
     opt_userAgent := None |}.

Definition login_success_options (x : Exchange) : AuditOptions :=
  {| opt_target := None;
     opt_changes := None;
     opt_metadata := None;
     opt_ip := Some (or_else (req_ip (req x)) "unknown");
     opt_userAgent := None |}.

Definition login_body (username : JsValue) (token : string) : JsValue :=
  JsObject [("success", JsBool true);
            ("token", JsString token);
            ("user", JsObject [("username", username); ("role", JsString "admin")])].

(** The handler of [POST /login] (routes/auth.ts, lines 8-53). No statement
    of its [try] block that can throw follows a change of the response, so
    the [catch] block runs on the exchange as the handler received it. *)
Definition login (x : Exchange) : Eff Exchange :=
  try_catch
    (let username := get (body (req x)) "username" in
     let password := get (body (req x)) "password" in
     if (negb (js_truthy username) || negb (js_truthy password))%bool then
       json JSON_stringify (error_body "Username and password are required")
            (status 400 x)
     else
       let* isValid := validateAdminCredentials username password in
       if negb isValid then
         let* _ := logAuditAction JSON_stringify "anonymous" "LOGIN_FAILED"
                     (Some (login_failed_options username x)) in
         json JSON_stringify (error_body "Invalid credentials") (status 401 x)
       else
         let* token := generateToken username in
         let* nodeEnv := getenv "NODE_ENV" in
         let x1 :=
           cookie {| cookie_name := "adminToken";
                     cookie_value := token;
                     httpOnly := true;
                     secure := bool_decide (nodeEnv = Some "production");
                     sameSite := "strict";
                     maxAge := 24 * 60 * 60 * 1000 |} x in
         let* _ := logAuditAction JSON_stringify (string_of username) "LOGIN_SUCCESS"
                     (Some (login_success_options x1)) in
         json JSON_stringify (login_body username token) x1)
    (fun error =>
       let* _ := console_emit Error [Text "[Auth] Login error:"; Thrown error] in
       json JSON_stringify (error_body "Internal server error") (status 500 x)).

End Auth.

(** ** The route wiring (routes/index.ts and the routers it mounts) *)

Inductive Middleware : Type :=
| AuthGate                                   (* [authMiddleware] *)
| AuditInterceptor (actionPrefix : string).  (* [auditMiddleware(actionPrefix)] *)

Inductive Layer : Type :=
| Route (verb pattern : string) (chain : list Middleware)
| Mount (pattern : string) (chain : list Middleware) (sub : list Layer).

Definition authRoutes : list Layer :=
  [Route "POST" "/login" []; Route "POST" "/logout" []].

Definition dashboardRoutes : list Layer :=
  [Route "GET" "/" []; Route "GET" "/connection" []].

Definition usersRoutes : list Layer :=
  [Route "GET" "/" []; Route "GET" "/:id" []; Route "PATCH" "/:id" [];
   Route "POST" "/:id/grant-premium" []; Route "DELETE" "/:id" [];
   Route "POST" "/:id/premium-accounts" [];
   Route "PATCH" "/:id/premium-accounts/:accountId" [];
   Route "DELETE" "/:id/premium-accounts/:accountId" []].

Definition charactersRoutes : list Layer :=
  [Route "GET" "/" []; Route "GET" "/:id" []; Route "PATCH" "/:id" [];
   Route "PATCH" "/:id/stats" []; Route "POST" "/:id/add-currency" [];
   Route "POST" "/:id/send-message" []; Route "POST" "/:id/reset-progress" [];
   Route "POST" "/:id/add-item" []; Route "DELETE" "/:id/items/:itemId" [];
   Route "PATCH" "/:id/village" []; Route "POST" "/:id/kick-from-guild" [];
   Route "PATCH" "/:id/arena" []; Route "GET" "/:id/inbox" [];
   Route "DELETE" "/:id/inbox" []].

Definition guildsRoutes : list Layer :=
  [Route "GET" "/" []; Route "GET" "/:id" []; Route "PATCH" "/:id" [];
   Route "POST" "/:id/kick-member" []; Route "POST" "/:id/change-rank" [];
   Route "POST" "/:id/add-currency" []].

Definition itemsRoutes : list Layer :=
  [Route "GET" "/" []; Route "GET" "/types" []; Route "GET" "/:id" [];
   Route "PATCH" "/:id" []; Route "POST" "/create-for-character" [];
   Route "DELETE" "/:id" []].

Definition transactionsRoutes : list Layer :=
  [Route "GET" "/" []; Route "GET" "/:id" []; Route "GET" "/stats/summary" []].

Definition arenaRoutes : list Layer :=
  [Route "GET" "/leagues" []; Route "GET" "/rankings" [];
   Route "GET" "/leagues/:id/rankings" []; Route "PATCH" "/leagues/:id" [];
   Route "GET" "/battles" []; Route "POST" "/rankings/:characterId/adjust" []].

Definition is_interceptor (m : Middleware) : bool :=
  match m with
  | AuthGate => false
  | AuditInterceptor _ => true
  end.

(** [router] of routes/index.ts *)
Definition router : list Layer :=
  [Mount "/auth" [] authRoutes;
   Route "GET" "/auth/me" [AuthGate];
   Route "GET" "/health" [];
   Mount "/dashboard" [AuthGate] dashboardRoutes;
   Mount "/users" [AuthGate] usersRoutes;
   Mount "/characters" [AuthGate] charactersRoutes;
   Mount "/guilds" [AuthGate] guildsRoutes;
   Mount "/items" [AuthGate] itemsRoutes;
   Mount "/transactions" [AuthGate] transactionsRoutes;
   Mount "/arena" [AuthGate] arenaRoutes;
   Route "GET" "/audit-logs" [AuthGate];
   Route "POST" "/system/broadcast" [AuthGate]].

(** The middleware a request passes, in order, before each handler. *)
Fixpoint layer_chains (passed : list Middleware) (l : Layer) : list (list Middleware) :=
  match l with
  | Route _ _ chain => [(passed ++ chain)%list]
  | Mount _ chain sub => flat_map (layer_chains (passed ++ chain)%list) sub
  end.

Definition chains (ls : list Layer) : list (list Middleware) :=
  flat_map (layer_chains []) ls.

Section Dispatch.

Variable JSON_stringify : AuditLogEntry -> Outcome string.
Variable jwt_verify : string -> string -> Outcome AdminPayload.

(** Running a chain, then the handler. *)
Fixpoint run_chain (chain : list Middleware) (handler : Exchange -> Eff Exchange)
  (x : Exchange) : Eff Exchange :=
  match chain with
  | [] => handler x
  | AuthGate :: rest =>
      authMiddleware JSON_stringify jwt_verify x (run_chain rest handler)
  | AuditInterceptor actionPrefix :: rest =>
      auditMiddleware actionPrefix x (run_chain rest handler)
  end.

End Dispatch.

(** ** The data layer, as the update handlers use it *)

(** The selected columns of a row ([select: { c: true, ... }]). *)
Definition select (columns : list string) (r : Row) : Row :=
  omap (fun c => (fun v => (c, v)) <$> obj_get r c) columns.

(** The row after [data] is written; an [undefined] value writes nothing. *)
Definition apply_update (data : Row) (r : Row) : Row :=
  fold_left (fun r' kv => if strict_eq (snd kv) JsUndefined then r'
                          else obj_set r' (fst kv) (snd kv))
            data r.

Definition RecordNotFound : JsError :=
  mkError "PrismaClientKnownRequestError" "Record to update not found.".

Definition InvalidArgument : JsError :=
  mkError "PrismaClientValidationError" "Invalid value provided.".

(** [prisma.character.findUnique({ where: { id }, select })] *)
Definition character_findUnique (id : string) (columns : list string)
  : Eff (option Row) :=
  fun w =>
    match db_error (db w) with
    | Some e => (w, Throws e)
    | None => (w, Returns (select columns <$> obj_get (characters (db w)) id))
    end.

(** [prisma.character.update({ where: { id }, data, select })] *)
Definition character_update (id : string) (data : Row) (columns : list string)
  : Eff Row :=
  fun w =>
    match db_error (db w) with
    | Some e => (w, Throws e)
    | None =>
        match obj_get (characters (db w)) id with
        | None => (w, Throws RecordNotFound)
        | Some r =>
            let r' := apply_update data r in
            (set_db w (mkDB (obj_set (characters (db w)) id r') (items (db w)) None),
             Returns (select columns r'))
        end
    end.

Definition find_item (id : Z) (rows : list (Z * Row)) : option Row :=
  snd <$> List.find (fun p => fst p =? id) rows.

Fixpoint store_item (id : Z) (r : Row) (rows : list (Z * Row)) : list (Z * Row) :=
  match rows with
  | [] => [(id, r)]
  | (i, r0) :: rest =>
      if i =? id then (id, r) :: rest else (i, r0) :: store_item id r rest
  end.

(** [prisma.item.findUnique({ where: { id }, select })]; [None] as [id] is
    [NaN], which the data layer refuses. *)
Definition item_findUnique (id : option Z) (columns : list string)
  : Eff (option Row) :=
  fun w =>
    match db_error (db w), id with
    | Some e, _ => (w, Throws e)
    | None, None => (w, Throws InvalidArgument)
    | None, Some i => (w, Returns (select columns <$> find_item i (items (db w))))
    end.

(** [prisma.item.update({ where: { id }, data })] *)
Definition item_update (id : option Z) (data : Row) : Eff Row :=
  fun w =>
    match db_error (db w), id with
    | Some e, _ => (w, Throws e)
    | None, None => (w, Throws InvalidArgument)
    | None, Some i =>
        match find_item i (items (db w)) with
        | None => (w, Throws RecordNotFound)
        | Some r =>
            let r' := apply_update data r in
            (set_db w (mkDB (characters (db w)) (store_item i r' (items (db w))) None),
             Returns r')
        end
    end.

(** [parseInt(s, 10)]: [None] is [NaN]. *)
Fixpoint leading_digits (s : string) (acc : option Z) : option Z :=
  match s with
  | EmptyString => acc
  | String a rest =>
      if is_digit a
      then leading_digits rest (Some (10 * default 0 acc + (Z.of_nat (nat_of_ascii a) - 48)))
      else acc
  end.

Definition parseInt (s : string) : option Z :=
  match trimStart s with
  | String "-" rest => Z.opp <$> leading_digits rest None
  | String "+" rest => leading_digits rest None
  | t => leading_digits t None
  end.

(** ** The update handlers of characters.ts and items.ts *)

Definition character_current_columns : list string :=
  ["name"; "level"; "gold"; "coins"; "honor"; "stamina"; "health"; "isPremium"].

Definition character_updated_columns : list string :=
  ["id"; "name"; "level"; "experience"; "gold"; "coins"; "honor"; "stamina";
   "health"; "isPremium"].

(** The keys of [updateCharacterSchema], in the order of the schema. *)
Definition character_schema_keys : list string :=
  ["level"; "experience"; "gold"; "coins"; "honor"; "stamina"; "health"; "isPremium"].

(** The loop that builds [changes] (characters.ts, lines 227-232). *)
Definition characterChanges (data current : Row) : list (string * Change) :=
  fold_left
    (fun changes key =>
       if (negb (strict_eq (get data key) JsUndefined)
           && negb (strict_eq (get current key) (get data key)))%bool
       then obj_set changes key {| from := get current key; to := get data key |}
       else changes)
    (map fst data) [].

(** [Object.fromEntries(Object.entries(data).map(([k, v]) => [k, { from: 'N/A', to: v }]))]
    (items.ts, line 168) *)
Definition itemChanges (data : Row) : list (string * Change) :=
  fold_left
    (fun changes kv => obj_set changes (fst kv) {| from := JsString "N/A"; to := snd kv |})
    data [].

Definition name_of (current : Row) : option string :=
  match obj_get current "name" with
  | Some (JsString s) => Some s
  | _ => None
  end.

Definition update_options (type id : string) (current : Row)
  (changes : list (string * Change)) (x : Exchange) : AuditOptions :=
  {| opt_target := Some {| target_type := type; target_id := id;
                           target_name := name_of current |};
     opt_changes := Some changes;
     opt_metadata := None;
     opt_ip := Some (or_else (req_ip (req x)) "unknown");
     opt_userAgent := None |}.

Section Handlers.

Variable JSON_stringify : AuditLogEntry -> Outcome string.
Variable JSON_parse : string -> Outcome JsValue.
Variable localeCompare : string -> string -> Z.

(** The handler of [PATCH /characters/:id] (lines 193-245). [parsed] is the
    result of [updateCharacterSchema.parse(req.body)]: the validated data,
    or the validation error. *)
Definition patchCharacter (parsed : Outcome Row) (x : Exchange) : Eff Exchange :=
  try_catch
    (let id := default "" (obj_get (params (req x)) "id") in
     let* data := lift parsed in
     let* current := character_findUnique id character_current_columns in
     match current with
     | None => json JSON_stringify (error_body "Character not found") (status 404 x)
     | Some current =>
         let* updated := character_update id data character_updated_columns in
         let changes := characterChanges data current in
         let* _ := logAuditAction JSON_stringify
                     (or_else (username <$> req_admin (req x)) "unknown")
                     "CHARACTER_UPDATE"
                     (Some (update_options "character" id current changes x)) in
         json JSON_stringify (JsObject updated) x
     end)
    (fun error =>
       let* _ := console_emit Error [Text "[Characters] Update error:"; Thrown error] in
       json JSON_stringify (error_body "Failed to update character") (status 500 x)).

(** The handler of [PATCH /items/:id] (items.ts, lines 133-177). *)
Definition patchItem (parsed : Outcome Row) (x : Exchange) : Eff Exchange :=
  try_catch
    (let id := parseInt (default "" (obj_get (params (req x)) "id")) in
     let* data := lift parsed in
     let* current := item_findUnique id ["name"] in
     match current with
     | None => json JSON_stringify (error_body "Item not found") (status 404 x)
     | Some current =>
         let* updated := item_update id data in
         let* _ := logAuditAction JSON_stringify
                     (or_else (username <$> req_admin (req x)) "unknown")
                     "ITEM_UPDATE"
                     (Some (update_options "item" (pretty (default 0 id)) current
                                           (itemChanges data) x)) in
         json JSON_stringify (JsObject updated) x
     end)
    (fun error =>
       let* _ := console_emit Error [Text "[Items] Update error:"; Thrown error] in
       json JSON_stringify (error_body "Failed to update item") (status 500 x)).

Definition read_failure_line (e : JsError) : ConsoleLine :=
  mkLine Error [Text "[Audit] Read logs error:"; Thrown e].

(** The handler of [GET /audit-logs] (routes/index.ts, lines 45-54). *)
Definition getAuditLogs (x : Exchange) : Eff Exchange :=
  try_catch
    (let startDate := obj_get (query (req x)) "startDate" in
     let endDate := obj_get (query (req x)) "endDate" in
     let* logs := readAuditLogs JSON_parse localeCompare startDate endDate in
     json JSON_stringify (JsArray logs) x)
    (fun error =>
       let* _ := console_emit Error [Text "[Audit] Read logs error:"; Thrown error] in
       json JSON_stringify (error_body "Failed to read audit logs") (status 500 x)).

End Handlers.

(** ** Sample data for the examples *)

Definition quote : string := String (ascii_of_nat 34) EmptyString.

Definition json_field (key value : string) : string :=
  quote ++ key ++ quote ++ ":" ++ quote ++ value ++ quote.

(** [JSON.stringify] on the entries that carry the four required fields
    only, none of which needs an escape. *)
Definition sample_stringify (e : AuditLogEntry) : Outcome string :=
  Returns ("{" ++ json_field "timestamp" (timestamp e) ++ ","
               ++ json_field "action" (action e) ++ ","
               ++ json_field "admin" (admin e) ++ ","
               ++ json_field "ip" (ip e) ++ "}").

(** An entry with the four required fields, as [JSON.parse] gives it. *)
Definition entry_object (t a u i : string) : JsValue :=
  JsObject [("timestamp", JsString t); ("action", JsString a);
            ("admin", JsString u); ("ip", JsString i)].

(** [JSON.parse] on the lines [sample_stringify] writes and on the texts
    of the empty object and of [null]; any other line is taken as
    malformed. *)
Definition sample_parse (line : string) : Outcome JsValue :=
  match split (ascii_of_nat 34) line with
  | ["{"; "timestamp"; ":"; t; ","; "action"; ":"; a; ","; "admin"; ":"; u; ",";
     "ip"; ":"; i; "}"] =>
      Returns (entry_object t a u i)
  | ["{}"] => Returns (JsObject [])
  | ["null"] => Returns JsNull
  | _ => Throws (mkError "SyntaxError" "Unexpected token in JSON")
  end.

(** [localeCompare] where it is the comparison of code units. *)
Definition sample_localeCompare (a b : string) : Z :=
  match String.compare a b with
  | Lt => -1
  | Eq => 0
  | Gt => 1
  end.

(** The text [sample_stringify] gives an entry with these four fields. *)
Definition entry_text (t a u i : string) : string :=
  "{" ++ json_field "timestamp" t ++ "," ++ json_field "action" a ++ ","
      ++ json_field "admin" u ++ "," ++ json_field "ip" i ++ "}".

Definition sample_entry (t a : string) : AuditLogEntry :=
  mkEntry t a "root" None None None "unknown" None.

(** The same entry as the reader returns it. *)
Definition sample_value (t a : string) : JsValue := entry_object t a "root" "unknown".

Definition sample_line (t a : string) : string :=
  match sample_stringify (sample_entry t a) with
  | Returns l => l
  | Throws _ => ""
  end.

(** [localeCompare] on words of letters, as a collation has it: by the
    letters first, whatever their case, and among words of the same letters
    the lower case first. *)
Definition lower (a : ascii) : ascii :=
  let n := nat_of_ascii a in
  if ((65 <=? n)%nat && (n <=? 90)%nat)%bool then ascii_of_nat (n + 32) else a.

Fixpoint lower_string (s : string) : string :=
  match s with
  | EmptyString => EmptyString
  | String a rest => String (lower a) (lower_string rest)
  end.

Definition collating_localeCompare (a b : string) : Z :=
  match String.compare (lower_string a) (lower_string b) with
  | Lt => -1
  | Gt => 1
  | Eq => match String.compare b a with
          | Lt => -1
          | Eq => 0
          | Gt => 1
          end
  end.

Definition EACCES : JsError := mkError "Error" "EACCES: permission denied".

Definition day1 : File :=
  mkFile (written [sample_line "2024-01-01T08:00:00.000Z" "LOGIN_SUCCESS"]) None.

Definition day2 : File :=
  mkFile (written [sample_line "2024-01-02T09:00:00.000Z" "LOGIN_SUCCESS";
                   sample_line "2024-01-02T17:30:00.000Z" "ITEM_UPDATE"]) None.

Definition day3 : File :=
  mkFile (written [sample_line "2024-01-03T10:15:00.000Z" "CHARACTER_UPDATE"]) None.

(** A file with a truncated line between two whole ones. *)
Definition day_corrupt : File :=
  mkFile (written [sample_line "2024-01-02T09:00:00.000Z" "LOGIN_SUCCESS";
                   "{" ++ quote ++ "timestamp";
                   sample_line "2024-01-02T17:30:00.000Z" "ITEM_UPDATE"]) None.

(** A file of two entries whose time stamps are words, not instants. *)
Definition day_words : File :=
  mkFile (written [sample_line "a" "LOGIN_SUCCESS"; sample_line "B" "LOGIN_SUCCESS"])
         None.

(** A file whose lines are JSON texts that hold no entry. *)
Definition day_objects : File := mkFile (written ["{}"; "{}"]) None.

(** The same with a truncated line between the two. *)
Definition day_corrupt_objects : File :=
  mkFile (written ["{}"; "{" ++ quote ++ "timestamp"; "{}"]) None.

Definition day4 : File :=
  mkFile (written [sample_line "2024-01-04T08:00:00.000Z" "LOGIN_SUCCESS"]) None.

Definition day_locked : File := mkFile "" (Some EACCES).

Definition sample_clock (n : nat) : string :=
  match n with
  | O => "2024-01-04T12:00:00.000Z"
  | _ => "2024-01-04T12:00:00.001Z"
  end.

Definition sample_db : Database :=
  mkDB
    [("c1", [("id", JsString "c1"); ("name", JsString "Aria"); ("level", JsNumber 5);
             ("experience", JsNumber 100); ("gold", JsNumber 100); ("coins", JsNumber 0);
             ("honor", JsNumber 0); ("stamina", JsNumber 50); ("health", JsNumber 80);
             ("isPremium", JsBool false)])]
    [(7, [("id", JsNumber 7); ("name", JsString "Iron Sword"); ("type", JsString "weapon");
          ("count", JsNumber 1); ("gold", JsNumber 3)])]
    None.

Definition sample_world (enabled : bool) (files : option (list (string * File)))
  (append_fault : option JsError) : World :=
  mkWorld
    (<["AUDIT_LOG_ENABLED" := if enabled then "true" else "false"]>
       (<["ADMIN_USERNAME" := "root"]>
          (<["ADMIN_PASSWORD" := "secret"]> (<["JWT_SECRET" := "key"]> ∅))))
    sample_clock 0
    (mkFS files None append_fault None)
    []
    sample_db.

Definition three_days : list (string * File) :=
  [("audit-2024-01-01.json", day1);
   ("audit-2024-01-02.json", day2);
   ("audit-2024-01-03.json", day3)].

Definition two_days : list (string * File) :=
  [("audit-2024-01-03.json", day3); ("audit-2024-01-04.json", day4)].

Definition locked_day : list (string * File) :=
  [("audit-2024-01-02.json", day2); ("audit-2024-01-03.json", day_locked)].

Definition sample_request (verb route id : string) (fields : list (string * JsValue))
  : Request :=
  mkRequest verb (route ++ id) [("id", id)] [] (Some "10.0.0.1") None
            [("user-agent", "curl")] [] (Some (mkAdmin "root" 0 86400)) fields.

Definition sample_exchange (verb route id : string) (fields : list (string * JsValue))
  : Exchange :=
  mkExchange (sample_request verb route id fields) (mkResponse 200 originalSend [] []).

(** [jwt.sign] and [jwt.verify] for the examples: the token is the user
    name after a fixed prefix. *)
Definition sample_sign (user : JsValue) (secret expiresIn : string) : Outcome string :=
  Returns ("token-for-" ++ string_of user).

Definition sample_verify (token secret : string) : Outcome AdminPayload :=
  if String.prefix "token-for-" token
  then Returns (mkAdmin (substring 10 (String.length token - 10) token) 0 86400)
  else Throws (mkError "JsonWebTokenError" "jwt malformed").

(** ** More of the routes: item deletion, currency, the current user *)

Definition ZodError : JsError := mkError "ZodError" "Invalid input".

Fixpoint remove_item (id : Z) (rows : list (Z * Row)) : list (Z * Row) :=
  match rows with
  | [] => []
  | (i, r) :: rest => if i =? id then rest else (i, r) :: remove_item id rest
  end.

(** [prisma.item.delete({ where: { id } })] *)
Definition item_delete (id : option Z) : Eff unit :=
  fun w =>
    match db_error (db w), id with
    | Some e, _ => (w, Throws e)
    | None, None => (w, Throws InvalidArgument)
    | None, Some i =>
        match find_item i (items (db w)) with
        | None => (w, Throws RecordNotFound)
        | Some _ =>
            (set_db w (mkDB (characters (db w)) (remove_item i (items (db w))) None),
             Returns tt)
        end
    end.

(** The amounts of [POST /characters/:id/add-currency], as its schema types
    them: each is a number or absent. *)
Record CurrencyAmounts : Type := mkAmounts {
  amount_gold : option Z;
  amount_coins : option Z
}.

(** An amount in a condition: absent and zero are falsy. *)
Definition nonzero (amount : option Z) : bool :=
  match amount with
  | Some n => negb (n =? 0)
  | None => false
  end.

(** A numeric column of a row. *)
Definition number_at (r : Row) (k : string) : Z :=
  match obj_get r k with
  | Some (JsNumber n) => n
  | _ => 0
  end.

(** [k: amount ? { increment: amount } : undefined] applied to a row. *)
Definition increment (r : Row) (k : string) (amount : option Z) : Row :=
  if nonzero amount then obj_set r k (JsNumber (number_at r k + default 0 amount))
  else r.

(** [prisma.character.update] with the two increments and a [select]. *)
Definition character_add (id : string) (amounts : CurrencyAmounts)
  (columns : list string) : Eff Row :=
  fun w =>
    match db_error (db w) with
    | Some e => (w, Throws e)
    | None =>
        match obj_get (characters (db w)) id with
        | None => (w, Throws RecordNotFound)
        | Some r =>
            let r' := increment (increment r "gold" (amount_gold amounts))
                                "coins" (amount_coins amounts) in
            (set_db w (mkDB (obj_set (characters (db w)) id r') (items (db w)) None),
             Returns (select columns r'))
        end
    end.

(** The [changes] of the currency handler (characters.ts, lines 332-335). *)
Definition currencyChanges (character : Row) (amounts : CurrencyAmounts)
  : list (string * Change) :=
  ((if nonzero (amount_gold amounts)
    then [("gold", {| from := get character "gold";
                      to := JsNumber (number_at character "gold"
                                      + default 0 (amount_gold amounts)) |})]
    else [])
   ++
   (if nonzero (amount_coins amounts)
    then [("coins", {| from := get character "coins";
                       to := JsNumber (number_at character "coins"
                                       + default 0 (amount_coins amounts)) |})]
    else []))%list.

(** [amount || 0] *)
Definition or_zero (amount : option Z) : Z :=
  if nonzero amount then default 0 amount else 0.

Section MoreHandlers.

Variable JSON_stringify : AuditLogEntry -> Outcome string.

Definition delete_options (id : string) (item : Row) (x : Exchange) : AuditOptions :=
  {| opt_target := Some {| target_type := "item"; target_id := id;
                           target_name := name_of item |};
     opt_changes := None;
     opt_metadata := None;
     opt_ip := Some (or_else (req_ip (req x)) "unknown");
     opt_userAgent := None |}.

(** The handler of [DELETE /items/:id] (items.ts, lines 239-266); the schema
    [{ confirm: z.literal('DELETE') }] accepts the body exactly when its
    [confirm] is the string ['DELETE']. *)
Definition deleteItem (x : Exchange) : Eff Exchange :=
  try_catch
    (let id := parseInt (default "" (obj_get (params (req x)) "id")) in
     let* _ := if strict_eq (get (body (req x)) "confirm") (JsString "DELETE")
               then ret tt else throw ZodError in
     let* item := item_findUnique id ["name"; "type"] in
     match item with
     | None => json JSON_stringify (error_body "Item not found") (status 404 x)
     | Some item =>
         let* _ := item_delete id in
         let* _ := logAuditAction JSON_stringify
                     (or_else (username <$> req_admin (req x)) "unknown")
                     "ITEM_DELETE"
                     (Some (delete_options (pretty (default 0 id)) item x)) in
         json JSON_stringify
              (JsObject [("success", JsBool true);
                         ("message",
                          JsString ("Deleted item " ++ string_of (get item "name")))])
              x
     end)
    (fun error =>
       let* _ := console_emit Error [Text "[Items] Delete error:"; Thrown error] in
       json JSON_stringify (error_body "Failed to delete item") (status 500 x)).

(** The handler of [POST /characters/:id/add-currency] (characters.ts, lines
    300-352). [parsed] is the result of the schema. *)
Definition addCurrency (parsed : Outcome CurrencyAmounts) (x : Exchange)
  : Eff Exchange :=
  try_catch
    (let id := default "" (obj_get (params (req x)) "id") in
     let* amounts := lift parsed in
     if (negb (nonzero (amount_gold amounts)) && negb (nonzero (amount_coins amounts)))%bool
     then json JSON_stringify (error_body "Specify gold or coins amount") (status 400 x)
     else
       let* character := character_findUnique id ["name"; "gold"; "coins"] in
       match character with
       | None => json JSON_stringify (error_body "Character not found") (status 404 x)
       | Some character =>
           let* updated := character_add id amounts ["id"; "name"; "gold"; "coins"] in
           let* _ := logAuditAction JSON_stringify
                       (or_else (username <$> req_admin (req x)) "unknown")
                       "CHARACTER_ADD_CURRENCY"
                       (Some (update_options "character" id character
                                             (currencyChanges character amounts) x)) in
           json JSON_stringify
                (JsObject [("success", JsBool true);
                           ("character", JsObject updated);
                           ("message",
                            JsString ("Added " ++ pretty (or_zero (amount_gold amounts))
                                      ++ " gold and "
                                      ++ pretty (or_zero (amount_coins amounts))
                                      ++ " coins"))])
                x
       end)
    (fun error =>
       let* _ := console_emit Error [Text "[Characters] Add currency error:"; Thrown error] in
       json JSON_stringify (error_body "Failed to add currency") (status 500 x)).

(** The handler of [GET /auth/me] (routes/index.ts, lines 20-28): reading
    [admin.username] of an absent [req.admin] is a [TypeError]. *)
Definition me (x : Exchange) : Eff Exchange :=
  match req_admin (req x) with
  | None => throw (mkError "TypeError" "Cannot read properties of undefined")
  | Some a =>
      json JSON_stringify
           (JsObject [("user", JsObject [("username", JsString (username a));
                                         ("role", JsString "admin")])])
           x
  end.

End MoreHandlers.

(** The routes of a router, each with its verb, its full path and the
    middleware before its handler. *)
Fixpoint layer_routes (prefix : string) (passed : list Middleware) (l : Layer)
  : list (string * string * list Middleware) :=
  match l with
  | Route verb pattern chain => [(verb, prefix ++ pattern, (passed ++ chain)%list)]
  | Mount pattern chain sub =>
      flat_map (layer_routes (prefix ++ pattern) (passed ++ chain)%list) sub
  end.

Definition routes (ls : list Layer) : list (string * string * list Middleware) :=
  flat_map (layer_routes "" []) ls.

(** The routes that are reached without a token. *)
Definition public_routes : list (string * string) :=
  [("POST", "/auth/login"); ("POST", "/auth/logout"); ("GET", "/health")].

(** The request presents [token]: in an [Authorization] header after
    [Bearer ], or, without such a header, in the cookie [adminToken]. *)
Definition Presents (x : Exchange) (token : string) : Prop :=
  let header := obj_get (headers (req x)) "authorization" in
  let adminToken := obj_get (cookies (req x)) "adminToken" in
  header = Some ("Bearer " ++ token)
  \/ (truthy header = false \/ startsWith (default "" header) "Bearer " = false)
     /\ adminToken = Some token.

Definition config_error_line : ConsoleLine :=
  mkLine Error [Text "[Auth] ADMIN_USERNAME or ADMIN_PASSWORD not configured"].

Definition secret_missing : JsError := mkError "Error" "JWT_SECRET is not configured".

(** ** More sample data *)

(** A request for [GET /auth/me] that carries [token] in its header. *)
Definition sample_bearer (token : string) : Exchange :=
  mkExchange
    (mkRequest "GET" "/auth/me" [] [] (Some "10.0.0.1") None
               [("authorization", "Bearer " ++ token)] [] None [])
    (mkResponse 200 originalSend [] []).

(** A world whose environment lacks [name]. *)
Definition without (name : string) (w : World) : World :=
  set_env w (delete name (env w)).

(** * Properties *)

(** ** The Audit Recorder *)

Section RecorderFacts.

Variable JSON_stringify : AuditLogEntry -> Outcome string.

Lemma ensureLogDir_spec w :
  ensureLogDir w =
    match logDir (fs w), mkdir_error (fs w) with
    | Some _, _ => (w, Returns tt)
    | None, Some e => (w, Throws e)
    | None, None =>
        (set_fs w (mkFS (Some []) None (append_error (fs w)) (readdir_error (fs w))),
         Returns tt)
    end.
Proof.
  unfold ensureLogDir, bind, existsSync, mkdirSync, ret.
  destruct (logDir (fs w)) eqn:Hdir; simpl; [reflexivity|].
  destruct (mkdir_error (fs w)); [reflexivity|]. rewrite Hdir. reflexivity.
Qed.

Lemma writeEntry_console entry w w' o :
  writeEntry JSON_stringify entry w = (w', o) -> console w' = console w.
Proof.
  unfold writeEntry, bind, getLogFilePath, Date_toISOString, lift, ret, appendFileSync.
  rewrite ensureLogDir_spec.
  repeat (case_match; simpl in *); intros; simplify_eq/=; reflexivity.
Qed.

Lemma writeEntry_fault entry w e :
  write_fault (fs w) (JSON_stringify entry) = Some e ->
  exists w', writeEntry JSON_stringify entry w = (w', Throws e).
Proof.
  unfold write_fault, writeEntry, bind, getLogFilePath, Date_toISOString, lift, ret,
    appendFileSync.
  rewrite ensureLogDir_spec.
  repeat (case_match; simpl in *); intros; simplify_eq/=; eauto.
Qed.

Lemma appendToLog_disabled entry w :
  env w !! "AUDIT_LOG_ENABLED" <> Some "true" ->
  appendToLog JSON_stringify entry w = (w, Returns tt).
Proof.
  intros Hoff. unfold appendToLog, bind, getenv.
  rewrite bool_decide_eq_false_2 by assumption. reflexivity.
Qed.

Lemma appendToLog_enabled entry w :
  env w !! "AUDIT_LOG_ENABLED" = Some "true" ->
  appendToLog JSON_stringify entry w =
    match writeEntry JSON_stringify entry w with
    | (w', Returns a) => (w', Returns a)
    | (w', Throws e) =>
        (set_console w' (console w' ++ [write_failure_line e]), Returns tt)
    end.
Proof.
  intros Hon. unfold appendToLog, bind, getenv.
  rewrite bool_decide_eq_true_2 by assumption. reflexivity.
Qed.

(** The file sink never throws, and whatever it prints is error lines. *)
Lemma appendToLog_returns entry w :
  exists w' errs,
    appendToLog JSON_stringify entry w = (w', Returns tt)
    /\ console w' = (console w ++ errs)%list
    /\ Forall (fun l => level l = Error) errs.
Proof.
  destruct (decide (env w !! "AUDIT_LOG_ENABLED" = Some "true")) as [Hon|Hoff].
  - rewrite (appendToLog_enabled _ _ Hon).
    destruct (writeEntry JSON_stringify entry w) as [w' [[]|e]] eqn:Hw;
      apply writeEntry_console in Hw.
    + exists w', []. rewrite app_nil_r. auto.
    + eexists _, [write_failure_line e]. simpl. rewrite Hw.
      repeat split. repeat constructor.
  - rewrite (appendToLog_disabled _ _ Hoff). exists w, [].
    rewrite app_nil_r. auto.
Qed.

Lemma logAuditAction_unfold admin action options w :
  logAuditAction JSON_stringify admin action options w =
    let w0 := mkWorld (env w) (clock w) (S (ticks w)) (fs w) (console w) (db w) in
    match appendToLog JSON_stringify
            (buildEntry (clock w (ticks w)) admin action options) w0 with
    | (w1, Returns _) =>
        (set_console w1 (console w1 ++ [audit_console_line admin action options]),
         Returns tt)
    | (w1, Throws e) => (w1, Throws e)
    end.
Proof. reflexivity. Qed.

(** The recorder never throws. *)
Lemma logAuditAction_returns admin action options w :
  exists w', logAuditAction JSON_stringify admin action options w = (w', Returns tt).
Proof.
  rewrite logAuditAction_unfold. cbv zeta.
  match goal with
  | |- context [appendToLog _ ?e ?w0] =>
      destruct (appendToLog_returns e w0) as (w1 & errs & -> & _)
  end.
  eauto.
Qed.

(** C2: [logAuditAction] returns normally in every world, whatever the
    actor, the action and the options; when persistence is enabled and
    the write path raises an error (the directory cannot be created, the
    append fails), the error is caught and printed on the console, before
    the audit line, and nothing propagates to the caller. *)
Theorem logAuditAction_swallows_write_errors admin action options w :
  exists w',
    logAuditAction JSON_stringify admin action options w = (w', Returns tt)
    /\ forall e,
         env w !! "AUDIT_LOG_ENABLED" = Some "true" ->
         write_fault (fs w)
           (JSON_stringify (buildEntry (clock w (ticks w)) admin action options))
           = Some e ->
         console w' =
           (console w ++ [write_failure_line e;
                          audit_console_line admin action options])%list.
Proof.
  rewrite logAuditAction_unfold. cbv zeta.
  set (w0 := mkWorld _ _ _ _ _ _).
  set (entry := buildEntry _ _ _ _).
  destruct (decide (env w !! "AUDIT_LOG_ENABLED" = Some "true")) as [Hon|Hoff].
  - rewrite (appendToLog_enabled entry w0 Hon).
    destruct (writeEntry JSON_stringify entry w0) as [w1 [[]|e1]] eqn:Hw.
    + eexists; split; [reflexivity|]. intros e _ Hf.
      destruct (writeEntry_fault entry w0 e Hf) as [w2 Hw2]. congruence.
    + eexists; split; [reflexivity|]. intros e _ Hf.
      destruct (writeEntry_fault entry w0 e Hf) as [w2 Hw2].
      assert (e1 = e) as -> by congruence.
      apply writeEntry_console in Hw. simpl. rewrite Hw. simpl.
      rewrite <- app_assoc. reflexivity.
  - rewrite (appendToLog_disabled entry w0 Hoff).
    eexists; split; [reflexivity|]. intros e Hon. contradiction.
Qed.

(** C3: with [AUDIT_LOG_ENABLED] other than ['true'], [logAuditAction]
    returns normally, leaves the file system as it was, and prints the audit
    line; the same call with persistence enabled prints the same audit
    line, after the error line of a failed write if there is one. *)
Theorem logAuditAction_disabled_persistence admin action options w :
  env w !! "AUDIT_LOG_ENABLED" <> Some "true" ->
  (exists w',
     logAuditAction JSON_stringify admin action options w = (w', Returns tt)
     /\ fs w' = fs w
     /\ console w' = (console w ++ [audit_console_line admin action options])%list)
  /\ (exists w'' errs,
       logAuditAction JSON_stringify admin action options
         (set_env w (<["AUDIT_LOG_ENABLED" := "true"]> (env w))) = (w'', Returns tt)
       /\ console w'' =
            (console w ++ errs ++ [audit_console_line admin action options])%list
       /\ Forall (fun l => level l = Error) errs).
Proof.
  intros Hoff. split.
  - rewrite logAuditAction_unfold. cbv zeta.
    rewrite appendToLog_disabled by exact Hoff.
    eexists; repeat split.
  - rewrite logAuditAction_unfold. cbv zeta.
    match goal with
    | |- context [appendToLog _ ?e ?w0] =>
        destruct (appendToLog_returns e w0) as (w1 & errs & -> & Hc & Herrs)
    end.
    eexists _, errs. split; [reflexivity|]. split; [|exact Herrs].
    simpl. rewrite Hc. simpl. rewrite <- app_assoc. reflexivity.
Qed.

End RecorderFacts.

(** ** Order on strings, and the sort *)

Lemma ascii_compare_refl a : Ascii.compare a a = Eq.
Proof. unfold Ascii.compare. apply N.compare_refl. Qed.

Lemma ascii_compare_lt_trans a b c :
  Ascii.compare a b = Lt -> Ascii.compare b c = Lt -> Ascii.compare a c = Lt.
Proof.
  unfold Ascii.compare. rewrite !N.compare_lt_iff. apply N.lt_trans.
Qed.

Lemma string_compare_refl s : String.compare s s = Eq.
Proof. induction s as [|a s IH]; simpl; [reflexivity|]. now rewrite ascii_compare_refl. Qed.

Lemma ltb_false_leb d a : String.ltb d a = false <-> String.leb a d = true.
Proof.
  unfold String.ltb, String.leb. rewrite (String.compare_antisym a d).
  destruct (String.compare d a); simpl; intuition congruence.
Qed.

Lemma string_compare_lt_trans a :
  forall b c, String.compare a b = Lt -> String.compare b c = Lt ->
              String.compare a c = Lt.
Proof.
  induction a as [|x a IH]; intros [|y b] [|z c]; simpl; try congruence.
  destruct (Ascii.compare x y) eqn:Hxy; try congruence;
    destruct (Ascii.compare y z) eqn:Hyz; try congruence; intros H1 H2.
  - apply Ascii.compare_eq_iff in Hxy, Hyz. subst.
    rewrite ascii_compare_refl. eauto.
  - apply Ascii.compare_eq_iff in Hxy. subst. now rewrite Hyz.
  - apply Ascii.compare_eq_iff in Hyz. subst. now rewrite Hxy.
  - now rewrite (ascii_compare_lt_trans _ _ _ Hxy Hyz).
Qed.

Lemma leb_trans a b c :
  String.leb a b = true -> String.leb b c = true -> String.leb a c = true.
Proof.
  unfold String.leb.
  destruct (String.compare a b) eqn:Hab; try congruence;
    destruct (String.compare b c) eqn:Hbc; try congruence; intros _ _.
  - apply String.compare_eq_iff in Hab, Hbc. subst. now rewrite string_compare_refl.
  - apply String.compare_eq_iff in Hab. subst. now rewrite Hbc.
  - apply String.compare_eq_iff in Hbc. subst. now rewrite Hab.
  - now rewrite (string_compare_lt_trans _ _ _ Hab Hbc).
Qed.

Section SortFacts.

Context {A : Type} (compare : A -> A -> Z).

Lemma insert_sorted_perm x l : insert_sorted compare x l ≡ₚ x :: l.
Proof.
  induction l as [|y l IH]; simpl; [reflexivity|].
  destruct (compare x y <=? 0); [reflexivity|].
  rewrite IH. apply Permutation_swap.
Qed.

Lemma sort_perm l : sort compare l ≡ₚ l.
Proof.
  induction l as [|x l IH]; simpl; [reflexivity|].
  unfold sort in *. simpl. rewrite insert_sorted_perm. now rewrite IH.
Qed.

(** Where the comparator decides a total, transitive order [R] on the
    elements at hand, the sort puts them in that order. *)
Variable R : A -> A -> Prop.
Variable P : A -> Prop.
Hypothesis R_trans : forall a b c, R a b -> R b c -> R a c.
Hypothesis compare_le : forall a b, P a -> P b -> compare a b <= 0 -> R a b.
Hypothesis compare_gt : forall a b, P a -> P b -> 0 < compare a b -> R b a.

Lemma insert_sorted_sorted x l :
  P x -> Forall P l -> StronglySorted R l ->
  StronglySorted R (insert_sorted compare x l).
Proof.
  intros Hx Hl Hs. induction Hs as [|y l Hs IH Hy]; simpl.
  - repeat constructor.
  - apply Forall_cons in Hl as [Py Pl].
    destruct (Z.leb_spec (compare x y) 0) as [Hle|Hgt].
    + constructor; [constructor; assumption|].
      constructor; [eauto|].
      eapply Forall_impl; [exact Hy|]. intros z Hz. eauto.
    + constructor; [eauto|].
      rewrite insert_sorted_perm. constructor; eauto.
Qed.

Lemma sort_sorted l : Forall P l -> StronglySorted R (sort compare l).
Proof.
  induction l as [|x l IH]; intros Hl; unfold sort in *; simpl.
  - constructor.
  - apply Forall_cons in Hl as [Px Pl].
    apply insert_sorted_sorted; auto.
    fold (sort compare l). rewrite sort_perm. exact Pl.
Qed.

End SortFacts.

Section SortByFacts.

Context {A : Type} (compare : A -> A -> Outcome Z).

(** Whatever the comparator does, a sort that returns has rearranged. *)
Lemma insert_by_perm x l l' : insert_by compare x l = Returns l' -> l' ≡ₚ x :: l.
Proof.
  revert l'. induction l as [|y l IH]; intros l'; cbn [insert_by].
  - now intros [= <-].
  - destruct (compare x y) as [c|e]; [|discriminate].
    destruct (c <=? 0); [now intros [= <-]|].
    destruct (insert_by compare x l) as [rest|e]; [|discriminate].
    intros [= <-]. rewrite (IH rest eq_refl). apply Permutation_swap.
Qed.

Lemma sort_by_perm l l' : sort_by compare l = Returns l' -> l' ≡ₚ l.
Proof.
  revert l'. induction l as [|x l IH]; intros l'; cbn [sort_by].
  - now intros [= <-].
  - destruct (sort_by compare l) as [sorted|e]; [|discriminate].
    intros H%insert_by_perm. rewrite H. now rewrite (IH sorted eq_refl).
Qed.

(** Where the comparator returns on the elements at hand, the sort is the
    sort under the numbers it returns. *)
Variable number : A -> A -> Z.

Lemma insert_by_pure x l :
  (forall y, In y l -> compare x y = Returns (number x y)) ->
  insert_by compare x l = Returns (insert_sorted number x l).
Proof.
  induction l as [|y l IH]; intros H; cbn [insert_by insert_sorted]; [reflexivity|].
  rewrite (H y) by now left.
  destruct (number x y <=? 0); [reflexivity|].
  rewrite IH; [reflexivity|]. intros z Hz. apply H. now right.
Qed.

Lemma sort_by_pure l :
  (forall x y, In x l -> In y l -> compare x y = Returns (number x y)) ->
  sort_by compare l = Returns (sort number l).
Proof.
  induction l as [|x l IH]; intros H; [reflexivity|].
  cbn [sort_by]. rewrite IH by (intros; apply H; now right).
  apply insert_by_pure. intros y Hy. apply H; [now left|right].
  apply (Permutation_in y (sort_perm number l)). exact Hy.
Qed.

End SortByFacts.

(** ** Strings *)

Lemma append_nil (b : string) : "" ++ b = b.
Proof. reflexivity. Qed.

Lemma append_cons (x : ascii) (a b : string) : String x a ++ b = String x (a ++ b).
Proof. reflexivity. Qed.

Lemma append_assoc_string (a b c : string) : (a ++ b) ++ c = a ++ (b ++ c).
Proof.
  induction a as [|x a IH]; [reflexivity|]. rewrite !append_cons. now rewrite IH.
Qed.

Lemma length_append (a b : string) :
  String.length (a ++ b) = (String.length a + String.length b)%nat.
Proof.
  induction a as [|x a IH]; [reflexivity|].
  rewrite append_cons. cbn [String.length]. now rewrite IH.
Qed.

Lemma substring_whole t : substring 0 (String.length t) t = t.
Proof. induction t as [|c t IH]; [reflexivity|]. cbn. now rewrite IH. Qed.

Lemma prefix_split p s : String.prefix p s = true -> exists t, s = p ++ t.
Proof.
  revert s. induction p as [|a p IH]; intros s.
  - intros _. exists s. reflexivity.
  - destruct s as [|b s]; cbn [String.prefix]; [discriminate|].
    destruct (ascii_dec a b) as [->|]; [|discriminate].
    intros [t ->]%IH. exists t. reflexivity.
Qed.

Lemma prefix_append p t : String.prefix p (p ++ t) = true.
Proof.
  induction p as [|a p IH]; [now destruct t|].
  rewrite append_cons. cbn [String.prefix].
  destruct (ascii_dec a a); [exact IH|contradiction].
Qed.

Lemma substring_skip p t k m :
  substring (String.length p + k) m (p ++ t) = substring k m t.
Proof.
  induction p as [|a p IH]; [reflexivity|].
  rewrite append_cons. cbn [String.length Nat.add substring]. exact IH.
Qed.

Lemma substring_head m : forall t u,
  substring 0 m t = u -> String.length u = m -> exists v, t = u ++ v.
Proof.
  induction m as [|m IH]; intros t u.
  - intros <- _. exists t. destruct t; reflexivity.
  - destruct t as [|c t]; cbn [substring].
    + intros <-. discriminate.
    + intros <-. cbn [String.length]. intros [= Hlen].
      destruct (IH t _ eq_refl Hlen) as [v Hv]. exists v.
      rewrite append_cons. now rewrite <- Hv.
Qed.

Lemma append_empty (a : string) : a ++ "" = a.
Proof. induction a as [|x a IH]; [reflexivity|]. now rewrite append_cons, IH. Qed.

Lemma substring_prefix u v : substring 0 (String.length u) (u ++ v) = u.
Proof.
  induction u as [|x u IH]; [now destruct v|].
  rewrite append_cons. cbn [String.length substring]. now rewrite IH.
Qed.

(** A string is the text before a position and the text from it on. *)
Lemma substring_split s : forall k,
  (k <= String.length s)%nat ->
  s = substring 0 k s ++ substring k (String.length s - k) s.
Proof.
  induction s as [|x s IH]; intros k Hk.
  - cbn in Hk. assert (k = 0%nat) as -> by lia. reflexivity.
  - destruct k as [|k].
    + rewrite Nat.sub_0_r, substring_whole. reflexivity.
    + cbn [String.length] in Hk. cbn [substring String.length Nat.sub].
      rewrite append_cons. rewrite <- IH by lia. reflexivity.
Qed.

Lemma startsWith_iff s p : startsWith s p = true <-> exists rest, s = p ++ rest.
Proof.
  unfold startsWith. split; [apply prefix_split|]. intros [rest ->]. apply prefix_append.
Qed.

Lemma endsWith_iff s p : endsWith s p = true <-> exists stem, s = stem ++ p.
Proof.
  unfold endsWith. split.
  - destruct (Nat.leb_spec (String.length p) (String.length s)) as [Hle|]; [|discriminate].
    intros He%String.eqb_eq.
    exists (substring 0 (String.length s - String.length p) s).
    rewrite (substring_split s (String.length s - String.length p)) at 1 by lia.
    replace (String.length s - (String.length s - String.length p))%nat
      with (String.length p) by lia.
    now rewrite He.
  - intros [stem ->]. rewrite length_append.
    destruct (Nat.leb_spec (String.length p) (String.length stem + String.length p))
      as [_|]; [|lia].
    replace (String.length stem + String.length p - String.length p)%nat
      with (String.length stem + 0)%nat by lia.
    rewrite substring_skip, substring_whole. apply String.eqb_refl.
Qed.

Lemma is_digit_iff a : is_digit a = true <-> Digit a.
Proof.
  unfold Digit. split.
  - destruct a as [[] [] [] [] [] [] [] []]; cbv; try discriminate; tauto.
  - cbn [In]. intros H.
    repeat (destruct H as [<-|H]; [reflexivity|]). contradiction.
Qed.

Lemma date_shape_iff d : date_shape d = true <-> IsDate d.
Proof.
  unfold date_shape, IsDate. split.
  - intros H.
    assert (exists l, l = list_ascii_of_string d /\ d = string_of_list_ascii l)
      as (l & Hl & ->) by (eexists; split; [reflexivity|];
                           now rewrite string_of_list_ascii_of_string).
    rewrite <- Hl in H. clear Hl. revert H.
    destruct l as [|c1 [|c2 [|c3 [|c4 [|c5 [|c6 [|c7 [|c8 [|c9
      [|c10 [|c11 more]]]]]]]]]]]; try discriminate.
    rewrite !andb_true_iff, !is_digit_iff.
    intros (((((((((H1 & H2) & H3) & H4) & ->%Ascii.eqb_eq) & H5) & H6)
              & ->%Ascii.eqb_eq) & H7) & H8).
    exists c1, c2, c3, c4, c6, c7, c9, c10. split; [|reflexivity].
    repeat (constructor; [assumption|]). constructor.
  - intros (y1 & y2 & y3 & y4 & m1 & m2 & d1 & d2 & Hall & ->).
    rewrite list_ascii_of_string_of_list_ascii.
    repeat match goal with
           | H : Forall _ (_ :: _) |- _ => apply Forall_cons in H as [?%is_digit_iff H]
           end.
    rewrite !andb_true_iff. unfold dash. rewrite !Ascii.eqb_refl. auto 20.
Qed.

Lemma date_shape_length d : date_shape d = true -> String.length d = 10%nat.
Proof.
  unfold date_shape. rewrite <- (string_of_list_ascii_of_string d) at 2.
  destruct (list_ascii_of_string d) as [|c1 [|c2 [|c3 [|c4 [|c5 [|c6 [|c7 [|c8 [|c9
    [|c10 [|c11 more]]]]]]]]]]]; try discriminate.
  reflexivity.
Qed.

Lemma match_here_sound s d :
  match_here s = Some d ->
  date_shape d = true /\ exists post, s = "audit-" ++ d ++ ".json" ++ post.
Proof.
  unfold match_here.
  destruct (String.prefix "audit-" s) eqn:Hp; [|discriminate].
  destruct (date_shape (substring 6 10 s)) eqn:Hd; [|discriminate].
  destruct (String.eqb_spec (substring 16 5 s) ".json") as [He|]; [|discriminate].
  cbn [andb]. intros [= <-]. split; [exact Hd|].
  apply prefix_split in Hp as [t ->].
  rewrite (substring_skip "audit-" t 0 10 : substring 6 10 ("audit-" ++ t) = _) in *.
  rewrite (substring_skip "audit-" t 10 5 : substring 16 5 ("audit-" ++ t) = _) in He.
  pose proof (date_shape_length _ Hd) as Hlen.
  destruct (substring_head 10 t _ eq_refl Hlen) as [v Hv].
  remember (substring 0 10 t) as u eqn:Hu. clear Hu. subst t.
  pose proof (substring_skip u v 0 5) as Hskip.
  rewrite Hlen in Hskip. cbn [Nat.add] in Hskip. rewrite Hskip in He.
  destruct (substring_head 5 v _ He eq_refl) as [post ->].
  exists post. reflexivity.
Qed.

(** The pattern at the start of a name. *)
Lemma match_here_iff s d : match_here s = Some d <-> Embeds s d 0.
Proof.
  unfold Embeds. split.
  - intros [Hd [post Hs]]%match_here_sound. apply date_shape_iff in Hd.
    split; [exact Hd|]. exists "", post. split; [exact Hs|reflexivity].
  - intros (Hd & before & after & -> & Hlen).
    destruct before; [|discriminate]. rewrite append_nil.
    apply date_shape_iff in Hd. pose proof (date_shape_length d Hd) as H10.
    unfold match_here. rewrite prefix_append.
    rewrite (substring_skip "audit-" _ 0 10 : substring 6 10 ("audit-" ++ _) = _).
    rewrite (substring_skip "audit-" _ 10 5 : substring 16 5 ("audit-" ++ _) = _).
    assert (substring 0 10 (d ++ ".json" ++ after) = d) as ->
        by (rewrite <- H10; apply substring_prefix).
    assert (substring 10 5 (d ++ ".json" ++ after) = ".json") as ->.
    { replace 10%nat with (String.length d + 0)%nat by lia.
      rewrite substring_skip. apply (substring_prefix ".json"). }
    now rewrite Hd.
Qed.

Lemma match_date_cons c file :
  match_date (String c file) =
    match match_here (String c file) with
    | Some d => Some d
    | None => match_date file
    end.
Proof. reflexivity. Qed.

Lemma Embeds_cons c file d n : Embeds (String c file) d (S n) <-> Embeds file d n.
Proof.
  unfold Embeds. split.
  - intros (Hd & before & after & Hs & Hlen). split; [exact Hd|].
    destruct before as [|b before]; [discriminate|].
    rewrite append_cons in Hs. injection Hs as -> ->.
    exists before, after. split; [reflexivity|]. cbn in Hlen. lia.
  - intros (Hd & before & after & -> & Hlen). split; [exact Hd|].
    exists (String c before), after. split; [reflexivity|]. cbn. lia.
Qed.

Lemma Embeds_empty d n : ~ Embeds "" d n.
Proof.
  intros (_ & before & after & Hs & _).
  destruct before; [|discriminate]. discriminate.
Qed.

(** [String.prototype.match] with the pattern of the reader: the date of
    the leftmost place where the pattern matches. *)
Lemma match_date_iff file d : match_date file = Some d <-> EmbeddedDate file d.
Proof.
  revert d. induction file as [|c file IH]; intros d.
  - split; [discriminate|]. intros (n & Hn & _). now apply Embeds_empty in Hn.
  - rewrite match_date_cons. unfold EmbeddedDate.
    destruct (match_here (String c file)) as [d0|] eqn:Hh.
    + apply match_here_iff in Hh. split.
      * intros [= <-]. exists 0%nat. split; [exact Hh|]. intros m d' Hm. lia.
      * intros ([|n] & Hn & Hmin).
        -- apply match_here_iff in Hh, Hn. congruence.
        -- exfalso. apply (Hmin 0%nat d0); [lia|exact Hh].
    + rewrite IH. unfold EmbeddedDate. split.
      * intros (n & Hn & Hmin). exists (S n). split; [now apply Embeds_cons|].
        intros [|m] d' Hm.
        -- intros H0%match_here_iff. congruence.
        -- rewrite Embeds_cons. apply Hmin. lia.
      * intros ([|n] & Hn & Hmin).
        -- apply match_here_iff in Hn. congruence.
        -- exists n. split; [exact (proj1 (Embeds_cons c file d n) Hn)|].
           intros m d' Hm Hemb. apply (Hmin (S m) d'); [lia|].
           now apply Embeds_cons.
Qed.

Lemma match_date_none file : match_date file = None <-> forall d n, ~ Embeds file d n.
Proof.
  induction file as [|c file IH].
  - split; [intros _ d n; apply Embeds_empty|reflexivity].
  - rewrite match_date_cons.
    destruct (match_here (String c file)) as [d0|] eqn:Hh.
    + split; [discriminate|]. intros Hno. apply match_here_iff in Hh.
      now apply Hno in Hh.
    + rewrite IH. split.
      * intros Hno d [|n].
        -- intros H0%match_here_iff. congruence.
        -- rewrite Embeds_cons. apply Hno.
      * intros Hno d n Hemb. apply (Hno d (S n)). now apply Embeds_cons.
Qed.

(** ** The Audit Reader *)

Lemma selected_filter startDate endDate names :
  List.filter (in_window startDate endDate)
    (List.filter (fun f => (startsWith f "audit-" && endsWith f ".json")%bool) names)
  = List.filter (selected startDate endDate) names.
Proof.
  induction names as [|n names IH]; simpl; [reflexivity|].
  unfold selected at 1.
  destruct (startsWith n "audit-" && endsWith n ".json")%bool; simpl; [|exact IH].
  destruct (in_window startDate endDate n); simpl; now rewrite IH.
Qed.

Lemma in_window_range startDate endDate file d :
  match_date file = Some d ->
  in_window startDate endDate file = true <-> InRange startDate endDate d.
Proof.
  intros Hd. unfold in_window, InRange. rewrite Hd.
  rewrite andb_true_iff, !negb_true_iff, !andb_false_iff, !ltb_false_leb.
  split.
  - intros [Hs He]. split.
    + intros a -> Ha. destruct Hs as [Hs|Hs]; [|exact Hs].
      simpl in Hs. apply negb_false_iff, String.eqb_eq in Hs. contradiction.
    + intros b -> Hb. destruct He as [He|He]; [|exact He].
      simpl in He. apply negb_false_iff, String.eqb_eq in He. contradiction.
  - intros [Hs He]. split.
    + destruct startDate as [a|]; [|left; reflexivity]. simpl.
      destruct (String.eqb_spec a ""); [left; reflexivity|right; eauto].
    + destruct endDate as [b|]; [|left; reflexivity]. simpl.
      destruct (String.eqb_spec b ""); [left; reflexivity|right; eauto].
Qed.

(** A file is read exactly when it is a daily log file whose date is in range. *)
Lemma selected_iff startDate endDate file :
  selected startDate endDate file = true
  <-> exists d, DailyFile file d /\ InRange startDate endDate d.
Proof.
  unfold selected, DailyFile. rewrite !andb_true_iff, startsWith_iff, endsWith_iff.
  split.
  - intros [[Hp Hs] Hw]. destruct (match_date file) as [d|] eqn:Hd.
    + exists d. rewrite <- (in_window_range _ _ file d Hd).
      apply match_date_iff in Hd. auto.
    + unfold in_window in Hw. rewrite Hd in Hw. discriminate.
  - intros (d & (Hp & Hs & Hd%match_date_iff) & Hr).
    rewrite (in_window_range _ _ file d Hd). auto.
Qed.

(** The file the recorder names for the date [d] is a daily log file of
    that date. *)
Lemma daily_file_name d :
  date_shape d = true -> DailyFile ("audit-" ++ d ++ ".json") d.
Proof.
  intros Hd. split; [eauto|]. split.
  - exists ("audit-" ++ d). now rewrite !append_assoc_string.
  - apply match_date_iff.
    assert (Embeds ("audit-" ++ d ++ ".json") d 0) as Hemb.
    { split; [now apply date_shape_iff|]. exists "", "".
      split; [|reflexivity]. now rewrite append_nil, append_empty. }
    apply match_here_iff in Hemb.
    change ("audit-" ++ d ++ ".json") with (String "a" ("udit-" ++ d ++ ".json")) in *.
    now rewrite match_date_cons, Hemb.
Qed.

(** The reader's lines are the lines that were written. *)

Lemma trimEnd_app a b :
  trimEnd (a ++ b) = if String.eqb (trimEnd b) "" then trimEnd a else a ++ trimEnd b.
Proof.
  induction a as [|x a IH]; rewrite ?append_nil, ?append_cons; cbn [trimEnd].
  - rewrite ?append_nil. destruct (String.eqb_spec (trimEnd b) ""); congruence.
  - rewrite IH. destruct (String.eqb_spec (trimEnd b) "") as [Hb|Hb]; [reflexivity|].
    destruct (a ++ trimEnd b) eqn:Hab.
    + destruct a; rewrite ?append_nil, ?append_cons in Hab; congruence.
    + cbn [String.eqb]. now rewrite andb_false_r.
Qed.

Lemma trimEnd_visible l : ends_visible l = true -> trimEnd l = l.
Proof.
  induction l as [|a l IH]; [discriminate|].
  destruct l as [|b l].
  - cbn. intros H. apply negb_true_iff in H. now rewrite H.
  - intros H. change (ends_visible (String b l) = true) in H.
    change (trimEnd (String a (String b l)))
      with (let rest' := trimEnd (String b l) in
            if (is_space a && String.eqb rest' "")%bool then "" else String a rest').
    rewrite (IH H). cbn. now rewrite andb_false_r.
Qed.

Lemma split_line l s :
  no_line_feed l = true -> split LF (l ++ String LF s) = l :: split LF s.
Proof.
  induction l as [|a l IH]; simpl.
  - intros _. reflexivity.
  - intros [Ha Hl]%andb_true_iff. apply negb_true_iff in Ha.
    rewrite Ha, (IH Hl). reflexivity.
Qed.

Lemma split_single l : no_line_feed l = true -> split LF l = [l].
Proof.
  induction l as [|a l IH]; simpl; [reflexivity|].
  intros [Ha Hl]%andb_true_iff. apply negb_true_iff in Ha.
  rewrite Ha, (IH Hl). reflexivity.
Qed.

Lemma text_line_parts l :
  text_line l = true ->
  l <> "" /\ no_line_feed l = true /\ ends_visible l = true /\ trimStart l = l.
Proof.
  destruct l as [|a l]; [discriminate|]. unfold text_line.
  intros [[Ha Hn]%andb_true_iff He]%andb_true_iff. apply negb_true_iff in Ha.
  repeat split; try assumption; try discriminate. simpl. now rewrite Ha.
Qed.

Lemma trimEnd_written l lines :
  Forall (fun l => text_line l = true) (l :: lines) ->
  trimEnd (written (l :: lines)) <> ""
  /\ split LF (trimEnd (written (l :: lines))) = l :: lines.
Proof.
  revert l. induction lines as [|l2 lines IH]; intros l Hall.
  - apply Forall_cons in Hall as [Hl _].
    apply text_line_parts in Hl as (Hne & Hn & He & _).
    cbn [written fold_right]. rewrite trimEnd_app. simpl.
    rewrite (trimEnd_visible _ He). split; [exact Hne|]. now apply split_single.
  - apply Forall_cons in Hall as [Hl Hrest].
    destruct (IH l2 Hrest) as [Hne2 Hsplit].
    apply text_line_parts in Hl as (Hne & Hn & He & _).
    change (written (l :: l2 :: lines)) with (l ++ String LF (written (l2 :: lines))).
    rewrite trimEnd_app. cbn [trimEnd].
    destruct (String.eqb_spec (trimEnd (written (l2 :: lines))) "") as [|_];
      [contradiction|].
    rewrite andb_false_r. cbn [String.eqb].
    split.
    + destruct l; [contradiction|discriminate].
    + rewrite (split_line _ _ Hn), Hsplit. reflexivity.
Qed.

Lemma fileLines_written lines :
  Forall (fun l => text_line l = true) lines -> fileLines (written lines) = lines.
Proof.
  destruct lines as [|l lines]; [reflexivity|]. intros Hall.
  unfold fileLines, trim.
  assert (trimStart (written (l :: lines)) = written (l :: lines)) as ->.
  { apply Forall_cons in Hall as [Hl _]. destruct l as [|a l]; [discriminate|].
    unfold text_line in Hl. apply andb_true_iff in Hl as [[Ha _]%andb_true_iff _].
    apply negb_true_iff in Ha.
    change (written (String a l :: lines))
      with (String a (l ++ String LF (written lines))).
    cbn [trimStart]. now rewrite Ha. }
  destruct (trimEnd_written l lines Hall) as [_ ->].
  induction Hall as [|x xs Hx _ IH]; [reflexivity|].
  cbn [List.filter]. apply text_line_parts in Hx as (Hne & _).
  destruct (String.eqb_spec x ""); [contradiction|]. cbn. now rewrite IH.
Qed.

Section ReaderFacts.

Variable JSON_parse : string -> Outcome JsValue.
Variable localeCompare : string -> string -> Z.

Lemma parseLines_spec lines :
  forall entries w,
    parseLines JSON_parse lines entries w =
      (set_console w (console w ++ warnings_of JSON_parse lines),
       Returns (entries ++ entries_of JSON_parse lines)%list).
Proof.
  induction lines as [|line lines IH]; intros entries w.
  - destruct w. unfold set_console, warnings_of. simpl. now rewrite !app_nil_r.
  - cbn [parseLines]. unfold bind at 1, try_catch, bind at 1, lift, ret,
      warnings_of, entries_of, parsed_line, malformed.
    cbn [omap List.filter list_omap].
    destruct (JSON_parse line) as [e|err]; simpl.
    + rewrite IH. unfold warnings_of, entries_of, parsed_line, malformed.
      now rewrite <- app_assoc.
    + rewrite IH. unfold set_console, warnings_of, entries_of, parsed_line, malformed.
      simpl. now rewrite <- app_assoc.
Qed.

Lemma readFileSync_spec files name w :
  logDir (fs w) = Some files ->
  readFileSync name w =
    match read_fault files name with
    | Some e => (w, Throws e)
    | None => (w, Returns (content_of files name))
    end.
Proof.
  intros Hdir. unfold readFileSync, read_fault, content_of. rewrite Hdir.
  destruct (obj_get files name) as [f|]; [|reflexivity].
  destruct (read_error f); reflexivity.
Qed.

Lemma readFiles_cons startDate endDate name names entries :
  readFiles JSON_parse startDate endDate (name :: names) entries =
    if in_window startDate endDate name
    then
      let* content := readFileSync name in
      let* entries' := parseLines JSON_parse (fileLines content) entries in
      readFiles JSON_parse startDate endDate names entries'
    else readFiles JSON_parse startDate endDate names entries.
Proof.
  cbn [readFiles]. unfold in_window.
  destruct (match_date name) as [d|]; [|reflexivity].
  destruct (truthy startDate && String.ltb d (default "" startDate))%bool;
    [reflexivity|].
  destruct (truthy endDate && String.ltb (default "" endDate) d)%bool; reflexivity.
Qed.

(** The loop over the files: it stops at the first file it cannot read,
    with the warnings of the files before it printed, and otherwise
    gathers the values of every file in the window. *)
Lemma readFiles_spec startDate endDate files names :
  forall entries w,
    logDir (fs w) = Some files ->
    let window := List.filter (in_window startDate endDate) names in
    readFiles JSON_parse startDate endDate names entries w =
      match first_read_fault files window with
      | Some e =>
          (set_console w
             (console w ++ collected_warnings JSON_parse files
                             (before_fault files window)),
           Throws e)
      | None =>
          (set_console w (console w ++ collected_warnings JSON_parse files window),
           Returns (entries ++ collected JSON_parse files window)%list)
      end.
Proof.
  cbn zeta.
  induction names as [|name names IH]; intros entries w Hdir.
  - destruct w. unfold set_console. simpl. now rewrite !app_nil_r.
  - rewrite readFiles_cons. cbn [List.filter].
    destruct (in_window startDate endDate name); [|apply (IH entries w Hdir)].
    unfold first_read_fault. cbn [omap list_omap before_fault].
    destruct (read_fault files name) as [e|] eqn:Hf; cbn [head].
    + unfold bind at 1. rewrite (readFileSync_spec files name w Hdir), Hf.
      destruct w. unfold set_console. cbn. now rewrite app_nil_r.
    + unfold bind at 1. rewrite (readFileSync_spec files name w Hdir), Hf.
      unfold bind at 1. rewrite parseLines_spec.
      rewrite (IH _ (set_console w _) Hdir).
      unfold first_read_fault.
      destruct (head (omap (read_fault files)
                           (List.filter (in_window startDate endDate) names)));
        unfold collected, collected_warnings, set_console; simpl;
        now rewrite <- !app_assoc.
Qed.

Lemma readAuditLogs_spec startDate endDate files w :
  logDir (fs w) = Some files ->
  readdir_error (fs w) = None ->
  let names := List.filter (selected startDate endDate) (map fst files) in
  readAuditLogs JSON_parse localeCompare startDate endDate w =
    match first_read_fault files names with
    | Some e =>
        (set_console w
           (console w ++ collected_warnings JSON_parse files (before_fault files names)),
         Throws e)
    | None =>
        (set_console w (console w ++ collected_warnings JSON_parse files names),
         sort_by (newest_first localeCompare) (collected JSON_parse files names))
    end.
Proof.
  intros Hdir Hrd. cbn zeta.
  unfold readAuditLogs. unfold bind at 1. rewrite ensureLogDir_spec, Hdir.
  unfold bind at 1, readdirSync. rewrite Hrd, Hdir.
  unfold bind at 1.
  rewrite (readFiles_spec startDate endDate files _ [] w Hdir).
  cbn zeta. rewrite selected_filter.
  now destruct (first_read_fault files
                  (List.filter (selected startDate endDate) (map fst files))).
Qed.

(** A read with no directory to read makes it and finds nothing. *)
Lemma readAuditLogs_absent startDate endDate w :
  logDir (fs w) = None ->
  readAuditLogs JSON_parse localeCompare startDate endDate w =
    match mkdir_error (fs w), readdir_error (fs w) with
    | Some e, _ => (w, Throws e)
    | None, Some e =>
        (set_fs w (mkFS (Some []) None (append_error (fs w)) (readdir_error (fs w))),
         Throws e)
    | None, None =>
        (set_fs w (mkFS (Some []) None (append_error (fs w)) None), Returns [])
    end.
Proof.
  intros Hdir. unfold readAuditLogs. unfold bind at 1.
  rewrite ensureLogDir_spec, Hdir.
  destruct (mkdir_error (fs w)); [reflexivity|].
  unfold bind at 1, readdirSync. cbn.
  destruct (readdir_error (fs w)) eqn:Hrd; cbn; rewrite ?Hrd; reflexivity.
Qed.

(** What a read that returns has done, in any world. *)
Lemma readAuditLogs_returns startDate endDate w w' l :
  readAuditLogs JSON_parse localeCompare startDate endDate w = (w', Returns l) ->
  let files := default [] (logDir (fs w)) in
  let names := List.filter (selected startDate endDate) (map fst files) in
  sort_by (newest_first localeCompare) (collected JSON_parse files names) = Returns l
  /\ console w' = (console w ++ collected_warnings JSON_parse files names)%list
  /\ first_read_fault files names = None.
Proof.
  destruct (logDir (fs w)) as [files|] eqn:Hdir; cbn zeta; cbn [from_option id].
  - destruct (readdir_error (fs w)) as [e|] eqn:Hrd.
    + unfold readAuditLogs. unfold bind at 1. rewrite ensureLogDir_spec, Hdir.
      unfold bind at 1, readdirSync. rewrite Hrd. discriminate.
    + rewrite (readAuditLogs_spec startDate endDate files w Hdir Hrd). cbn zeta.
      destruct (first_read_fault files
                  (List.filter (selected startDate endDate) (map fst files))) eqn:Hff;
        [discriminate|].
      intros [= <- ->]. auto.
  - rewrite (readAuditLogs_absent _ _ _ Hdir).
    destruct (mkdir_error (fs w)); [discriminate|].
    destruct (readdir_error (fs w)); [discriminate|].
    intros [= <- <-]. cbn. rewrite app_nil_r. auto.
Qed.

(** The comparator on two entries. *)
Lemma newest_first_entries a b :
  Entry a -> Entry b ->
  newest_first localeCompare a b = Returns (by_stamp localeCompare a b).
Proof.
  unfold Entry, by_stamp, stamp, newest_first, read_timestamp.
  intros [ta Ha] [tb Hb].
  destruct b as [| | | | | |pb]; try discriminate.
  destruct (obj_get pb "timestamp") as [[| | | |sb| |]|]; try discriminate.
  destruct a as [| | | | | |pa]; try discriminate.
  destruct (obj_get pa "timestamp") as [[| | | |sa| |]|]; try discriminate.
  reflexivity.
Qed.

Lemma sort_entries l :
  Forall Entry l ->
  sort_by (newest_first localeCompare) l = Returns (sort (by_stamp localeCompare) l).
Proof.
  intros Hl. apply sort_by_pure. intros x y Hx Hy.
  rewrite Forall_forall in Hl.
  apply newest_first_entries; apply Hl; now apply list_elem_of_In.
Qed.

Lemma readAuditLogs_total startDate endDate w :
  let files := default [] (logDir (fs w)) in
  let names := List.filter (selected startDate endDate) (map fst files) in
  (logDir (fs w) = None -> mkdir_error (fs w) = None) ->
  readdir_error (fs w) = None ->
  first_read_fault files names = None ->
  Forall Entry (collected JSON_parse files names) ->
  exists w',
    readAuditLogs JSON_parse localeCompare startDate endDate w
    = (w', Returns (sort (by_stamp localeCompare) (collected JSON_parse files names))).
Proof.
  cbn zeta. intros Hmk Hrd Hff Hentries.
  destruct (logDir (fs w)) as [files|] eqn:Hdir; cbn [from_option id] in *.
  - rewrite (readAuditLogs_spec startDate endDate files w Hdir Hrd). cbn zeta.
    rewrite Hff, (sort_entries _ Hentries). eauto.
  - rewrite (readAuditLogs_absent _ _ _ Hdir), (Hmk eq_refl), Hrd. eauto.
Qed.

Lemma timestamps_under_localeCompare (l : list JsValue) :
  (forall a b c, localeCompare a b <= 0 -> localeCompare b c <= 0 ->
                 localeCompare a c <= 0) ->
  (forall a b, 0 < localeCompare a b -> localeCompare b a <= 0) ->
  Forall Entry l ->
  StronglySorted
    (fun a b => exists ta tb,
         stamp a = Some ta /\ stamp b = Some tb /\ localeCompare tb ta <= 0)
    (sort (by_stamp localeCompare) l).
Proof.
  intros Htrans Htotal Hl.
  apply (sort_sorted _ _ Entry); unfold by_stamp, Entry; [| | |exact Hl].
  - intros a b c (ta & tb & Ha & Hb & Hab) (tb' & tc & Hb' & Hc & Hbc).
    rewrite Hb in Hb'. injection Hb' as <-.
    exists ta, tc. split; [exact Ha|]. split; [exact Hc|].
    exact (Htrans _ _ _ Hbc Hab).
  - intros a b [ta Ha] [tb Hb]. rewrite Ha, Hb. cbn [from_option id]. eauto 6.
  - intros a b [ta Ha] [tb Hb]. rewrite Ha, Hb. cbn [from_option id]. eauto 6.
Qed.

Lemma timestamps_sorted (l : list JsValue) :
  (forall a b, iso_timestamp a = true -> iso_timestamp b = true ->
               (localeCompare a b ?= 0) = String.compare a b) ->
  Forall (fun v => exists t, stamp v = Some t /\ iso_timestamp t = true) l ->
  StronglySorted newer_or_same (sort (by_stamp localeCompare) l).
Proof.
  intros Hloc Hiso.
  apply (sort_sorted _ newer_or_same
           (fun v => exists t, stamp v = Some t /\ iso_timestamp t = true));
    unfold newer_or_same, by_stamp; [| | |exact Hiso].
  - intros a b c (ta & tb & Ha & Hb & Hab) (tb' & tc & Hb' & Hc & Hbc).
    rewrite Hb in Hb'. injection Hb' as <-.
    exists ta, tc. split; [exact Ha|]. split; [exact Hc|].
    exact (leb_trans _ _ _ Hbc Hab).
  - intros a b (ta & Ha & Hia) (tb & Hb & Hib). rewrite Ha, Hb. cbn [from_option id].
    intros Hle. exists ta, tb. split; [reflexivity|]. split; [reflexivity|].
    unfold String.leb. rewrite <- (Hloc _ _ Hib Hia). apply Z.compare_le_iff in Hle.
    destruct (localeCompare tb ta ?= 0); congruence.
  - intros a b (ta & Ha & Hia) (tb & Hb & Hib). rewrite Ha, Hb. cbn [from_option id].
    intros Hgt. exists tb, ta. split; [reflexivity|]. split; [reflexivity|].
    unfold String.leb. rewrite String.compare_antisym, <- (Hloc _ _ Hib Hia).
    apply Z.compare_gt_iff in Hgt. now rewrite Hgt.
Qed.

(** C1, as the code has it: [readAuditLogs] reads exactly the files of the
    directory that are daily log files with a date in the inclusive range
    (a bound that is absent or empty is no bound). Whenever it returns,
    its list holds exactly the values parsed from the lines of these files.
    It returns when the directory and these files can be read and every
    such value is an entry, an object with a string as time stamp. A list
    of entries is in the order of [localeCompare] on the time stamps,
    newest first; for ISO-8601 time stamps, on which [localeCompare] agrees
    with the comparison of code units, that is the descending
    lexicographic order, across the files. *)
Theorem readAuditLogs_range_sorted startDate endDate w :
  let files := default [] (logDir (fs w)) in
  let names := List.filter (selected startDate endDate) (map fst files) in
  let read := collected JSON_parse files names in
  (forall name,
      selected startDate endDate name = true
      <-> exists d, DailyFile name d /\ InRange startDate endDate d)
  /\ ((logDir (fs w) = None -> mkdir_error (fs w) = None) ->
      readdir_error (fs w) = None ->
      first_read_fault files names = None ->
      Forall Entry read ->
      exists w' l,
        readAuditLogs JSON_parse localeCompare startDate endDate w = (w', Returns l))
  /\ (forall w' l,
        readAuditLogs JSON_parse localeCompare startDate endDate w = (w', Returns l) ->
        l ≡ₚ read
        /\ (Forall Entry l ->
            (forall a b c, localeCompare a b <= 0 -> localeCompare b c <= 0 ->
                           localeCompare a c <= 0) ->
            (forall a b, 0 < localeCompare a b -> localeCompare b a <= 0) ->
            StronglySorted
              (fun a b => exists ta tb,
                   stamp a = Some ta /\ stamp b = Some tb /\ localeCompare tb ta <= 0)
              l)
        /\ ((forall a b, iso_timestamp a = true -> iso_timestamp b = true ->
                         (localeCompare a b ?= 0) = String.compare a b) ->
            Forall (fun v => exists t, stamp v = Some t /\ iso_timestamp t = true) l ->
            StronglySorted newer_or_same l)).
Proof.
  cbn zeta. split; [|split].
  - intros name. apply selected_iff.
  - intros Hmk Hrd Hff Hentries.
    destruct (readAuditLogs_total startDate endDate w Hmk Hrd Hff Hentries) as [w' Hrun].
    eauto.
  - intros w' l Hrun. apply readAuditLogs_returns in Hrun as (Hsort & _ & _).
    pose proof (sort_by_perm _ _ _ Hsort) as Hperm.
    split; [exact Hperm|]. split.
    + intros Hl Htrans Htotal.
      assert (Forall Entry (collected JSON_parse (default [] (logDir (fs w)))
                (List.filter (selected startDate endDate)
                             (map fst (default [] (logDir (fs w))))))) as Hall
        by now rewrite <- Hperm.
      rewrite (sort_entries _ Hall) in Hsort. injection Hsort as <-.
      now apply timestamps_under_localeCompare.
    + intros Hloc Hiso.
      assert (Forall Entry l) as Hl.
      { eapply Forall_impl; [exact Hiso|]. intros v (t & Ht & _). now exists t. }
      rewrite Hperm in Hl. rewrite (sort_entries _ Hl) in Hsort.
      injection Hsort as <-. apply timestamps_sorted; [exact Hloc|].
      now rewrite sort_perm in Hiso.
Qed.

End ReaderFacts.

Section ReaderLines.

Variable JSON_parse : string -> Outcome JsValue.
Variable localeCompare : string -> string -> Z.

Lemma collected_app files a b :
  collected JSON_parse files (a ++ b) =
  (collected JSON_parse files a ++ collected JSON_parse files b)%list.
Proof. unfold collected. apply flat_map_app. Qed.

Lemma collected_warnings_app files a b :
  collected_warnings JSON_parse files (a ++ b) =
  (collected_warnings JSON_parse files a ++ collected_warnings JSON_parse files b)%list.
Proof. unfold collected_warnings. apply flat_map_app. Qed.

(** Lines that parse give their values, and no warning. *)
Lemma entries_of_values lines values :
  Forall2 (fun line v => JSON_parse line = Returns v) lines values ->
  entries_of JSON_parse lines = values /\ warnings_of JSON_parse lines = [].
Proof.
  unfold entries_of, warnings_of, parsed_line, malformed.
  induction 1 as [|line v lines values Hv _ [IH1 IH2]]; [split; reflexivity|].
  cbn [omap list_omap List.filter]. rewrite Hv. cbn. rewrite IH1. auto.
Qed.

Lemma entries_of_malformed before bad after values e :
  JSON_parse bad = Throws e ->
  Forall2 (fun line v => JSON_parse line = Returns v) (before ++ after) values ->
  entries_of JSON_parse (before ++ bad :: after) = values
  /\ warnings_of JSON_parse (before ++ bad :: after) = [parse_warning bad].
Proof.
  intros Hbad (v1 & v2 & Hb & Ha & ->)%Forall2_app_inv_l.
  apply entries_of_values in Hb as [Hb Hwb].
  apply entries_of_values in Ha as [Ha Hwa].
  unfold entries_of, warnings_of in *. rewrite !omap_app.
  rewrite List.filter_app, map_app, Hwb, Hb. cbn [omap list_omap List.filter].
  unfold parsed_line at 1. unfold malformed at 1. rewrite Hbad.
  cbn [map]. rewrite Hwa, Ha. auto.
Qed.

(** C5, as the code has it: a daily log file in range whose lines are one
    malformed line among lines that each hold an entry gives exactly the
    entries of these lines, one for each; the read prints one warning for
    the malformed line, with the line, and returns: its list is these
    entries with those of the other files read, which are to hold entries
    too. The lines are the non-empty lines of the trimmed content, as the
    reader splits it. *)
Theorem readAuditLogs_skips_malformed_line startDate endDate w files dir1 file dir2
  before bad after values e :
  let earlier := List.filter (selected startDate endDate) dir1 in
  let later := List.filter (selected startDate endDate) dir2 in
  logDir (fs w) = Some files ->
  readdir_error (fs w) = None ->
  map fst files = (dir1 ++ file :: dir2)%list ->
  (exists d, DailyFile file d /\ InRange startDate endDate d) ->
  first_read_fault files (earlier ++ file :: later) = None ->
  fileLines (content_of files file) = (before ++ bad :: after)%list ->
  JSON_parse bad = Throws e ->
  Forall2 (fun line v => JSON_parse line = Returns v /\ Entry v) (before ++ after) values ->
  Forall Entry (collected JSON_parse files earlier) ->
  Forall Entry (collected JSON_parse files later) ->
  exists w' l,
    readAuditLogs JSON_parse localeCompare startDate endDate w = (w', Returns l)
    /\ l ≡ₚ (collected JSON_parse files earlier ++ values
              ++ collected JSON_parse files later)%list
    /\ length values = length (before ++ after)
    /\ console w' =
         (console w ++ collected_warnings JSON_parse files earlier
            ++ [mkLine Warn [Text "[Audit] Failed to parse log line:"; Text bad]]
            ++ collected_warnings JSON_parse files later)%list.
Proof.
  cbn zeta. intros Hdir Hrd Hnames Hdaily Hff Hlines Hbad Hvalues Hearlier Hlater.
  apply selected_iff in Hdaily.
  assert (List.filter (selected startDate endDate) (map fst files)
          = (List.filter (selected startDate endDate) dir1 ++ file
               :: List.filter (selected startDate endDate) dir2)%list) as Hsel.
  { rewrite Hnames, List.filter_app. cbn [List.filter]. now rewrite Hdaily. }
  assert (Forall2 (fun line v => JSON_parse line = Returns v) (before ++ after) values)
    as Hparse by (eapply Forall2_impl; [exact Hvalues|]; now intros ? ? [? _]).
  destruct (entries_of_malformed before bad after values e Hbad Hparse) as [He Hw].
  assert (collected JSON_parse files
            (List.filter (selected startDate endDate) (map fst files))
          = (collected JSON_parse files (List.filter (selected startDate endDate) dir1)
               ++ values
               ++ collected JSON_parse files
                    (List.filter (selected startDate endDate) dir2))%list) as Hcol.
  { rewrite Hsel, collected_app. f_equal.
    change (?a :: ?l) with ([a] ++ l)%list. rewrite collected_app. f_equal.
    unfold collected. cbn [flat_map]. now rewrite app_nil_r, Hlines, He. }
  assert (collected_warnings JSON_parse files
            (List.filter (selected startDate endDate) (map fst files))
          = (collected_warnings JSON_parse files
               (List.filter (selected startDate endDate) dir1)
               ++ [parse_warning bad]
               ++ collected_warnings JSON_parse files
                    (List.filter (selected startDate endDate) dir2))%list) as Hwarn.
  { rewrite Hsel, collected_warnings_app. f_equal.
    change (?a :: ?l) with ([a] ++ l)%list. rewrite collected_warnings_app. f_equal.
    unfold collected_warnings. cbn [flat_map]. now rewrite app_nil_r, Hlines, Hw. }
  destruct (readAuditLogs_total JSON_parse localeCompare startDate endDate w)
    as [w' Hrun]; cbn zeta; rewrite ?Hdir; cbn [from_option id];
    [discriminate|exact Hrd|now rewrite Hsel| |].
  { rewrite Hcol. repeat (apply Forall_app; split); try assumption.
    clear -Hvalues. induction Hvalues as [|? ? ? ? [_ Hv]]; constructor; auto. }
  pose proof (readAuditLogs_returns _ _ _ _ _ _ _ Hrun) as (_ & Hconsole & _).
  cbn zeta in Hconsole. rewrite Hdir in Hrun, Hconsole. cbn [from_option id] in *.
  eexists _, _. split; [exact Hrun|]. split; [|split].
  - rewrite sort_perm. now rewrite Hcol.
  - symmetry. eapply Forall2_length. exact Hvalues.
  - now rewrite Hconsole, Hwarn.
Qed.

End ReaderLines.

Section ReaderFailures.

Variable JSON_stringify : AuditLogEntry -> Outcome string.
Variable JSON_parse : string -> Outcome JsValue.
Variable localeCompare : string -> string -> Z.

(** C6, as the code has it: when a daily log file in range cannot be
    read, [readAuditLogs] does not skip it: the read stops at the first
    such file and throws its error, and no entry is returned; the handler
    of [GET /audit-logs] catches the error, prints it and answers 500.
    What the read has printed by then are the warnings for the lines of the
    files before that one: nothing is printed for the file itself but the
    handler's error line. *)
Theorem readAuditLogs_unreadable_file_aborts x w files e :
  let startDate := obj_get (query (req x)) "startDate" in
  let endDate := obj_get (query (req x)) "endDate" in
  logDir (fs w) = Some files ->
  readdir_error (fs w) = None ->
  first_read_fault files
    (List.filter (selected startDate endDate) (map fst files)) = Some e ->
  send (res x) = originalSend ->
  (exists w',
      readAuditLogs JSON_parse localeCompare startDate endDate w = (w', Throws e)
      /\ fs w' = fs w
      /\ console w' =
           (console w ++
            collected_warnings JSON_parse files
              (before_fault files
                 (List.filter (selected startDate endDate) (map fst files))))%list)
  /\ (exists w',
        getAuditLogs JSON_stringify JSON_parse localeCompare x w
        = (w', Returns (emit (error_body "Failed to read audit logs") (status 500 x)))
        /\ last (console w') = Some (read_failure_line e)
        /\ console w' =
             (console w ++
              collected_warnings JSON_parse files
                (before_fault files
                   (List.filter (selected startDate endDate) (map fst files)))
              ++ [mkLine Error [Text "[Audit] Read logs error:"; Thrown e]])%list).
Proof.
  cbn zeta. intros Hdir Hrd Hff Hsend.
  pose proof (readAuditLogs_spec JSON_parse localeCompare
                (obj_get (query (req x)) "startDate")
                (obj_get (query (req x)) "endDate") files w Hdir Hrd) as H.
  cbn zeta in H. rewrite Hff in H.
  split; [eexists; split; [exact H|split; reflexivity]|].
  unfold getAuditLogs, try_catch. unfold bind at 1. rewrite H.
  unfold bind at 1, console_emit, json. cbn [status res send].
  rewrite Hsend. cbn [call_send_text]. unfold ret.
  eexists. split; [reflexivity|]. cbn [console set_console].
  split; [apply last_snoc|]. now rewrite <- app_assoc.
Qed.

End ReaderFailures.

(** ** What the recorder leaves behind *)

Lemma content_of_append_file files name data n :
  content_of (append_file files name data) n =
    if String.eqb name n then content_of files name ++ data else content_of files n.
Proof.
  unfold content_of. induction files as [|[k f] files IH]; cbn [append_file obj_get].
  - destruct (String.eqb name n); reflexivity.
  - destruct (String.eqb_spec k name) as [->|Hk]; cbn [obj_get].
    + destruct (String.eqb name n); reflexivity.
    + destruct (String.eqb_spec k n) as [->|Hn].
      * destruct (String.eqb_spec name n); [congruence|reflexivity].
      * exact IH.
Qed.

Lemma obj_get_append_file files name data n f :
  obj_get files n = Some f ->
  exists f', obj_get (append_file files name data) n = Some f'
             /\ read_error f' = read_error f
             /\ exists suffix, content f' = content f ++ suffix.
Proof.
  induction files as [|[k g] files IH]; cbn [append_file obj_get]; [discriminate|].
  destruct (String.eqb_spec k name) as [->|Hk]; cbn [obj_get].
  - destruct (String.eqb name n).
    + intros [= <-]. eexists. split; [reflexivity|]. split; [reflexivity|].
      exists data. reflexivity.
    + intros H. exists f. split; [exact H|]. split; [reflexivity|].
      exists "". clear. induction (content f) as [|a c IHc]; [reflexivity|].
      rewrite append_cons. now rewrite <- IHc.
  - destruct (String.eqb k n).
    + intros [= <-]. exists g. split; [reflexivity|]. split; [reflexivity|].
      exists "". clear. induction (content g) as [|a c IHc]; [reflexivity|].
      rewrite append_cons. now rewrite <- IHc.
    + exact IH.
Qed.

Lemma written_snoc lines l : written (lines ++ [l]) = written lines ++ l ++ newline.
Proof.
  induction lines as [|x lines IH]; cbn [app written fold_right].
  - reflexivity.
  - fold (written (lines ++ [l])). fold (written lines).
    rewrite IH, append_assoc_string, append_cons. reflexivity.
Qed.

Section RecorderEffects.

Variable JSON_stringify : AuditLogEntry -> Outcome string.

(** The run of a write that meets no fault. *)
Lemma writeEntry_success entry w json :
  JSON_stringify entry = Returns json ->
  (logDir (fs w) = None -> mkdir_error (fs w) = None) ->
  append_error (fs w) = None ->
  exists w',
    writeEntry JSON_stringify entry w = (w', Returns tt)
    /\ logDir (fs w') =
         Some (append_file (default [] (logDir (fs w)))
                 ("audit-" ++ hd "" (split "T" (clock w (ticks w))) ++ ".json")
                 (json ++ newline))
    /\ readdir_error (fs w') = readdir_error (fs w)
    /\ console w' = console w.
Proof.
  intros Hjson Hmk Happ.
  unfold writeEntry, bind, getLogFilePath, Date_toISOString, lift, ret, appendFileSync.
  rewrite ensureLogDir_spec, Hjson.
  destruct (logDir (fs w)) as [files|] eqn:Hdir; cbn.
  - rewrite Happ, Hdir. eexists. repeat split.
  - rewrite (Hmk eq_refl). cbn. rewrite Happ. cbn. eexists. repeat split.
Qed.

(** Whatever happens in a write, the directory is as it was, or newly made,
    or has one piece of text appended to one file. *)
Lemma writeEntry_directory entry w w' o :
  writeEntry JSON_stringify entry w = (w', o) ->
  logDir (fs w') = logDir (fs w)
  \/ logDir (fs w') = Some []  /\ logDir (fs w) = None
  \/ exists name data,
       logDir (fs w') = Some (append_file (default [] (logDir (fs w))) name data).
Proof.
  unfold writeEntry, bind, getLogFilePath, Date_toISOString, lift, ret, appendFileSync.
  rewrite ensureLogDir_spec.
  repeat (case_match; simpl in * ); intros; simplify_eq/=; eauto 6.
Qed.

Lemma writeEntry_frame entry w w' o :
  writeEntry JSON_stringify entry w = (w', o) -> env w' = env w /\ db w' = db w.
Proof.
  unfold writeEntry, bind, getLogFilePath, Date_toISOString, lift, ret, appendFileSync.
  rewrite ensureLogDir_spec.
  repeat (case_match; simpl in * ); intros; simplify_eq/=; auto.
Qed.

(** The recorder touches neither the environment nor the database. *)
Lemma logAuditAction_frame admin action options w w' o :
  logAuditAction JSON_stringify admin action options w = (w', o) ->
  env w' = env w /\ db w' = db w.
Proof.
  rewrite logAuditAction_unfold. cbv zeta.
  set (w0 := mkWorld _ _ _ _ _ _). set (entry := buildEntry _ _ _ _).
  destruct (decide (env w !! "AUDIT_LOG_ENABLED" = Some "true")) as [Hon|Hoff].
  - rewrite (appendToLog_enabled JSON_stringify entry w0 Hon).
    destruct (writeEntry JSON_stringify entry w0) as [w1 [[]|e]] eqn:Hrun;
      apply writeEntry_frame in Hrun as [He Hd]; intros [= <- _]; cbn; auto.
  - rewrite (appendToLog_disabled JSON_stringify entry w0 Hoff).
    intros [= <- _]. cbn. auto.
Qed.

(** The recorder records the entry it is asked to: the one stamped with
    the time of the call, with the admin, the action and the options given,
    the address ['unknown'] where the options give none. *)
Lemma logAuditAction_records admin action options w :
  exists w',
    logAuditAction JSON_stringify admin action options w = (w', Returns tt)
    /\ Recorded JSON_stringify
         {| timestamp := clock w (ticks w);
            action := action;
            admin := admin;
            target := o ← options; opt_target o;
            changes := o ← options; opt_changes o;
            metadata := o ← options; opt_metadata o;
            ip := or_else (o ← options; opt_ip o) "unknown";
            userAgent := o ← options; opt_userAgent o |}
         w w'.
Proof.
  destruct (logAuditAction_returns JSON_stringify admin action options w) as (w' & Hrun).
  exists w'. split; [exact Hrun|].
  destruct (logAuditAction_frame _ _ _ _ _ _ Hrun) as [Henv Hdb].
  revert Hrun. rewrite logAuditAction_unfold. cbv zeta.
  set (w0 := mkWorld _ _ _ _ _ _).
  change (buildEntry (clock w (ticks w)) admin action options)
    with {| timestamp := clock w (ticks w);
            action := action;
            admin := admin;
            target := o ← options; opt_target o;
            changes := o ← options; opt_changes o;
            metadata := o ← options; opt_metadata o;
            ip := or_else (o ← options; opt_ip o) "unknown";
            userAgent := o ← options; opt_userAgent o |}.
  set (entry := mkEntry _ _ _ _ _ _ _ _).
  assert (audit_console_line admin action options = audit_line_of entry) as Hline.
  { unfold audit_console_line, audit_line_of. subst entry.
    destruct options as [o|]; reflexivity. }
  intros Hrun. unfold Recorded. cbv zeta.
  split; [reflexivity|]. split; [exact Henv|]. split; [exact Hdb|].
  split; [|split].
  - destruct (appendToLog_returns JSON_stringify entry w0) as (w1 & errs & Hw1 & Hc & Herrs).
    rewrite Hw1 in Hrun. injection Hrun as <-. exists errs. split; [|exact Herrs].
    cbn [console set_console]. rewrite Hc, Hline. cbn [console w0].
    now rewrite <- app_assoc.
  - intros Hoff. rewrite (appendToLog_disabled JSON_stringify entry w0 Hoff) in Hrun.
    injection Hrun as <-. rewrite Hline. split; reflexivity.
  - intros Hon text Htext Hmk Happ.
    rewrite (appendToLog_enabled JSON_stringify entry w0 Hon) in Hrun.
    destruct (writeEntry_success entry w0 text Htext Hmk Happ)
      as (w1 & Hw1 & Hdir & _ & Hconsole).
    rewrite Hw1 in Hrun. injection Hrun as <-.
    subst w0. cbn [fs clock ticks console] in Hdir, Hconsole.
    split; [cbn; now rewrite Hconsole, Hline|].
    eexists. split; [exact Hdir|]. intros name. apply content_of_append_file.
Qed.

End RecorderEffects.

(** ** The Audit Interceptor *)

Lemma includes_In l s : includes l s = true <-> In s l.
Proof.
  unfold includes. rewrite existsb_exists. split.
  - intros (y & Hy & ->%String.eqb_eq). exact Hy.
  - intros Hs. exists s. split; [exact Hs|apply String.eqb_refl].
Qed.

Section InterceptorFacts.

Variable JSON_stringify : AuditLogEntry -> Outcome string.

Lemma or_else_nonempty o d : d <> "" -> or_else o d <> "".
Proof.
  intros Hd. destruct o as [s|]; cbn; [|exact Hd].
  destruct (String.eqb_spec s ""); assumption.
Qed.

Lemma or_else_Some s d : s <> "" -> or_else (Some s) d = s.
Proof. intros Hs. cbn. now destruct (String.eqb_spec s ""). Qed.

(** The entry the wrapper records for an exchange, at the time [now]. *)
Lemma auditedSend_log_spec actionPrefix x w :
  let mutation :=
    In (method (req x)) ["POST"; "PUT"; "PATCH"; "DELETE"] /\ statusCode (res x) < 400 in
  (mutation ->
   exists w',
     auditedSend_log JSON_stringify actionPrefix x w = (w', Returns tt)
     /\ Recorded JSON_stringify
          {| timestamp := clock w (ticks w);
             action := actionPrefix ++ "_" ++ method (req x);
             admin := match req_admin (req x) with
                      | Some a => if String.eqb (username a) "" then "unknown"
                                  else username a
                      | None => "unknown"
                      end;
             target := None;
             changes := None;
             metadata :=
               Some [("path", JsString (path (req x)));
                     ("params", JsObject (map (fun kv => (fst kv, JsString (snd kv)))
                                              (params (req x))));
                     ("statusCode", JsNumber (statusCode (res x)))];
             ip := or_else (req_ip (req x)) (or_else (remoteAddress (req x)) "unknown");
             userAgent := obj_get (headers (req x)) "user-agent" |}
          w w')
  /\ (~ mutation -> auditedSend_log JSON_stringify actionPrefix x w = (w, Returns tt)).
Proof.
  cbn zeta. unfold auditedSend_log, mutating_methods. split.
  - intros [Hm Hc]. apply includes_In in Hm. apply Z.ltb_lt in Hc.
    rewrite Hm, Hc. cbn [andb].
    destruct (logAuditAction_records JSON_stringify
                (or_else (username <$> req_admin (req x)) "unknown")
                (actionPrefix ++ "_" ++ method (req x))
                (Some (interceptor_options x)) w) as (w' & Hrun & Hrec).
    exists w'. split; [exact Hrun|].
    cbn [mbind option_bind interceptor_options opt_target opt_changes opt_metadata
         opt_ip opt_userAgent] in Hrec.
    rewrite or_else_Some in Hrec
      by (apply or_else_nonempty, or_else_nonempty; discriminate).
    destruct (req_admin (req x)) as [a|]; exact Hrec.
  - intros Hno.
    destruct (includes ["POST"; "PUT"; "PATCH"; "DELETE"] (method (req x))
              && (statusCode (res x) <? 400))%bool eqn:Hc; [|reflexivity].
    exfalso. apply Hno. apply andb_true_iff in Hc as [Hm Hc].
    split; [now apply includes_In|now apply Z.ltb_lt].
Qed.

(** C4: the middleware made for [actionPrefix] records nothing when it
    runs: it installs a wrapper around the [res.send] it finds and passes on.
    When the response is sent, with the status [code] the handler has set by
    then, the wrapper records an entry exactly when the method is POST, PUT,
    PATCH or DELETE and [code] is below 400. The entry has the action
    [actionPrefix_METHOD], the user name of [req.admin] (['unknown'] without
    one) as admin, and the path, the route parameters and [code] as
    metadata. Otherwise the wrapper leaves the world as it is. In both cases
    the wrapped function then sends the response. A response made by
    [res.json], as every handler of this server makes it, or by [res.send]
    of a string passes the wrapper once; the framework hands an object, a
    number or a boolean given to [res.send] to [res.json], so that one
    passes the wrapper twice and is recorded twice. *)
Theorem auditMiddleware_records_mutations actionPrefix x next code payload w :
  let wrapped := send (res x) in
  let installed := set_send x (auditedSend actionPrefix wrapped) in
  let x' := status code installed in
  let entry now :=
    {| timestamp := now;
       action := actionPrefix ++ "_" ++ method (req x);
       admin := match req_admin (req x) with
                | Some a => if String.eqb (username a) "" then "unknown"
                            else username a
                | None => "unknown"
                end;
       target := None;
       changes := None;
       metadata :=
         Some [("path", JsString (path (req x)));
               ("params", JsObject (map (fun kv => (fst kv, JsString (snd kv)))
                                        (params (req x))));
               ("statusCode", JsNumber code)];
       ip := or_else (req_ip (req x)) (or_else (remoteAddress (req x)) "unknown");
       userAgent := obj_get (headers (req x)) "user-agent" |} in
  let mutation := In (method (req x)) ["POST"; "PUT"; "PATCH"; "DELETE"] /\ code < 400 in
  auditMiddleware actionPrefix x next w = next installed w
  /\ (mutation ->
      exists w',
        Recorded JSON_stringify (entry (clock w (ticks w))) w w'
        /\ json JSON_stringify payload x' w
           = call_send_text JSON_stringify wrapped payload x' w'
        /\ res_send JSON_stringify payload x' w
           = call_send JSON_stringify wrapped payload x' w')
  /\ (~ mutation ->
      json JSON_stringify payload x' w
      = call_send_text JSON_stringify wrapped payload x' w
      /\ res_send JSON_stringify payload x' w
         = call_send JSON_stringify wrapped payload x' w)
  /\ (forall v,
        call_send_text JSON_stringify originalSend payload x' v
        = (v, Returns (emit payload x'))
        /\ call_send JSON_stringify originalSend payload x' v
           = if sent_as_json payload then json JSON_stringify payload x' v
             else (v, Returns (emit payload x')))
  /\ (wrapped = originalSend -> mutation ->
      (exists w',
         Recorded JSON_stringify (entry (clock w (ticks w))) w w'
         /\ json JSON_stringify payload x' w = (w', Returns (emit payload x'))
         /\ (sent_as_json payload = false ->
             res_send JSON_stringify payload x' w = (w', Returns (emit payload x'))))
      /\ (sent_as_json payload = true ->
          exists w1 w2,
            Recorded JSON_stringify (entry (clock w (ticks w))) w w1
            /\ Recorded JSON_stringify (entry (clock w1 (ticks w1))) w1 w2
            /\ res_send JSON_stringify payload x' w = (w2, Returns (emit payload x'))))
  /\ (wrapped = originalSend -> ~ mutation ->
      json JSON_stringify payload x' w = (w, Returns (emit payload x'))
      /\ res_send JSON_stringify payload x' w = (w, Returns (emit payload x'))).
Proof.
  cbn zeta.
  set (x' := status code (set_send x (auditedSend actionPrefix (send (res x))))).
  pose proof (fun v => auditedSend_log_spec actionPrefix x' v) as Hlog.
  cbn zeta in Hlog.
  change (req x') with (req x) in Hlog. change (statusCode (res x')) with code in Hlog.
  assert (forall v, json JSON_stringify payload x' v
                    = (let* _ := auditedSend_log JSON_stringify actionPrefix x' in
                       call_send_text JSON_stringify (send (res x)) payload x') v)
    as Hjson by reflexivity.
  assert (forall v, res_send JSON_stringify payload x' v
                    = (let* _ := auditedSend_log JSON_stringify actionPrefix x' in
                       call_send JSON_stringify (send (res x)) payload x') v)
    as Hsend by reflexivity.
  split; [reflexivity|]. split; [|split; [|split; [|split]]].
  - intros Hmut. destruct (proj1 (Hlog w) Hmut) as (w' & Hrun & Hrec).
    exists w'. split; [exact Hrec|].
    rewrite Hjson, Hsend. unfold bind. rewrite Hrun. split; reflexivity.
  - intros Hno. rewrite Hjson, Hsend. unfold bind.
    rewrite (proj2 (Hlog w) Hno). split; reflexivity.
  - intros v. split; [reflexivity|]. cbn [call_send].
    now destruct (sent_as_json payload).
  - intros Hw Hmut. split.
    + destruct (proj1 (Hlog w) Hmut) as (w' & Hrun & Hrec).
      exists w'. split; [exact Hrec|].
      rewrite Hjson, Hsend. unfold bind. rewrite Hrun, Hw.
      split; [reflexivity|]. intros Hp. cbn [call_send]. now rewrite Hp.
    + intros Hp. destruct (proj1 (Hlog w) Hmut) as (w1 & Hrun1 & Hrec1).
      destruct (proj1 (Hlog w1) Hmut) as (w2 & Hrun2 & Hrec2).
      exists w1, w2. split; [exact Hrec1|]. split; [exact Hrec2|].
      rewrite Hsend. unfold bind at 1. rewrite Hrun1, Hw. cbn [call_send].
      rewrite Hp, Hjson. unfold bind. rewrite Hrun2, Hw. reflexivity.
  - intros Hw Hno. rewrite Hjson, Hsend. unfold bind.
    rewrite (proj2 (Hlog w) Hno), Hw. cbn [call_send_text call_send].
    split; [reflexivity|].
    destruct (sent_as_json payload); [|reflexivity].
    rewrite Hjson. unfold bind. now rewrite (proj2 (Hlog w) Hno), Hw.
Qed.

End InterceptorFacts.

(** ** The login handler and the Auth Gate *)

Section AuthFacts.

Variable JSON_stringify : AuditLogEntry -> Outcome string.
Variable jwt_sign : JsValue -> string -> string -> Outcome string.
Variable jwt_verify : string -> string -> Outcome AdminPayload.

Lemma send_original payload x w :
  send (res x) = originalSend ->
  json JSON_stringify payload x w = (w, Returns (emit payload x)).
Proof. intros H. unfold json, res_send. now rewrite H. Qed.


Lemma generateToken_world username w w' o :
  generateToken jwt_sign username w = (w', o) -> w' = w.
Proof.
  unfold generateToken, bind, getenv, throw, lift.
  destruct (negb (truthy (env w !! "JWT_SECRET"))); now intros [= <- _].
Qed.



End AuthFacts.

(** ** The route wiring *)

Section DispatchFacts.

Variable JSON_stringify : AuditLogEntry -> Outcome string.
Variable jwt_verify : string -> string -> Outcome AdminPayload.

(** A chain without the interceptor runs the handler, if at all, on an
    exchange whose [res.send] is the one it started with. *)
Lemma run_chain_keeps_send chain :
  forallb (fun m => negb (is_interceptor m)) chain = true ->
  forall (h h' : Exchange -> Eff Exchange) x w,
    send (res x) = originalSend ->
    (forall y v, send (res y) = originalSend -> h y v = h' y v) ->
    run_chain JSON_stringify jwt_verify chain h x w
    = run_chain JSON_stringify jwt_verify chain h' x w.
Proof.
  induction chain as [|m chain IH]; intros Hc h h' x w Hx Hh; cbn [run_chain].
  - now apply Hh.
  - cbn [forallb] in Hc. apply andb_true_iff in Hc as [Hm Hc].
    destruct m as [|p]; [|discriminate].
    unfold authMiddleware.
    match goal with
    | |- context [if negb (truthy ?t) then _ else _] => destruct (negb (truthy t))
    end; [reflexivity|].
    unfold bind.
    destruct (verifyToken jwt_verify _ w) as [w' [[p|]|e]]; try reflexivity.
    apply (IH Hc h h'); [exact Hx|exact Hh].
Qed.

(** C10: in the wiring of routes/index.ts and of the routers it mounts,
    no chain of middleware holds the interceptor; so every handler runs,
    if the gate lets the request through, on an exchange whose [res.send]
    is the framework's own, and sending a response through it leaves the
    world, the log directory and the console, as it is: no entry
    [prefix_METHOD] is written, and what the log holds comes from the calls
    of [logAuditAction] in the handlers. *)
Theorem router_never_installs_interceptor :
  (forall chain, In chain (chains router) ->
                 forall actionPrefix, ~ In (AuditInterceptor actionPrefix) chain)
  /\ (forall chain, In chain (chains router) ->
      forall (h h' : Exchange -> Eff Exchange) x w,
        send (res x) = originalSend ->
        (forall y v, send (res y) = originalSend -> h y v = h' y v) ->
        run_chain JSON_stringify jwt_verify chain h x w
        = run_chain JSON_stringify jwt_verify chain h' x w)
  /\ (forall payload x w,
        send (res x) = originalSend ->
        json JSON_stringify payload x w = (w, Returns (emit payload x))).
Proof.
  assert (forallb (forallb (fun m => negb (is_interceptor m))) (chains router) = true)
    as Hall by reflexivity.
  rewrite forallb_forall in Hall.
  split; [|split].
  - intros chain Hin actionPrefix Hmem.
    specialize (Hall chain Hin). rewrite forallb_forall in Hall.
    specialize (Hall _ Hmem). discriminate.
  - intros chain Hin h h' x w Hx Hh.
    apply run_chain_keeps_send; auto.
  - intros payload x w Hx. unfold json, res_send. now rewrite Hx.
Qed.

End DispatchFacts.

(** ** The field diff of the update handlers *)

Lemma obj_get_set {V : Type} (o : list (string * V)) k v k' :
  obj_get (obj_set o k v) k' = if String.eqb k k' then Some v else obj_get o k'.
Proof.
  induction o as [|[k0 v0] o IH]; cbn [obj_set obj_get]; [reflexivity|].
  destruct (String.eqb_spec k0 k) as [->|Hne]; cbn [obj_get].
  - destruct (String.eqb k k'); reflexivity.
  - rewrite IH. destruct (String.eqb_spec k0 k') as [->|Hne'].
    + destruct (String.eqb_spec k k'); [congruence|reflexivity].
    + reflexivity.
Qed.

Lemma obj_get_keys {V : Type} (o : list (string * V)) k :
  existsb (String.eqb k) (map fst o) = bool_decide (is_Some (obj_get o k)).
Proof.
  induction o as [|[k0 v0] o IH]; cbn [map fst existsb obj_get].
  - symmetry. apply bool_decide_eq_false. intros [? [=]].
  - rewrite (String.eqb_sym k k0). destruct (String.eqb k0 k); cbn [orb].
    + symmetry. apply bool_decide_eq_true. eauto.
    + exact IH.
Qed.

(** A column that is not selected reads as [undefined]. *)
Lemma get_select columns r k :
  get (select columns r) k = if includes columns k then get r k else JsUndefined.
Proof.
  unfold get, select, includes. induction columns as [|c columns IH];
    cbn [omap list_omap existsb]; [reflexivity|].
  rewrite (String.eqb_sym k c).
  destruct (obj_get r c) as [v|] eqn:Hc; cbn [fmap option_fmap option_map obj_get].
  - destruct (String.eqb_spec c k) as [->|Hne]; cbn [orb].
    + now rewrite Hc.
    + exact IH.
  - destruct (String.eqb_spec c k) as [->|Hne]; cbn [orb].
    + rewrite IH, Hc. now destruct (existsb (String.eqb k) columns).
    + exact IH.
Qed.

(** What the loop of the character handler leaves under each key. *)
Lemma characterChanges_lookup data current k :
  obj_get (characterChanges data current) k =
    match obj_get data k with
    | Some v =>
        if (strict_eq v JsUndefined || strict_eq (get current k) v)%bool then None
        else Some {| from := get current k; to := v |}
    | None => None
    end.
Proof.
  unfold characterChanges.
  set (step := fun (changes : list (string * Change)) key => _).
  assert (forall keys acc,
             obj_get (fold_left step keys acc) k =
               if (existsb (String.eqb k) keys
                   && negb (strict_eq (get data k) JsUndefined)
                   && negb (strict_eq (get current k) (get data k)))%bool
               then Some {| from := get current k; to := get data k |}
               else obj_get acc k) as Hfold.
  { induction keys as [|key keys IH]; intros acc; cbn [fold_left existsb];
      [reflexivity|].
    rewrite IH. unfold step. cbn beta.
    destruct (String.eqb_spec k key) as [->|Hne]; cbn [orb].
    - destruct (existsb (String.eqb key) keys),
        (negb (strict_eq (get data key) JsUndefined)),
        (negb (strict_eq (get current key) (get data key)));
        cbn [andb]; rewrite ?obj_get_set, ?String.eqb_refl; reflexivity.
    - destruct (negb (strict_eq (get data key) JsUndefined)),
        (negb (strict_eq (get current key) (get data key)));
        cbn [andb]; rewrite ?obj_get_set; try reflexivity.
      destruct (String.eqb_spec key k); [congruence|reflexivity]. }
  rewrite Hfold, obj_get_keys. cbn [obj_get].
  change (get data k) with (default JsUndefined (obj_get data k)).
  destruct (obj_get data k) as [v|]; cbn [from_option id].
  - rewrite bool_decide_eq_true_2 by eauto. cbn [andb].
    destruct (strict_eq v JsUndefined), (strict_eq (get current k) v); reflexivity.
  - rewrite bool_decide_eq_false_2 by (intros [? [=]]). reflexivity.
Qed.

Lemma strict_eq_spec a b :
  primitive a -> primitive b -> strict_eq a b = true <-> a = b.
Proof.
  destruct a, b; cbn; intros; try (split; [discriminate|congruence]);
    try tauto; try reflexivity.
  - rewrite Bool.eqb_true_iff. split; congruence.
  - rewrite Z.eqb_eq. split; congruence.
  - rewrite String.eqb_eq. split; congruence.
Qed.

(** Diff integrity on the columns the handler reads back: a key is in
    [changes] exactly when the field was supplied with a value other than
    the stored one, and it then holds the stored and the supplied value. *)
Lemma characterChanges_fetched_columns data r k c :
  includes character_current_columns k = true ->
  (forall v, obj_get data k = Some v -> primitive v /\ v <> JsUndefined) ->
  primitive (get r k) ->
  obj_get (characterChanges data (select character_current_columns r)) k = Some c
  <-> exists v, obj_get data k = Some v /\ v <> get r k
                /\ c = {| from := get r k; to := v |}.
Proof.
  intros Hk Hdata Hr. rewrite characterChanges_lookup, get_select, Hk.
  destruct (obj_get data k) as [v|].
  - destruct (Hdata v eq_refl) as [Hv Hdef].
    destruct (strict_eq v JsUndefined) eqn:Hu.
    { apply strict_eq_spec in Hu; [contradiction|exact Hv|exact I]. }
    cbn [orb]. destruct (strict_eq (get r k) v) eqn:He.
    + apply strict_eq_spec in He; [|exact Hr|exact Hv]. split; [discriminate|].
      intros (v' & [= <-] & Hne & _). congruence.
    + split.
      * intros [= <-]. exists v. split; [reflexivity|]. split; [|reflexivity].
        intros ->. rewrite (proj2 (strict_eq_spec _ _ Hr Hr) eq_refl) in He.
        discriminate.
      * intros (v' & [= <-] & _ & ->). reflexivity.
  - split; [discriminate|]. intros (v & [=] & _).
Qed.

Lemma itemChanges_lookup data k :
  obj_get (itemChanges data) k =
    (fun v => {| from := JsString "N/A"; to := v |}) <$> obj_get (rev data) k.
Proof.
  unfold itemChanges. rewrite <- fold_left_rev_right.
  induction (rev data) as [|[k0 v0] l IH]; cbn [fold_right obj_get]; [reflexivity|].
  cbn [fst snd]. rewrite obj_get_set, IH.
  destruct (String.eqb k0 k); reflexivity.
Qed.

Section HandlerFacts.

Variable JSON_stringify : AuditLogEntry -> Outcome string.

(** The character handler, for a character that exists: the row is
    updated, the recorder is called with the diff, the updated row is sent. *)
Lemma patchCharacter_records data x w i r :
  obj_get (params (req x)) "id" = Some i ->
  db_error (db w) = None ->
  obj_get (characters (db w)) i = Some r ->
  send (res x) = originalSend ->
  let current := select character_current_columns r in
  let r' := apply_update data r in
  let w1 := set_db w (mkDB (obj_set (characters (db w)) i r') (items (db w)) None) in
  exists w',
    logAuditAction JSON_stringify
      (or_else (username <$> req_admin (req x)) "unknown") "CHARACTER_UPDATE"
      (Some (update_options "character" i current (characterChanges data current) x))
      w1 = (w', Returns tt)
    /\ patchCharacter JSON_stringify (Returns data) x w
       = (w', Returns (emit (JsObject (select character_updated_columns r')) x)).
Proof.
  intros Hid Hdb Hrow Hsend. cbn zeta.
  match goal with
  | |- exists w', logAuditAction _ ?who ?act ?opts ?w1 = _ /\ _ =>
      destruct (logAuditAction_returns JSON_stringify who act opts w1) as (w' & Hrun)
  end.
  exists w'. split; [exact Hrun|].
  unfold patchCharacter, try_catch. rewrite Hid. cbn [from_option id].
  unfold bind at 1, lift. unfold bind at 1, character_findUnique.
  rewrite Hdb, Hrow. cbn [fmap option_fmap option_map].
  unfold bind at 1, character_update. rewrite Hdb, Hrow.
  unfold bind at 1. rewrite Hrun.
  unfold json, res_send. rewrite Hsend. reflexivity.
Qed.

(** The item handler, for an item that exists. *)
Lemma patchItem_records data x w i r :
  parseInt (default "" (obj_get (params (req x)) "id")) = Some i ->
  db_error (db w) = None ->
  find_item i (items (db w)) = Some r ->
  send (res x) = originalSend ->
  let r' := apply_update data r in
  let w1 := set_db w (mkDB (characters (db w)) (store_item i r' (items (db w))) None) in
  exists w',
    logAuditAction JSON_stringify
      (or_else (username <$> req_admin (req x)) "unknown") "ITEM_UPDATE"
      (Some (update_options "item" (pretty i) (select ["name"] r)
                            (itemChanges data) x))
      w1 = (w', Returns tt)
    /\ patchItem JSON_stringify (Returns data) x w
       = (w', Returns (emit (JsObject r') x)).
Proof.
  intros Hid Hdb Hrow Hsend. cbn zeta.
  match goal with
  | |- exists w', logAuditAction _ ?who ?act ?opts ?w1 = _ /\ _ =>
      destruct (logAuditAction_returns JSON_stringify who act opts w1) as (w' & Hrun)
  end.
  exists w'. split; [exact Hrun|].
  unfold patchItem, try_catch. rewrite Hid. cbn [from_option id].
  unfold bind at 1, lift. unfold bind at 1, item_findUnique.
  rewrite Hdb, Hrow. cbn [fmap option_fmap option_map].
  unfold bind at 1, item_update. rewrite Hdb, Hrow.
  unfold bind at 1. rewrite Hrun.
  unfold json, res_send. rewrite Hsend. reflexivity.
Qed.

End HandlerFacts.

(** C7, at a request the handler accepts: the stored experience is 100 and
    the request supplies 100. The field is unchanged, yet the [changes] the
    handler passes to the recorder hold the key, and its [from] is
    [undefined]: [experience] is not among the columns the handler reads
    back. *)
Theorem characterChanges_experience_prior_lost :
  let stored := default [] (obj_get (characters sample_db) "c1") in
  let data := [("experience", JsNumber 100)] in
  let x := sample_exchange "PATCH" "/characters/" "c1" data in
  let w := sample_world true None None in
  let recorded :=
    {| opt_target := Some {| target_type := "character"; target_id := "c1";
                             target_name := Some "Aria" |};
       opt_changes := Some [("experience", {| from := JsUndefined; to := JsNumber 100 |})];
       opt_metadata := None;
       opt_ip := Some "10.0.0.1";
       opt_userAgent := None |} in
  get stored "experience" = JsNumber 100
  /\ characterChanges data (select character_current_columns stored)
     = [("experience", {| from := JsUndefined; to := JsNumber 100 |})]
  /\ patchCharacter sample_stringify (Returns data) x w
     = (fst (logAuditAction sample_stringify "root" "CHARACTER_UPDATE" (Some recorded) w),
        Returns (emit (JsObject (select character_updated_columns stored)) x)).
Proof. cbn zeta. split; [reflexivity|]. split; [reflexivity|]. vm_compute. reflexivity. Qed.

(** C8, at a request the handler accepts: the stored price is 3 and the
    request supplies 5; the [changes] the handler passes to the recorder
    hold ['N/A'] where the prior value 3 belongs, as they do under every key
    of every request. *)
Theorem itemChanges_prior_is_placeholder :
  let stored := default [] (find_item 7 (items sample_db)) in
  let data := [("gold", JsNumber 5)] in
  let x := sample_exchange "PATCH" "/items/" "7" data in
  let w := sample_world true None None in
  let w1 := set_db w (mkDB (characters sample_db)
                           [(7, apply_update data stored)] None) in
  let recorded :=
    {| opt_target := Some {| target_type := "item"; target_id := "7";
                             target_name := Some "Iron Sword" |};
       opt_changes := Some [("gold", {| from := JsString "N/A"; to := JsNumber 5 |})];
       opt_metadata := None;
       opt_ip := Some "10.0.0.1";
       opt_userAgent := None |} in
  get stored "gold" = JsNumber 3
  /\ itemChanges data = [("gold", {| from := JsString "N/A"; to := JsNumber 5 |})]
  /\ patchItem sample_stringify (Returns data) x w
     = (fst (logAuditAction sample_stringify "root" "ITEM_UPDATE" (Some recorded) w1),
        Returns (emit (JsObject (apply_update data stored)) x)).
Proof. cbn zeta. split; [reflexivity|]. split; [reflexivity|]. vm_compute. reflexivity. Qed.

(** Under every key of every request, the item handler records ['N/A'] as
    the prior value. *)
Lemma itemChanges_always_placeholder data k c :
  obj_get (itemChanges data) k = Some c -> from c = JsString "N/A".
Proof.
  rewrite itemChanges_lookup.
  destruct (obj_get (rev data) k); cbn; [|discriminate]. now intros [= <-].
Qed.

(** ** Examples *)

Lemma readAuditLogs_range_sorted_witness :
  exists w' l,
    readAuditLogs sample_parse sample_localeCompare
      (Some "2024-01-02") (Some "2024-01-02")
      (sample_world true (Some three_days) None) = (w', Returns l)
    /\ l ≡ₚ [sample_value "2024-01-02T09:00:00.000Z" "LOGIN_SUCCESS";
             sample_value "2024-01-02T17:30:00.000Z" "ITEM_UPDATE"]
    /\ StronglySorted newer_or_same l.
Proof.
  destruct (readAuditLogs_range_sorted sample_parse sample_localeCompare
              (Some "2024-01-02") (Some "2024-01-02")
              (sample_world true (Some three_days) None)) as (_ & Htotal & Hresult).
  destruct Htotal as (w' & l & Hrun);
    [discriminate | reflexivity | reflexivity | |].
  { vm_compute. repeat econstructor. }
  destruct (Hresult w' l Hrun) as (Hperm & _ & Hsorted).
  exists w', l. split; [exact Hrun|]. split; [exact Hperm|].
  apply Hsorted.
  - intros a b _ _. unfold sample_localeCompare.
    destruct (String.compare a b); reflexivity.
  - apply Forall_forall. intros e He. rewrite Hperm in He.
    apply list_elem_of_In in He. vm_compute in He.
    destruct He as [<-|[<-|[]]]; eexists; split; reflexivity.
Defined.

(** C1 as the specification words it fails twice. Two entries stamped
    with the words [a] and [B] come back with [B] first, the order of the
    collation, where the comparison of code units has [a] above [B]. And a
    file of two lines that hold the empty object makes the comparator, and
    so the read, throw a [TypeError]: no list is returned. *)
Lemma readAuditLogs_range_sorted_counterexample :
  (exists w',
     readAuditLogs sample_parse collating_localeCompare None None
       (sample_world true (Some [("audit-2024-01-02.json", day_words)]) None)
     = (w', Returns [sample_value "B" "LOGIN_SUCCESS"; sample_value "a" "LOGIN_SUCCESS"]))
  /\ ~ StronglySorted newer_or_same
        [sample_value "B" "LOGIN_SUCCESS"; sample_value "a" "LOGIN_SUCCESS"]
  /\ (let run := readAuditLogs sample_parse sample_localeCompare None None
                   (sample_world true (Some [("audit-2024-01-02.json", day_objects)])
                                 None) in
      (exists e, snd run = Throws e /\ err_name e = "TypeError")
      /\ ~ exists w' l, run = (w', Returns l)).
Proof.
  split; [vm_compute; eexists; reflexivity|]. split.
  - intros H. apply StronglySorted_inv in H as [_ H].
    apply Forall_cons in H as [(ta & tb & Ha & Hb & Hle) _].
    injection Ha as <-. injection Hb as <-. discriminate Hle.
  - cbn zeta. split; [eexists; split; reflexivity|].
    intros (w' & l & Hrun). apply (f_equal snd) in Hrun. discriminate Hrun.
Qed.

Lemma logAuditAction_swallows_write_errors_witness :
  exists w',
    logAuditAction sample_stringify "root" "ITEM_UPDATE" None
      (sample_world true (Some []) (Some EACCES)) = (w', Returns tt)
    /\ console w' = [write_failure_line EACCES;
                     audit_console_line "root" "ITEM_UPDATE" None].
Proof.
  destruct (logAuditAction_swallows_write_errors sample_stringify "root" "ITEM_UPDATE"
              None (sample_world true (Some []) (Some EACCES))) as (w' & Hrun & Hconsole).
  exists w'. split; [exact Hrun|]. apply (Hconsole EACCES); reflexivity.
Defined.

Lemma logAuditAction_disabled_persistence_witness :
  exists w',
    logAuditAction sample_stringify "root" "ITEM_UPDATE" None
      (sample_world false None None) = (w', Returns tt)
    /\ fs w' = mkFS None None None None
    /\ console w' = [audit_console_line "root" "ITEM_UPDATE" None].
Proof.
  destruct (logAuditAction_disabled_persistence sample_stringify "root" "ITEM_UPDATE"
              None (sample_world false None None)) as [Hoff _].
  - vm_compute. discriminate.
  - exact Hoff.
Defined.

Lemma auditMiddleware_records_mutations_witness :
  let x := sample_exchange "PATCH" "/items/" "7" [] in
  let x' := status 200 (set_send x (auditedSend "ITEMS" originalSend)) in
  let w := sample_world true (Some []) None in
  let payload := JsObject [("ok", JsBool true)] in
  exists w',
    json sample_stringify payload x' w = (w', Returns (emit payload x'))
    /\ console w' = [mkLine Log [Text "[Audit] root performed ITEMS_PATCH"; Text ""]]
    /\ content_of (default [] (logDir (fs w'))) "audit-2024-01-04.json"
       = entry_text "2024-01-04T12:00:00.000Z" "ITEMS_PATCH" "root" "10.0.0.1"
         ++ newline.
Proof.
  cbn zeta.
  destruct (auditMiddleware_records_mutations sample_stringify "ITEMS"
              (sample_exchange "PATCH" "/items/" "7" []) ret 200
              (JsObject [("ok", JsBool true)])
              (sample_world true (Some []) None)) as (_ & _ & _ & _ & Honce & _).
  destruct Honce as [(w' & Hrec & Hrun & _) _];
    [reflexivity|split; [simpl; tauto|lia]|].
  destruct Hrec as (_ & _ & _ & _ & _ & Hon).
  destruct (Hon eq_refl _ eq_refl (fun _ => eq_refl) eq_refl)
    as (Hconsole & after & Hdir & Hcontent).
  exists w'. split; [exact Hrun|]. split; [exact Hconsole|].
  rewrite Hdir. exact (Hcontent "audit-2024-01-04.json").
Defined.

Lemma readAuditLogs_skips_malformed_line_witness :
  exists w' l,
    readAuditLogs sample_parse sample_localeCompare None None
      (sample_world true (Some [("audit-2024-01-01.json", day1);
                                ("audit-2024-01-02.json", day_corrupt)]) None)
    = (w', Returns l)
    /\ l ≡ₚ [sample_value "2024-01-01T08:00:00.000Z" "LOGIN_SUCCESS";
             sample_value "2024-01-02T09:00:00.000Z" "LOGIN_SUCCESS";
             sample_value "2024-01-02T17:30:00.000Z" "ITEM_UPDATE"]
    /\ console w' = [mkLine Warn [Text "[Audit] Failed to parse log line:";
                                  Text ("{" ++ quote ++ "timestamp")]].
Proof.
  destruct (readAuditLogs_skips_malformed_line sample_parse sample_localeCompare
              None None
              (sample_world true (Some [("audit-2024-01-01.json", day1);
                                        ("audit-2024-01-02.json", day_corrupt)]) None)
              [("audit-2024-01-01.json", day1); ("audit-2024-01-02.json", day_corrupt)]
              ["audit-2024-01-01.json"] "audit-2024-01-02.json" []
              [sample_line "2024-01-02T09:00:00.000Z" "LOGIN_SUCCESS"]
              ("{" ++ quote ++ "timestamp")
              [sample_line "2024-01-02T17:30:00.000Z" "ITEM_UPDATE"]
              [sample_value "2024-01-02T09:00:00.000Z" "LOGIN_SUCCESS";
               sample_value "2024-01-02T17:30:00.000Z" "ITEM_UPDATE"]
              (mkError "SyntaxError" "Unexpected token in JSON"))
    as (w' & l & Hrun & Hperm & _ & Hwarn);
    try reflexivity.
  - exists "2024-01-02". split; [exact (daily_file_name "2024-01-02" eq_refl)|].
    split; intros ? [=].
  - repeat constructor; eexists; reflexivity.
  - vm_compute. repeat econstructor.
  - constructor.
  - exists w', l. split; [exact Hrun|]. split; [exact Hperm|exact Hwarn].
Defined.

(** C5 as the specification words it fails: the lines beside the
    truncated one are JSON texts, but of the empty object, which is no
    entry; the comparator throws a [TypeError] on them, and the read
    returns nothing. *)
Lemma readAuditLogs_skips_malformed_line_counterexample :
  let bad := "{" ++ quote ++ "timestamp" in
  let run := readAuditLogs sample_parse sample_localeCompare None None
               (sample_world true (Some [("audit-2024-01-02.json", day_corrupt_objects)])
                             None) in
  fileLines (content day_corrupt_objects) = ["{}"; bad; "{}"]
  /\ sample_parse "{}" = Returns (JsObject [])
  /\ (exists e, sample_parse bad = Throws e)
  /\ (exists e, snd run = Throws e /\ err_name e = "TypeError")
  /\ ~ exists w' l, run = (w', Returns l).
Proof.
  cbn zeta. split; [reflexivity|]. split; [reflexivity|].
  split; [eexists; reflexivity|]. split; [eexists; split; reflexivity|].
  intros (w' & l & Hrun). apply (f_equal snd) in Hrun. discriminate Hrun.
Qed.

Lemma readAuditLogs_unreadable_file_aborts_witness :
  exists w',
    readAuditLogs sample_parse sample_localeCompare None None
      (sample_world true (Some locked_day) None) = (w', Throws EACCES)
    /\ console w' = [].
Proof.
  destruct (readAuditLogs_unreadable_file_aborts sample_stringify sample_parse
              sample_localeCompare (sample_exchange "GET" "/audit-logs" "" [])
              (sample_world true (Some locked_day) None) locked_day EACCES)
    as [(w' & Hthrows & _ & Hconsole) _]; try reflexivity.
  exists w'. split; [exact Hthrows|exact Hconsole].
Defined.

(** C6 as the specification words it fails: one file of the two cannot be
    read; the read returns no entry of the readable file, prints no warning
    and throws. *)
Lemma readAuditLogs_unreadable_file_counterexample :
  let run := readAuditLogs sample_parse sample_localeCompare None None
               (sample_world true (Some locked_day) None) in
  snd run = Throws EACCES
  /\ console (fst run) = []
  /\ ~ exists w' l, run = (w', Returns l).
Proof.
  cbn zeta. split; [reflexivity|]. split; [reflexivity|].
  intros (w' & l & Hrun). apply (f_equal snd) in Hrun. discriminate Hrun.
Qed.


Lemma router_never_installs_interceptor_witness :
  ~ In (AuditInterceptor "ITEMS") [AuthGate]
  /\ forall w,
       json sample_stringify (JsString "ok") (sample_exchange "PATCH" "/items/" "7" []) w
       = (w, Returns (emit (JsString "ok") (sample_exchange "PATCH" "/items/" "7" []))).
Proof.
  destruct (router_never_installs_interceptor sample_stringify sample_verify)
    as (Hnone & _ & Hsend).
  split.
  - apply Hnone. simpl. tauto.
  - intros w. apply Hsend. reflexivity.
Defined.

(** * Further properties *)

(** ** What the recorder writes *)

Lemma date_has_no_T d rest :
  date_shape d = true -> hd "" (split "T" (d ++ String "T" rest)) = d.
Proof.
  intros Hd.
  assert (forall a, (is_digit a || Ascii.eqb a dash)%bool = true ->
                    Ascii.eqb a "T" = false) as Hchar.
  { intros a Ha. destruct (Ascii.eqb_spec a "T") as [Heq|Hne]; [|reflexivity].
    subst a. vm_compute in Ha. discriminate Ha. }
  unfold date_shape in Hd.
  rewrite <- (string_of_list_ascii_of_string d).
  destruct (list_ascii_of_string d) as [|c1 [|c2 [|c3 [|c4 [|c5 [|c6 [|c7 [|c8 [|c9
    [|c10 [|c11 more]]]]]]]]]]]; try discriminate.
  cbv beta iota in Hd.
  do 9 (apply andb_true_iff in Hd as [Hd ?]).
  cbn [string_of_list_ascii]. rewrite !append_cons, append_nil. cbn [split].
  rewrite (Hchar c1), (Hchar c2), (Hchar c3), (Hchar c4), (Hchar c5), (Hchar c6),
    (Hchar c7), (Hchar c8), (Hchar c9), (Hchar c10)
    by (apply orb_true_iff; first [left; assumption | right; assumption]).
  rewrite Ascii.eqb_refl. reflexivity.
Qed.

Section RecorderProperties.

Variable JSON_stringify : AuditLogEntry -> Outcome string.

(** X1: a call that meets no fault appends one line, the serialised entry and a
    line feed, to the file of the day of the second clock reading: every
    other file keeps its content, the file created when absent; a file that
    held the lines written so far holds them followed by the new one. *)
Theorem logAuditAction_appends_one_line admin action options w json :
  let entry := buildEntry (clock w (ticks w)) admin action options in
  let file := "audit-" ++ hd "" (split "T" (clock w (S (ticks w)))) ++ ".json" in
  let before := default [] (logDir (fs w)) in
  env w !! "AUDIT_LOG_ENABLED" = Some "true" ->
  JSON_stringify entry = Returns json ->
  (logDir (fs w) = None -> mkdir_error (fs w) = None) ->
  append_error (fs w) = None ->
  exists w' after,
    logAuditAction JSON_stringify admin action options w = (w', Returns tt)
    /\ logDir (fs w') = Some after
    /\ (forall name,
          content_of after name =
            if String.eqb file name then content_of before file ++ json ++ newline
            else content_of before name)
    /\ (forall lines,
          content_of before file = written lines ->
          content_of after file = written (lines ++ [json]))
    /\ console w' = (console w ++ [audit_console_line admin action options])%list.
Proof.
  cbn zeta. intros Hon Hjson Hmk Happ.
  rewrite logAuditAction_unfold. cbv zeta.
  set (w0 := mkWorld _ _ _ _ _ _).
  rewrite (appendToLog_enabled JSON_stringify _ w0 Hon).
  destruct (writeEntry_success JSON_stringify _ w0 json Hjson Hmk Happ)
    as (w1 & -> & Hdir & _ & Hconsole).
  subst w0. cbn [fs clock ticks console] in Hdir, Hconsole.
  eexists _, _. split; [reflexivity|]. split; [exact Hdir|].
  split; [|split].
  - intros name. apply content_of_append_file.
  - intros lines Hlines. rewrite content_of_append_file, String.eqb_refl.
    rewrite Hlines. symmetry. apply written_snoc.
  - cbn. now rewrite Hconsole.
Qed.

(** X2: the log is append-only: whatever the arguments, the flag and the
    faults, a call returns and every file of the directory is still there
    afterwards, as readable as before, its old content a prefix of the new. *)
Theorem logAuditAction_append_only admin action options w :
  exists w',
    logAuditAction JSON_stringify admin action options w = (w', Returns tt)
    /\ forall name f,
         obj_get (default [] (logDir (fs w))) name = Some f ->
         exists f',
           obj_get (default [] (logDir (fs w'))) name = Some f'
           /\ read_error f' = read_error f
           /\ exists suffix, content f' = content f ++ suffix.
Proof.
  rewrite logAuditAction_unfold. cbv zeta.
  set (w0 := mkWorld _ _ _ _ _ _). set (entry := buildEntry _ _ _ _).
  assert (forall f : File, exists suffix, content f = content f ++ suffix) as Hsame.
  { intros f. exists "". induction (content f) as [|a c IHc]; [reflexivity|].
    rewrite append_cons. now rewrite <- IHc. }
  assert (forall w1 o, writeEntry JSON_stringify entry w0 = (w1, o) ->
            forall name f,
              obj_get (default [] (logDir (fs w))) name = Some f ->
              exists f',
                obj_get (default [] (logDir (fs w1))) name = Some f'
                /\ read_error f' = read_error f
                /\ exists suffix, content f' = content f ++ suffix) as Hkeep.
  { intros w1 o Hrun name f Hf.
    apply writeEntry_directory in Hrun as [Hd|[[_ Hd]|(n & data & Hd)]];
      cbn [fs w0] in Hd.
    - rewrite Hd. eauto.
    - rewrite Hd in Hf. discriminate Hf.
    - rewrite Hd. cbn [from_option]. now apply obj_get_append_file. }
  destruct (decide (env w !! "AUDIT_LOG_ENABLED" = Some "true")) as [Hon|Hoff].
  - rewrite (appendToLog_enabled JSON_stringify entry w0 Hon).
    destruct (writeEntry JSON_stringify entry w0) as [w1 [[]|e]] eqn:Hrun;
      (eexists; split; [reflexivity|]); cbn; eauto.
  - rewrite (appendToLog_disabled JSON_stringify entry w0 Hoff).
    eexists. split; [reflexivity|]. cbn. eauto.
Qed.

End RecorderProperties.

Lemma append_file_names files name data :
  map fst (append_file files name data) =
    match obj_get files name with
    | Some _ => map fst files
    | None => (map fst files ++ [name])%list
    end.
Proof.
  induction files as [|[k f] files IH]; cbn [append_file obj_get map fst]; [reflexivity|].
  destruct (String.eqb k name); cbn [map fst]; [reflexivity|].
  rewrite IH. now destruct (obj_get files name).
Qed.

Lemma obj_get_names {V : Type} (o : list (string * V)) k :
  obj_get o k = None <-> k ∉ map fst o.
Proof.
  induction o as [|[k' v] o IH]; cbn [obj_get map fst].
  - split; [intros _ H; inversion H|reflexivity].
  - rewrite not_elem_of_cons, <- IH.
    destruct (String.eqb_spec k' k) as [->|Hne]; split; try discriminate;
      try tauto; intros; split; congruence.
Qed.

Lemma obj_get_appended files name data n :
  obj_get (append_file files name data) n =
    if String.eqb name n
    then Some (mkFile (content_of files name ++ data)
                      (f ← obj_get files name; read_error f))
    else obj_get files n.
Proof.
  unfold content_of.
  induction files as [|[k f] files IH]; cbn [append_file obj_get].
  - now destruct (String.eqb name n).
  - destruct (String.eqb_spec k name) as [->|Hk]; cbn [obj_get].
    + now destruct (String.eqb name n).
    + rewrite IH. destruct (String.eqb_spec k n) as [->|Hn]; [|reflexivity].
      destruct (String.eqb_spec name n); [congruence|reflexivity].
Qed.

(** Appending to a file leaves every file as readable as it was, and the
    file it makes can be read. *)
Lemma read_fault_append_file files name data n :
  read_fault (append_file files name data) n =
    if (String.eqb name n && bool_decide (obj_get files name = None))%bool then None
    else read_fault files n.
Proof.
  unfold read_fault. rewrite obj_get_appended.
  destruct (String.eqb_spec name n) as [->|Hne]; [|reflexivity].
  destruct (obj_get files n) as [f|]; cbn [mbind option_bind read_error andb].
  - now rewrite bool_decide_eq_false_2 by discriminate.
  - now rewrite bool_decide_eq_true_2.
Qed.

Lemma first_read_fault_none files names :
  first_read_fault files names = None
  <-> Forall (fun n => read_fault files n = None) names.
Proof.
  unfold first_read_fault. induction names as [|n names IH]; cbn [omap list_omap].
  - split; [constructor|reflexivity].
  - destruct (read_fault files n) eqn:Hn; cbn [head].
    + split; [discriminate|]. intros [H _]%Forall_cons. congruence.
    + rewrite IH. split; [now constructor|]. now intros [_ H]%Forall_cons.
Qed.

Section WriteThenRead.

Variable JSON_stringify : AuditLogEntry -> Outcome string.
Variable JSON_parse : string -> Outcome JsValue.
Variable localeCompare : string -> string -> Z.

(** What the files give a read after one line was appended to the file
    [file], which held whole lines. *)
Lemma collected_appended files file json v lines names :
  content_of files file = written lines ->
  Forall (fun l => text_line l = true) lines ->
  text_line json = true ->
  JSON_parse json = Returns v ->
  NoDup names ->
  collected JSON_parse (append_file files file (json ++ newline)) names
  ≡ₚ (collected JSON_parse files names ++ (if bool_decide (file ∈ names) then [v] else []))%list.
Proof.
  intros Hcontent Hlines Htext Hparse. unfold collected.
  induction names as [|name names IH]; intros Hnd; [reflexivity|].
  apply NoDup_cons in Hnd as [Hnew Hnd]. specialize (IH Hnd).
  cbn [flat_map]. rewrite content_of_append_file.
  destruct (String.eqb_spec file name) as [<-|Hne].
  - rewrite bool_decide_eq_true_2 by now left.
    rewrite bool_decide_eq_false_2 in IH by exact Hnew. rewrite app_nil_r in IH.
    rewrite IH, Hcontent, <- written_snoc.
    rewrite !fileLines_written
      by (try apply Forall_app; try split; try assumption; repeat constructor;
          assumption).
    unfold entries_of. rewrite omap_app. cbn [omap list_omap].
    unfold parsed_line at 2. rewrite Hparse.
    rewrite <- !app_assoc. apply Permutation_app_head, Permutation_app_comm.
  - rewrite IH, <- app_assoc. apply Permutation_app_head.
    destruct (decide (file ∈ names)) as [Hin|Hout].
    + rewrite !bool_decide_eq_true_2; [reflexivity|now right|exact Hin].
    + rewrite !bool_decide_eq_false_2; [reflexivity| |exact Hout].
      intros [?|?]%elem_of_cons; [congruence|contradiction].
Qed.

(** X3: what the recorder writes, the reader finds. The entry goes to the
    file of the day [d] of the clock, in a directory of distinct names
    whose files in range can be read and hold entries; that file holds
    whole lines of text, as the recorder writes them, or is not there yet.
    The text of the entry is one line, and [JSON.parse] makes of it a value
    with the entry's time stamp. A read over a range that holds [d] then
    returns what it would have returned before, and that value. *)
Theorem logged_entry_is_read_back admin action options w json v d rest lines
  startDate endDate :
  let entry := buildEntry (clock w (ticks w)) admin action options in
  let file := "audit-" ++ d ++ ".json" in
  let files := default [] (logDir (fs w)) in
  let names := List.filter (selected startDate endDate) (map fst files) in
  env w !! "AUDIT_LOG_ENABLED" = Some "true" ->
  JSON_stringify entry = Returns json ->
  JSON_parse json = Returns v ->
  stamp v = Some (timestamp entry) ->
  text_line json = true ->
  clock w (S (ticks w)) = d ++ String "T" rest ->
  date_shape d = true ->
  NoDup (map fst files) ->
  content_of files file = written lines ->
  Forall (fun l => text_line l = true) lines ->
  first_read_fault files names = None ->
  Forall Entry (collected JSON_parse files names) ->
  (logDir (fs w) = None -> mkdir_error (fs w) = None) ->
  append_error (fs w) = None ->
  readdir_error (fs w) = None ->
  InRange startDate endDate d ->
  exists w1 w2 l,
    logAuditAction JSON_stringify admin action options w = (w1, Returns tt)
    /\ readAuditLogs JSON_parse localeCompare startDate endDate w1 = (w2, Returns l)
    /\ l ≡ₚ (collected JSON_parse files names ++ [v])%list.
Proof.
  cbn zeta.
  intros Hon Hjson Hparse Hstamp Htext Hclock Hdate Hnd Hcontent Hlines Hff Hentries
         Hmk Happ Hrd Hrange.
  set (file := "audit-" ++ d ++ ".json") in *.
  set (files := default [] (logDir (fs w))) in *.
  rewrite logAuditAction_unfold. cbv zeta.
  set (w0 := mkWorld _ _ _ _ _ _).
  rewrite (appendToLog_enabled JSON_stringify _ w0 Hon).
  destruct (writeEntry_success JSON_stringify _ w0 json Hjson Hmk Happ)
    as (w1 & -> & Hafter & Hrd1 & _).
  subst w0. cbn [fs clock ticks] in Hafter, Hrd1.
  rewrite Hclock, (date_has_no_T d rest Hdate) in Hafter.
  fold file in Hafter. fold files in Hafter.
  set (files1 := append_file files file (json ++ newline)) in *.
  set (w2 := set_console w1 _).
  assert (selected startDate endDate file = true) as Hsel.
  { apply selected_iff. exists d. split; [now apply daily_file_name|exact Hrange]. }
  set (names := List.filter (selected startDate endDate) (map fst files)) in *.
  set (names1 := List.filter (selected startDate endDate) (map fst files1)).
  assert (NoDup names1 /\ file ∈ names1
          /\ collected JSON_parse files names1 = collected JSON_parse files names
          /\ Forall (fun n => read_fault files1 n = None) names1)
    as (Hnd1 & Hin1 & Hsame & Hff1).
  { apply first_read_fault_none in Hff.
    subst names1 files1. rewrite append_file_names.
    destruct (obj_get files file) as [f|] eqn:Hfile.
    - fold names.
      assert (file ∈ map fst files) as Hin.
      { destruct (decide (file ∈ map fst files)) as [|Hout]; [assumption|].
        apply obj_get_names in Hout. congruence. }
      split; [apply NoDup_ListNoDup, List.NoDup_filter, NoDup_ListNoDup, Hnd|].
      split; [apply list_elem_of_In, filter_In; split;
              [now apply list_elem_of_In|exact Hsel]|].
      split; [reflexivity|].
      eapply Forall_impl; [exact Hff|]. intros n Hn. cbn beta.
      rewrite read_fault_append_file, Hfile.
      rewrite bool_decide_eq_false_2 by discriminate. now rewrite andb_false_r.
    - apply obj_get_names in Hfile as Hout.
      rewrite List.filter_app. cbn [List.filter]. rewrite Hsel. fold names.
      split.
      { apply NoDup_ListNoDup, List.NoDup_filter with (f := selected startDate endDate),
          NoDup_ListNoDup in Hnd as Hnames.
        apply NoDup_app. split; [exact Hnames|]. split; [|apply NoDup_singleton].
        intros n Hn ->%list_elem_of_singleton. apply Hout.
        apply list_elem_of_In, filter_In in Hn as [Hn _]. now apply list_elem_of_In. }
      split; [apply elem_of_app; right; now left|].
      split.
      { rewrite collected_app. unfold collected at 2. cbn [flat_map].
        unfold content_of. rewrite Hfile. now rewrite !app_nil_r. }
      apply Forall_app. split.
      + eapply Forall_impl; [exact Hff|]. intros n Hn. cbn beta.
        rewrite read_fault_append_file. now destruct (_ && _)%bool.
      + constructor; [|constructor].
        rewrite read_fault_append_file, String.eqb_refl.
        now rewrite bool_decide_eq_true_2. }
  pose proof (collected_appended files file json v lines names1
                Hcontent Hlines Htext Hparse Hnd1) as Hcol.
  rewrite bool_decide_eq_true_2, Hsame in Hcol by exact Hin1. fold files1 in Hcol.
  destruct (readAuditLogs_total JSON_parse localeCompare startDate endDate w2)
    as [w3 Hread]; cbn zeta.
  - change (logDir (fs w2)) with (logDir (fs w1)). rewrite Hafter. discriminate.
  - exact (eq_trans Hrd1 Hrd).
  - change (logDir (fs w2)) with (logDir (fs w1)). rewrite Hafter.
    cbn [from_option id]. now apply first_read_fault_none.
  - change (logDir (fs w2)) with (logDir (fs w1)). rewrite Hafter.
    cbn [from_option id]. fold names1. rewrite Hcol.
    apply Forall_app. split; [exact Hentries|].
    constructor; [|constructor]. now exists (clock w (ticks w)).
  - change (logDir (fs w2)) with (logDir (fs w1)) in Hread. rewrite Hafter in Hread.
    cbn [from_option id] in Hread. fold names1 in Hread.
    eexists _, _, _. split; [reflexivity|]. split; [exact Hread|].
    now rewrite sort_perm.
Qed.

End WriteThenRead.

(** ** What the reader selects *)

(** X4: the date the reader takes from a file name is the date of the first
    place in the name where [audit-YYYY-MM-DD.json] stands, with digits for
    the letters. The place may be anywhere in the name: whatever stands
    before and after such a text, a date is found. A name without such a
    place gives no date. *)
Theorem match_date_leftmost file :
  (forall d, match_date file = Some d <-> EmbeddedDate file d)
  /\ (match_date file = None <-> forall d n, ~ Embeds file d n)
  /\ (forall d before after,
        IsDate d -> file = before ++ "audit-" ++ d ++ ".json" ++ after ->
        is_Some (match_date file)
        /\ ((forall m d', (m < String.length before)%nat -> ~ Embeds file d' m) ->
            match_date file = Some d)).
Proof.
  split; [intros d; apply match_date_iff|]. split; [apply match_date_none|].
  intros d before after Hd Hfile.
  assert (Embeds file d (String.length before)) as Hemb
    by (split; [exact Hd|exists before, after; auto]).
  split.
  - destruct (match_date file) as [d'|] eqn:Hm; [eauto|].
    exfalso. exact (proj1 (match_date_none file) Hm d (String.length before) Hemb).
  - intros Hmin. apply match_date_iff. exists (String.length before). auto.
Qed.

Lemma sort_in_order {A : Type} (compare : A -> A -> Z) (l : list A) :
  StronglySorted (fun x y => compare x y <= 0) l -> sort compare l = l.
Proof.
  induction 1 as [|x l Hs IH Hx]; [reflexivity|].
  unfold sort in *. cbn [foldr]. rewrite IH.
  destruct Hx as [|y l' Hxy _]; [reflexivity|].
  cbn [insert_sorted]. apply Z.leb_le in Hxy. now rewrite Hxy.
Qed.

(** A sort finds in order what the comparator has in order. *)
Lemma sort_by_in_order {A : Type} (compare : A -> A -> Outcome Z) (l : list A) :
  StronglySorted (fun x y => exists c, compare x y = Returns c /\ c <= 0) l ->
  sort_by compare l = Returns l.
Proof.
  induction 1 as [|x l Hs IH Hx]; [reflexivity|].
  cbn [sort_by]. rewrite IH.
  destruct Hx as [|y l' (c & Hc & Hle) _]; [reflexivity|].
  cbn [insert_by]. rewrite Hc. apply Z.leb_le in Hle. now rewrite Hle.
Qed.

Lemma StronglySorted_weaken {A : Type} (R R' : A -> A -> Prop) (l : list A) :
  (forall x y, R x y -> R' x y) -> StronglySorted R l -> StronglySorted R' l.
Proof.
  intros HR. induction 1 as [|x l _ IH Hx]; constructor; [exact IH|].
  eapply Forall_impl; [exact Hx|]. intros y. apply HR.
Qed.

Lemma filter_none {A : Type} (f : A -> bool) (l : list A) :
  (forall x, f x = false) -> List.filter f l = [].
Proof.
  intros Hf. induction l as [|x l IH]; [reflexivity|].
  cbn [List.filter]. now rewrite Hf.
Qed.

Section ReaderProperties.

Variable JSON_parse : string -> Outcome JsValue.
Variable localeCompare : string -> string -> Z.

(** X5: a read where there is no log directory makes the directory and returns
    the empty list; when the directory cannot be made, the read throws the
    error of [mkdirSync]. *)
Theorem readAuditLogs_makes_directory startDate endDate w :
  logDir (fs w) = None ->
  (mkdir_error (fs w) = None -> readdir_error (fs w) = None ->
   exists w',
     readAuditLogs JSON_parse localeCompare startDate endDate w = (w', Returns [])
     /\ logDir (fs w') = Some [] /\ console w' = console w)
  /\ (forall e, mkdir_error (fs w) = Some e ->
                readAuditLogs JSON_parse localeCompare startDate endDate w
                = (w, Throws e)).
Proof.
  intros Hdir. rewrite (readAuditLogs_absent _ _ _ _ _ Hdir). split.
  - intros -> ->. eexists. repeat split.
  - now intros e ->.
Qed.

(** X6: a range whose end is below its start selects no file: the read opens
    none, so it returns the empty list and prints nothing even where every
    file of the directory is unreadable. *)
Theorem readAuditLogs_inverted_range a b files w :
  logDir (fs w) = Some files ->
  readdir_error (fs w) = None ->
  b <> "" ->
  String.ltb b a = true ->
  exists w',
    readAuditLogs JSON_parse localeCompare (Some a) (Some b) w = (w', Returns [])
    /\ console w' = console w /\ fs w' = fs w.
Proof.
  intros Hdir Hrd Hb Hlt.
  assert (a <> "") as Ha.
  { intros ->. unfold String.ltb in Hlt. destruct b; discriminate. }
  assert (forall name, selected (Some a) (Some b) name = false) as Hnone.
  { intros name. destruct (selected (Some a) (Some b) name) eqn:Hsel; [|reflexivity].
    apply selected_iff in Hsel as (d & _ & Hlo & Hhi).
    specialize (Hlo a eq_refl Ha). specialize (Hhi b eq_refl Hb).
    pose proof (leb_trans _ _ _ Hlo Hhi) as Hab.
    apply ltb_false_leb in Hab. congruence. }
  rewrite (readAuditLogs_spec JSON_parse localeCompare (Some a) (Some b) files w
             Hdir Hrd).
  cbn zeta. rewrite (filter_none _ _ Hnone).
  cbn. eexists. split; [reflexivity|]. cbn. now rewrite app_nil_r.
Qed.

(** X7: the sort keeps the order of reading where that order is already one
    the comparator accepts: entries that share one time stamp come back
    file after file in the order of the directory listing, and line after
    line. *)
Theorem readAuditLogs_keeps_read_order startDate endDate w w' l :
  let files := default [] (logDir (fs w)) in
  let read := collected JSON_parse files
                (List.filter (selected startDate endDate) (map fst files)) in
  readAuditLogs JSON_parse localeCompare startDate endDate w = (w', Returns l) ->
  StronglySorted
    (fun x y => exists tx ty,
         stamp x = Some tx /\ stamp y = Some ty /\ localeCompare ty tx <= 0)
    read ->
  l = read.
Proof.
  cbn zeta. intros Hrun Hsorted.
  apply readAuditLogs_returns in Hrun as (Hsort & _ & _).
  rewrite sort_by_in_order in Hsort; [now injection Hsort|].
  eapply StronglySorted_weaken; [|exact Hsorted].
  intros x y (tx & ty & Hx & Hy & Hle). cbn beta.
  rewrite (newest_first_entries localeCompare x y) by (eexists; eassumption).
  unfold by_stamp. rewrite Hx, Hy. eauto.
Qed.

End ReaderProperties.

(** ** The credentials and the gate *)

Lemma bearer_token t :
  substring 7 (String.length ("Bearer " ++ t) - 7) ("Bearer " ++ t) = t.
Proof.
  rewrite length_append. cbn [String.length Nat.add Nat.sub].
  rewrite Nat.sub_0_r.
  rewrite (substring_skip "Bearer " t 0 (String.length t)
            : substring 7 (String.length t) ("Bearer " ++ t) = _).
  apply substring_whole.
Qed.

Lemma truthy_nonempty s : s <> "" -> truthy (Some s) = true.
Proof. intros H. cbn. now destruct (String.eqb_spec s ""). Qed.

Section GateProperties.

Variable JSON_stringify : AuditLogEntry -> Outcome string.
Variable jwt_sign : JsValue -> string -> string -> Outcome string.
Variable jwt_verify : string -> string -> Outcome AdminPayload.

(** The token the gate takes from a request that presents one. *)
Lemma authMiddleware_token x next w token :
  Presents x token -> token <> "" ->
  authMiddleware JSON_stringify jwt_verify x next w =
    (let* payload := verifyToken jwt_verify token in
     match payload with
     | None => json JSON_stringify (error_body "Invalid or expired token") (status 401 x)
     | Some p => next (set_admin x p)
     end) w.
Proof.
  intros Hp Ht. unfold authMiddleware, Presents in *. cbn zeta in Hp.
  destruct Hp as [Hh|[Hh Hc]].
  - rewrite Hh. cbn [from_option id fmap option_fmap option_map].
    assert (startsWith ("Bearer " ++ token) "Bearer " = true) as ->
        by apply prefix_append.
    rewrite (truthy_nonempty ("Bearer " ++ token)) by discriminate.
    cbn [andb]. rewrite bearer_token, (truthy_nonempty token Ht). reflexivity.
  - assert ((truthy (obj_get (headers (req x)) "authorization")
             && startsWith (default "" (obj_get (headers (req x)) "authorization"))
                           "Bearer ")%bool = false) as ->.
    { destruct Hh as [-> | ->]; [reflexivity|apply andb_false_r]. }
    rewrite Hc, (truthy_nonempty token Ht). cbv iota.
    rewrite (truthy_nonempty token Ht). reflexivity.
Qed.

Lemma authMiddleware_accepts x next w token secret p :
  Presents x token -> token <> "" ->
  env w !! "JWT_SECRET" = Some secret -> secret <> "" ->
  jwt_verify token secret = Returns p ->
  authMiddleware JSON_stringify jwt_verify x next w = next (set_admin x p) w.
Proof.
  intros Hp Ht Hs Hsne Hv.
  rewrite (authMiddleware_token x next w token Hp Ht).
  unfold bind at 1, verifyToken, bind, getenv, try_catch, lift, ret.
  rewrite Hs, (truthy_nonempty secret Hsne). cbn [negb from_option id].
  now rewrite Hv.
Qed.

(** X8: with both settings in place, validation accepts exactly the configured
    pair, each compared as a whole string, and leaves the world alone; with
    one of them absent or empty it rejects every pair and prints the
    misconfiguration. *)
Theorem validateAdminCredentials_gate username password w :
  (forall u p,
      env w !! "ADMIN_USERNAME" = Some u -> env w !! "ADMIN_PASSWORD" = Some p ->
      u <> "" -> p <> "" ->
      exists b,
        validateAdminCredentials username password w = (w, Returns b)
        /\ (b = true <-> username = JsString u /\ password = JsString p))
  /\ (truthy (env w !! "ADMIN_USERNAME") = false
      \/ truthy (env w !! "ADMIN_PASSWORD") = false ->
      validateAdminCredentials username password w
      = (set_console w (console w ++ [config_error_line]), Returns false)).
Proof.
  split.
  - intros u p Hu Hp Hune Hpne.
    unfold validateAdminCredentials, bind, getenv, ret. rewrite Hu, Hp.
    rewrite !truthy_nonempty by assumption. cbn [negb orb from_option id].
    destruct (strict_eq username (JsString u)) eqn:Hsu; cbn [negb].
    + eexists. split; [reflexivity|].
      apply strict_eq_spec in Hsu; [|destruct username; try exact I; discriminate|exact I].
      split.
      * intros Hsp. split; [exact Hsu|].
        apply strict_eq_spec in Hsp; [exact Hsp| |exact I].
        destruct password; try exact I; discriminate.
      * intros [_ ->]. cbn. apply String.eqb_refl.
    + exists false. split; [reflexivity|]. split; [discriminate|].
      intros [-> _]. cbn in Hsu. rewrite String.eqb_refl in Hsu. discriminate.
  - intros Hmissing.
    unfold validateAdminCredentials, bind, getenv, ret, console_emit.
    assert ((negb (truthy (env w !! "ADMIN_USERNAME"))
             || negb (truthy (env w !! "ADMIN_PASSWORD")))%bool = true) as ->.
    { destruct Hmissing as [-> | ->]; [reflexivity|apply orb_true_r]. }
    reflexivity.
Qed.

(** X9: without a token the gate answers 401 ['Authentication required'] and
    runs nothing further; so it does for an empty bearer token, whatever
    the cookie holds. *)
Theorem authMiddleware_requires_token x next w :
  let header := obj_get (headers (req x)) "authorization" in
  let adminToken := obj_get (cookies (req x)) "adminToken" in
  send (res x) = originalSend ->
  ((truthy header = false \/ startsWith (default "" header) "Bearer " = false)
   /\ truthy adminToken = false)
  \/ header = Some "Bearer " ->
  authMiddleware JSON_stringify jwt_verify x next w
  = (w, Returns (emit (error_body "Authentication required") (status 401 x))).
Proof.
  cbn zeta. intros Hsend Hcase. unfold authMiddleware.
  destruct Hcase as [[Hh Hc]|Hh].
  - assert ((truthy (obj_get (headers (req x)) "authorization")
             && startsWith (default "" (obj_get (headers (req x)) "authorization"))
                           "Bearer ")%bool = false) as ->.
    { destruct Hh as [-> | ->]; [reflexivity|apply andb_false_r]. }
    rewrite Hc. cbn [truthy negb].
    apply (send_original JSON_stringify _ (status 401 x) w Hsend).
  - rewrite Hh.
    etransitivity; [|apply (send_original JSON_stringify _ (status 401 x) w Hsend)].
    reflexivity.
Qed.

(** X10: a presented token is verified against [JWT_SECRET]: the payload of a
    good token becomes [req.admin] and the chain goes on; a token that
    [jwt.verify] refuses gets 401 ['Invalid or expired token'] and nothing
    further runs. A bearer header wins over the cookie. *)
Theorem authMiddleware_verifies_token x next w token secret :
  send (res x) = originalSend ->
  Presents x token -> token <> "" ->
  env w !! "JWT_SECRET" = Some secret -> secret <> "" ->
  (forall p, jwt_verify token secret = Returns p ->
             authMiddleware JSON_stringify jwt_verify x next w
             = next (set_admin x p) w)
  /\ (forall e, jwt_verify token secret = Throws e ->
                authMiddleware JSON_stringify jwt_verify x next w
                = (w, Returns (emit (error_body "Invalid or expired token")
                                    (status 401 x)))).
Proof.
  intros Hsend Hp Ht Hs Hsne.
  rewrite (authMiddleware_token x next w token Hp Ht).
  unfold bind at 1, verifyToken, bind, getenv, try_catch, lift, ret.
  rewrite Hs, (truthy_nonempty secret Hsne). cbn [negb from_option id].
  split.
  - intros p ->. reflexivity.
  - intros e ->. apply (send_original JSON_stringify _ (status 401 x) w Hsend).
Qed.

(** X11: with a token presented and [JWT_SECRET] absent or empty the gate
    throws: it sends no response and runs nothing further. *)
Theorem authMiddleware_without_secret x next w token :
  Presents x token -> token <> "" ->
  truthy (env w !! "JWT_SECRET") = false ->
  authMiddleware JSON_stringify jwt_verify x next w = (w, Throws secret_missing).
Proof.
  intros Hp Ht Hs.
  rewrite (authMiddleware_token x next w token Hp Ht).
  unfold bind at 1, verifyToken, bind, getenv, throw. now rewrite Hs.
Qed.

End GateProperties.

Section LoginProperties.

Variable JSON_stringify : AuditLogEntry -> Outcome string.
Variable jwt_sign : JsValue -> string -> string -> Outcome string.
Variable jwt_verify : string -> string -> Outcome AdminPayload.

(** X12: a login that lacks the user name or the password is answered 400 before
    anything else happens: no validation, no audit entry, no console line. *)
Theorem login_requires_both_credentials x w :
  send (res x) = originalSend ->
  js_truthy (get (body (req x)) "username") = false
  \/ js_truthy (get (body (req x)) "password") = false ->
  login JSON_stringify jwt_sign x w
  = (w, Returns (emit (error_body "Username and password are required")
                      (status 400 x))).
Proof.
  intros Hsend Hmissing. unfold login, try_catch.
  assert ((negb (js_truthy (get (body (req x)) "username"))
           || negb (js_truthy (get (body (req x)) "password")))%bool = true) as ->.
  { destruct Hmissing as [-> | ->]; [reflexivity|apply orb_true_r]. }
  now rewrite (send_original JSON_stringify _ (status 400 x) w Hsend).
Qed.

(** X13: right credentials on a server without [JWT_SECRET]: no token can be
    issued; the handler prints the error and answers 500; it sets no cookie
    and records neither success nor failure. *)
Theorem login_without_secret x w :
  send (res x) = originalSend ->
  js_truthy (get (body (req x)) "username") = true ->
  js_truthy (get (body (req x)) "password") = true ->
  validateAdminCredentials (get (body (req x)) "username")
                           (get (body (req x)) "password") w = (w, Returns true) ->
  truthy (env w !! "JWT_SECRET") = false ->
  exists w' x',
    login JSON_stringify jwt_sign x w = (w', Returns x')
    /\ emitted (res x') =
         (emitted (res x) ++ [(500, error_body "Internal server error")])%list
    /\ set_cookies (res x') = set_cookies (res x)
    /\ fs w' = fs w
    /\ console w' =
         (console w ++ [mkLine Error [Text "[Auth] Login error:"; Thrown secret_missing]])%list.
Proof.
  intros Hsend Hu Hp Hvalid Hsecret. unfold login, try_catch.
  rewrite Hu, Hp. cbn [negb orb]. unfold bind at 1. rewrite Hvalid. cbn [negb].
  unfold bind at 1, generateToken. unfold bind at 1, getenv. rewrite Hsecret.
  cbn [negb]. unfold throw, bind, console_emit.
  rewrite (send_original JSON_stringify _ (status 500 x) _ Hsend).
  eexists _, _. split; [reflexivity|]. cbn. auto.
Qed.

(** X14: the token a login returns opens the gate: presented on a later
    request, it makes [GET /auth/me] answer with the user name that logged
    in. The library verifies what it signed, under the secret both sides
    read from [JWT_SECRET]. *)
Theorem login_token_opens_gate x y w u token secret p :
  send (res x) = originalSend ->
  get (body (req x)) "username" = JsString u ->
  js_truthy (get (body (req x)) "password") = true ->
  u <> "" ->
  validateAdminCredentials (JsString u) (get (body (req x)) "password") w
  = (w, Returns true) ->
  env w !! "JWT_SECRET" = Some secret -> secret <> "" ->
  jwt_sign (JsString u) secret (or_else (env w !! "JWT_EXPIRES_IN") "24h")
  = Returns token ->
  token <> "" ->
  jwt_verify token secret = Returns p -> username p = u ->
  send (res y) = originalSend ->
  Presents y token ->
  exists w' x',
    login JSON_stringify jwt_sign x w = (w', Returns x')
    /\ (exists user, snd <$> last (emitted (res x'))
                     = Some (JsObject [("success", JsBool true);
                                       ("token", JsString token);
                                       ("user", user)]))
    /\ run_chain JSON_stringify jwt_verify [AuthGate] (me JSON_stringify) y w'
       = (w', Returns (emit (JsObject [("user",
                                        JsObject [("username", JsString u);
                                                  ("role", JsString "admin")])])
                            (set_admin y p))).
Proof.
  intros Hsend Hu Hp Hune Hvalid Hsecret Hsne Hsign Htoken Hverify Hname Hsendy Hpres.
  destruct (logAuditAction_returns JSON_stringify u "LOGIN_SUCCESS"
              (Some (mkOptions None None None
                               (Some (or_else (req_ip (req x)) "unknown")) None)) w)
    as (w' & Hrun).
  destruct (logAuditAction_frame _ _ _ _ _ _ _ Hrun) as [Henv _].
  exists w'. eexists. split; [|split].
  - unfold login, try_catch. rewrite Hu, Hp. cbn [js_truthy].
    destruct (String.eqb_spec u "") as [|_]; [contradiction|]. cbn [negb orb].
    unfold bind at 1. rewrite Hvalid. cbn [negb].
    unfold bind at 1, generateToken. unfold bind at 1, getenv.
    rewrite Hsecret, (truthy_nonempty secret Hsne). cbn [negb].
    unfold bind at 1, lift. cbn [from_option id]. rewrite Hsign.
    unfold bind at 1. unfold bind at 1.
    cbn [string_of]. unfold login_success_options. cbn [cookie req].
    rewrite Hrun. rewrite send_original by (cbn; exact Hsend). reflexivity.
  - eexists. cbn. rewrite last_snoc. reflexivity.
  - change (run_chain JSON_stringify jwt_verify [AuthGate] (me JSON_stringify) y w')
      with (authMiddleware JSON_stringify jwt_verify y (me JSON_stringify) w').
    rewrite (authMiddleware_accepts JSON_stringify jwt_verify y
               (me JSON_stringify) w' token secret p Hpres Htoken
               (eq_trans (f_equal (fun e => e !! "JWT_SECRET") Henv) Hsecret) Hsne
               Hverify).
    unfold me. cbn [set_admin req req_admin].
    rewrite Hname. apply send_original. cbn. exact Hsendy.
Qed.

End LoginProperties.

(** ** The handlers and the data they change *)

Lemma obj_get_absent {V : Type} (o : list (string * V)) k :
  k ∉ map fst o -> obj_get o k = None.
Proof.
  induction o as [|[k' v] o IH]; [reflexivity|].
  cbn [map fst obj_get]. intros [Hne Hrest]%not_elem_of_cons.
  destruct (String.eqb_spec k' k) as [->|_]; [contradiction|]. now apply IH.
Qed.

Lemma apply_update_cons kv data r :
  apply_update (kv :: data) r
  = apply_update data (if strict_eq (snd kv) JsUndefined then r
                       else obj_set r (fst kv) (snd kv)).
Proof. reflexivity. Qed.

(** A column the data does not name keeps its value. *)
Lemma apply_update_other data r k :
  obj_get data k = None -> obj_get (apply_update data r) k = obj_get r k.
Proof.
  revert r. induction data as [|[k' v] data IH]; intros r H; [reflexivity|].
  cbn [obj_get] in H. destruct (String.eqb k' k) eqn:E; [discriminate|].
  rewrite apply_update_cons, IH by exact H. cbn [fst snd].
  destruct (strict_eq v JsUndefined); [reflexivity|].
  now rewrite obj_get_set, E.
Qed.

(** A column the data gives a value holds that value afterwards. *)
Lemma apply_update_written data r k v :
  NoDup (map fst data) -> obj_get data k = Some v ->
  strict_eq v JsUndefined = false ->
  obj_get (apply_update data r) k = Some v.
Proof.
  revert r. induction data as [|[k' v'] data IH]; intros r Hnd H Hv; [discriminate|].
  cbn [map fst] in Hnd. apply NoDup_cons in Hnd as [Hnew Hnd].
  cbn [obj_get] in H. rewrite apply_update_cons. cbn [fst snd].
  destruct (String.eqb_spec k' k) as [->|Hne].
  - injection H as ->. rewrite Hv.
    rewrite apply_update_other by now apply obj_get_absent.
    now rewrite obj_get_set, String.eqb_refl.
  - now apply IH.
Qed.

Lemma find_item_absent i rows :
  i ∉ map fst rows -> find_item i rows = None.
Proof.
  unfold find_item. induction rows as [|[j r] rows IH]; [reflexivity|].
  cbn [map fst List.find]. intros [Hne Hrest]%not_elem_of_cons.
  destruct (Z.eqb_spec j i) as [->|_]; [contradiction|]. now apply IH.
Qed.

(** Removing a row leaves the other ids as they were, and, ids being
    unique, leaves no row under the removed id. *)
Lemma find_item_remove i j rows :
  NoDup (map fst rows) ->
  find_item j (remove_item i rows)
  = if j =? i then None else find_item j rows.
Proof.
  induction rows as [|[k r] rows IH]; intros Hnd.
  - now destruct (j =? i).
  - cbn [map fst] in Hnd. apply NoDup_cons in Hnd as [Hnew Hnd].
    cbn [remove_item]. destruct (Z.eqb_spec k i) as [->|Hki].
    + destruct (Z.eqb_spec j i) as [->|Hji].
      * now apply find_item_absent.
      * unfold find_item. cbn [List.find fst].
        destruct (Z.eqb_spec i j) as [->|_]; [contradiction|]. reflexivity.
    + unfold find_item in *. cbn [List.find fst].
      destruct (Z.eqb_spec k j) as [->|Hkj].
      * destruct (Z.eqb_spec j i) as [->|_]; [contradiction|]. reflexivity.
      * now apply IH.
Qed.

Lemma strict_eq_string v s : strict_eq v (JsString s) = true <-> v = JsString s.
Proof.
  destruct v; cbn; try (split; [discriminate|discriminate]).
  split; [now intros ->%String.eqb_eq|]. intros [= ->]. apply String.eqb_refl.
Qed.

Lemma obj_get_select columns r k :
  obj_get (select columns r) k = if includes columns k then obj_get r k else None.
Proof.
  unfold select, includes. induction columns as [|c columns IH];
    cbn [omap list_omap existsb]; [reflexivity|].
  rewrite (String.eqb_sym k c).
  destruct (obj_get r c) as [v|] eqn:Hc; cbn [fmap option_fmap option_map obj_get].
  - destruct (String.eqb_spec c k) as [->|Hne]; cbn [orb].
    + now rewrite Hc.
    + exact IH.
  - destruct (String.eqb_spec c k) as [->|Hne]; cbn [orb].
    + rewrite IH, Hc. now destruct (existsb (String.eqb k) columns).
    + exact IH.
Qed.

(** The columns of a row after the two increments. *)
Lemma increment_balance r amounts g c :
  obj_get r "gold" = Some (JsNumber g) -> obj_get r "coins" = Some (JsNumber c) ->
  let stored := increment (increment r "gold" (amount_gold amounts))
                          "coins" (amount_coins amounts) in
  get stored "gold" = JsNumber (g + or_zero (amount_gold amounts))
  /\ get stored "coins" = JsNumber (c + or_zero (amount_coins amounts)).
Proof.
  intros Hg Hc. cbn zeta. unfold increment, or_zero, get, number_at.
  destruct (nonzero (amount_gold amounts)), (nonzero (amount_coins amounts));
    rewrite ?obj_get_set, ?Hg, ?Hc; cbn [String.eqb Ascii.eqb Bool.eqb andb];
    rewrite ?obj_get_set, ?Hg, ?Hc; cbn [String.eqb Ascii.eqb Bool.eqb andb from_option id];
    rewrite ?Z.add_0_r; auto.
Qed.

Lemma obj_get_app {V : Type} (a b : list (string * V)) k :
  obj_get (a ++ b) k = match obj_get a k with
                       | Some v => Some v
                       | None => obj_get b k
                       end.
Proof.
  induction a as [|[k' v] a IH]; [reflexivity|].
  cbn [app obj_get]. now destruct (String.eqb k' k).
Qed.

(** With distinct keys the order of the properties does not matter. *)
Lemma obj_get_rev {V : Type} (o : list (string * V)) k :
  NoDup (map fst o) -> obj_get (rev o) k = obj_get o k.
Proof.
  induction o as [|[k' v] o IH]; [reflexivity|].
  cbn [map fst]. intros [Hnew Hnd]%NoDup_cons.
  cbn [rev]. rewrite obj_get_app, IH by exact Hnd. cbn [obj_get].
  destruct (String.eqb_spec k' k) as [->|_].
  - now rewrite obj_get_absent.
  - now destruct (obj_get o k).
Qed.

Lemma find_item_store i j r rows :
  find_item j (store_item i r rows)
  = if j =? i then Some r else find_item j rows.
Proof.
  unfold find_item. induction rows as [|[k r0] rows IH]; cbn [store_item].
  - cbn [List.find fst]. rewrite (Z.eqb_sym i j). now destruct (j =? i).
  - destruct (Z.eqb_spec k i) as [->|Hki]; cbn [List.find fst].
    + rewrite (Z.eqb_sym i j). now destruct (j =? i).
    + destruct (Z.eqb_spec k j) as [->|Hkj]; [|exact IH].
      destruct (Z.eqb_spec j i) as [->|_]; [contradiction|reflexivity].
Qed.

Section HandlerProperties.

Variable JSON_stringify : AuditLogEntry -> Outcome string.

(** X16: what the character handler reports as failed leaves the data and the
    audit log alone: a body the schema refuses and a failing database are
    both answered 500 with the error printed, a character that does not
    exist is answered 404 with nothing printed. *)
Theorem patchCharacter_failures parsed x w :
  send (res x) = originalSend ->
  let failed e :=
    (set_console w (console w ++ [mkLine Error [Text "[Characters] Update error:";
                                                Thrown e]]),
     Returns (emit (error_body "Failed to update character") (status 500 x))) in
  (forall e, parsed = Throws e ->
             patchCharacter JSON_stringify parsed x w = failed e)
  /\ (forall data e, parsed = Returns data -> db_error (db w) = Some e ->
                     patchCharacter JSON_stringify parsed x w = failed e)
  /\ (forall data, parsed = Returns data -> db_error (db w) = None ->
                   obj_get (characters (db w))
                           (default "" (obj_get (params (req x)) "id")) = None ->
                   patchCharacter JSON_stringify parsed x w
                   = (w, Returns (emit (error_body "Character not found")
                                       (status 404 x)))).
Proof.
  intros Hsend failed. subst failed. split; [|split].
  - intros e ->. unfold patchCharacter, try_catch, bind, lift, console_emit.
    apply (send_original JSON_stringify _ (status 500 x) _ Hsend).
  - intros data e -> Hdb. unfold patchCharacter, try_catch.
    unfold bind at 1, lift. unfold bind at 1, character_findUnique. rewrite Hdb.
    unfold bind, console_emit.
    apply (send_original JSON_stringify _ (status 500 x) _ Hsend).
  - intros data -> Hdb Hrow. unfold patchCharacter, try_catch.
    unfold bind at 1, lift. unfold bind at 1, character_findUnique.
    rewrite Hdb, Hrow. cbn [fmap option_fmap option_map].
    now rewrite (send_original JSON_stringify _ (status 404 x) w Hsend).
Qed.

(** X17: after a successful update every recorded change names the value that
    is now stored, and for a column the handler fetched also the value that
    was stored before; columns the request does not name are untouched. *)
Theorem patchCharacter_records_what_is_stored data x w i r :
  obj_get (params (req x)) "id" = Some i ->
  db_error (db w) = None ->
  obj_get (characters (db w)) i = Some r ->
  send (res x) = originalSend ->
  NoDup (map fst data) ->
  let current := select character_current_columns r in
  let changes := characterChanges data current in
  exists w1 w' stored,
    logAuditAction JSON_stringify
      (or_else (username <$> req_admin (req x)) "unknown") "CHARACTER_UPDATE"
      (Some (update_options "character" i current changes x)) w1 = (w', Returns tt)
    /\ patchCharacter JSON_stringify (Returns data) x w
       = (w', Returns (emit (JsObject (select character_updated_columns stored)) x))
    /\ obj_get (characters (db w')) i = Some stored
    /\ (forall key c,
          obj_get changes key = Some c ->
          obj_get stored key = Some (to c)
          /\ (includes character_current_columns key = true -> from c = get r key))
    /\ (forall key, obj_get data key = None -> obj_get stored key = obj_get r key).
Proof.
  intros Hid Hdb Hrow Hsend Hnd current changes.
  destruct (patchCharacter_records JSON_stringify data x w i r Hid Hdb Hrow Hsend)
    as (w' & Hrun & Hres).
  destruct (logAuditAction_frame _ _ _ _ _ _ _ Hrun) as [_ Hd].
  eexists _, w', (apply_update data r). split; [exact Hrun|]. split; [exact Hres|].
  split; [|split].
  - rewrite Hd. cbn [db set_db characters]. now rewrite obj_get_set, String.eqb_refl.
  - intros key c Hc. subst changes. rewrite characterChanges_lookup in Hc.
    destruct (obj_get data key) as [v|] eqn:Hv; [|discriminate].
    destruct (strict_eq v JsUndefined) eqn:Hu; [discriminate|]. cbn [orb] in Hc.
    destruct (strict_eq (get current key) v); [discriminate|].
    injection Hc as <-. cbn [to from]. split.
    + now apply apply_update_written.
    + intros Hin. subst current. now rewrite get_select, Hin.
  - intros key Hnone. now apply apply_update_other.
Qed.

(** X19: deleting needs the body [{ confirm: 'DELETE' }]: any other body is
    answered 500 (not 400) with the validation error printed, and neither
    the item nor the audit log is touched. *)
Theorem deleteItem_requires_confirmation x w :
  send (res x) = originalSend ->
  get (body (req x)) "confirm" <> JsString "DELETE" ->
  deleteItem JSON_stringify x w
  = (set_console w (console w ++ [mkLine Error [Text "[Items] Delete error:";
                                                Thrown ZodError]]),
     Returns (emit (error_body "Failed to delete item") (status 500 x))).
Proof.
  intros Hsend Hc. unfold deleteItem, try_catch. unfold bind at 1.
  destruct (strict_eq (get (body (req x)) "confirm") (JsString "DELETE")) eqn:E.
  - now apply strict_eq_string in E.
  - unfold throw, bind, console_emit.
    apply (send_original JSON_stringify _ (status 500 x) _ Hsend).
Qed.

(** X20: a confirmed deletion of an item that exists removes that item and no
    other, leaves the characters alone, hands the recorder an
    [ITEM_DELETE] for the item's id and name, and answers with the name. *)
Theorem deleteItem_removes_and_records x w i r :
  parseInt (default "" (obj_get (params (req x)) "id")) = Some i ->
  get (body (req x)) "confirm" = JsString "DELETE" ->
  db_error (db w) = None ->
  find_item i (items (db w)) = Some r ->
  NoDup (map fst (items (db w))) ->
  send (res x) = originalSend ->
  exists w1 w',
    logAuditAction JSON_stringify
      (or_else (username <$> req_admin (req x)) "unknown") "ITEM_DELETE"
      (Some (delete_options (pretty i) (select ["name"; "type"] r) x)) w1
    = (w', Returns tt)
    /\ deleteItem JSON_stringify x w
       = (w', Returns (emit (JsObject [("success", JsBool true);
                                       ("message",
                                        JsString ("Deleted item "
                                                  ++ string_of (get r "name")))])
                            x))
    /\ (forall j, find_item j (items (db w'))
                  = if j =? i then None else find_item j (items (db w)))
    /\ characters (db w') = characters (db w).
Proof.
  intros Hid Hc Hdb Hrow Hnd Hsend.
  set (w1 := set_db w (mkDB (characters (db w)) (remove_item i (items (db w))) None)).
  destruct (logAuditAction_returns JSON_stringify
              (or_else (username <$> req_admin (req x)) "unknown") "ITEM_DELETE"
              (Some (delete_options (pretty i) (select ["name"; "type"] r) x)) w1)
    as (w' & Hrun).
  destruct (logAuditAction_frame _ _ _ _ _ _ _ Hrun) as [_ Hd].
  exists w1, w'. split; [exact Hrun|]. split; [|split].
  - unfold deleteItem, try_catch. rewrite Hid, Hc. cbn [from_option id strict_eq].
    change (String.eqb "DELETE" "DELETE") with true. cbv iota.
    unfold bind at 1, ret. unfold bind at 1, item_findUnique.
    rewrite Hdb, Hrow. cbn [fmap option_fmap option_map].
    unfold bind at 1, item_delete. rewrite Hdb, Hrow.
    unfold bind at 1. fold w1. rewrite Hrun.
    rewrite (send_original JSON_stringify _ x w' Hsend).
    rewrite get_select. reflexivity.
  - intros j. rewrite Hd. subst w1. cbn [db set_db items].
    now apply find_item_remove.
  - rewrite Hd. reflexivity.
Qed.

(** X21: an amount of zero counts as no amount: a request whose amounts are
    both absent or zero is answered 400 and changes nothing. *)
Theorem addCurrency_needs_an_amount amounts x w :
  send (res x) = originalSend ->
  amount_gold amounts = None \/ amount_gold amounts = Some 0 ->
  amount_coins amounts = None \/ amount_coins amounts = Some 0 ->
  addCurrency JSON_stringify (Returns amounts) x w
  = (w, Returns (emit (error_body "Specify gold or coins amount") (status 400 x))).
Proof.
  intros Hsend Hg Hc. unfold addCurrency, try_catch. unfold bind at 1, lift.
  assert (nonzero (amount_gold amounts) = false) as -> by now destruct Hg as [-> | ->].
  assert (nonzero (amount_coins amounts) = false) as -> by now destruct Hc as [-> | ->].
  cbn [negb andb].
  now rewrite (send_original JSON_stringify _ (status 400 x) w Hsend).
Qed.

(** X22: with an amount given, of either sign, the balances stored afterwards
    are the old ones plus the amounts, and every recorded change names the
    balance before and the balance now stored. *)
Theorem addCurrency_records_new_balance amounts x w i r g c :
  obj_get (params (req x)) "id" = Some i ->
  db_error (db w) = None ->
  obj_get (characters (db w)) i = Some r ->
  obj_get r "gold" = Some (JsNumber g) -> obj_get r "coins" = Some (JsNumber c) ->
  (nonzero (amount_gold amounts) || nonzero (amount_coins amounts))%bool = true ->
  send (res x) = originalSend ->
  let character := select ["name"; "gold"; "coins"] r in
  let changes := currencyChanges character amounts in
  exists w1 w' stored,
    logAuditAction JSON_stringify
      (or_else (username <$> req_admin (req x)) "unknown") "CHARACTER_ADD_CURRENCY"
      (Some (update_options "character" i character changes x)) w1 = (w', Returns tt)
    /\ addCurrency JSON_stringify (Returns amounts) x w
       = (w', Returns
                (emit (JsObject
                         [("success", JsBool true);
                          ("character",
                           JsObject (select ["id"; "name"; "gold"; "coins"] stored));
                          ("message",
                           JsString ("Added " ++ pretty (or_zero (amount_gold amounts))
                                     ++ " gold and "
                                     ++ pretty (or_zero (amount_coins amounts))
                                     ++ " coins"))])
                      x))
    /\ obj_get (characters (db w')) i = Some stored
    /\ get stored "gold" = JsNumber (g + or_zero (amount_gold amounts))
    /\ get stored "coins" = JsNumber (c + or_zero (amount_coins amounts))
    /\ (forall key ch, obj_get changes key = Some ch ->
                       from ch = get r key /\ to ch = get stored key).
Proof.
  intros Hid Hdb Hrow Hg Hc Hsome Hsend character changes.
  set (stored := increment (increment r "gold" (amount_gold amounts))
                           "coins" (amount_coins amounts)).
  set (w1 := set_db w (mkDB (obj_set (characters (db w)) i stored) (items (db w)) None)).
  destruct (logAuditAction_returns JSON_stringify
              (or_else (username <$> req_admin (req x)) "unknown")
              "CHARACTER_ADD_CURRENCY"
              (Some (update_options "character" i character changes x)) w1)
    as (w' & Hrun).
  destruct (logAuditAction_frame _ _ _ _ _ _ _ Hrun) as [_ Hd].
  destruct (increment_balance r amounts g c Hg Hc) as [Hgold Hcoins].
  fold stored in Hgold, Hcoins.
  exists w1, w', stored. split; [exact Hrun|]. split; [|split; [|split; [|split]]].
  - unfold addCurrency, try_catch. rewrite Hid. cbn [from_option id].
    unfold bind at 1, lift. rewrite <- negb_orb, Hsome. cbn [negb].
    unfold bind at 1, character_findUnique.
    rewrite Hdb, Hrow. cbn [fmap option_fmap option_map].
    unfold bind at 1, character_add. rewrite Hdb, Hrow.
    unfold bind at 1. fold stored. fold w1. fold character. fold changes.
    rewrite Hrun. now rewrite (send_original JSON_stringify _ x w' Hsend).
  - rewrite Hd. subst w1. cbn [db set_db characters].
    now rewrite obj_get_set, String.eqb_refl.
  - exact Hgold.
  - exact Hcoins.
  - assert (number_at character "gold" = g /\ number_at character "coins" = c
            /\ get character "gold" = get r "gold"
            /\ get character "coins" = get r "coins") as (Hng & Hnc & Hfg & Hfc).
    { subst character. unfold number_at. rewrite !get_select, !obj_get_select.
      change (includes ["name"; "gold"; "coins"] "gold") with true.
      change (includes ["name"; "gold"; "coins"] "coins") with true.
      cbv iota. now rewrite Hg, Hc. }
    intros key ch. subst changes. unfold currencyChanges.
    rewrite Hng, Hnc, Hfg, Hfc. unfold or_zero in Hgold, Hcoins.
    destruct (nonzero (amount_gold amounts)), (nonzero (amount_coins amounts));
      cbn [app obj_get];
      repeat match goal with
             | |- context [String.eqb ?a key] =>
                 destruct (String.eqb_spec a key) as [<-|?]
             end;
      intros [= <-]; cbn [from to]; rewrite ?Hgold, ?Hcoins; auto.
Qed.

(** X15: every route of the router other than [POST /auth/login],
    [POST /auth/logout] and [GET /health] has the auth gate, once, in
    front of its handler; these three have nothing in front. *)
Theorem routes_behind_gate verb path chain :
  In (verb, path, chain) (routes router) ->
  (In (verb, path) public_routes /\ chain = [])
  \/ (~ In (verb, path) public_routes /\ chain = [AuthGate]).
Proof.
  intros Hin. vm_compute in Hin.
  repeat (destruct Hin as [Hin|Hin];
          [injection Hin as <- <- <-;
           first [ left; split; [vm_compute; tauto|reflexivity]
                 | right; split; [vm_compute; intuition discriminate|reflexivity] ]
          |]).
  contradiction.
Qed.

(** X18: the item handler records every field of the body as a change, whether
    or not the value differs from the stored one; each field that has a
    value is stored under the item's id, and no other item is touched. The
    recorded name is the one the item had before the update. *)
Theorem patchItem_records_every_field data x w i r :
  parseInt (default "" (obj_get (params (req x)) "id")) = Some i ->
  db_error (db w) = None ->
  find_item i (items (db w)) = Some r ->
  send (res x) = originalSend ->
  NoDup (map fst data) ->
  exists w1 w' stored,
    logAuditAction JSON_stringify
      (or_else (username <$> req_admin (req x)) "unknown") "ITEM_UPDATE"
      (Some (update_options "item" (pretty i) (select ["name"] r)
                            (itemChanges data) x))
      w1 = (w', Returns tt)
    /\ patchItem JSON_stringify (Returns data) x w
       = (w', Returns (emit (JsObject stored) x))
    /\ (forall j, find_item j (items (db w'))
                  = if j =? i then Some stored else find_item j (items (db w)))
    /\ (forall key v,
          obj_get data key = Some v ->
          obj_get (itemChanges data) key = Some {| from := JsString "N/A"; to := v |}
          /\ (strict_eq v JsUndefined = false -> obj_get stored key = Some v))
    /\ (forall key, obj_get data key = None ->
                    obj_get (itemChanges data) key = None
                    /\ obj_get stored key = obj_get r key).
Proof.
  intros Hid Hdb Hrow Hsend Hnd.
  destruct (patchItem_records JSON_stringify data x w i r Hid Hdb Hrow Hsend)
    as (w' & Hrun & Hres).
  destruct (logAuditAction_frame _ _ _ _ _ _ _ Hrun) as [_ Hd].
  eexists _, w', (apply_update data r). split; [exact Hrun|]. split; [exact Hres|].
  split; [|split].
  - intros j. rewrite Hd. cbn [db set_db items]. apply find_item_store.
  - intros key v Hv. rewrite itemChanges_lookup, obj_get_rev, Hv by exact Hnd.
    split; [reflexivity|]. intros Hu. now apply apply_update_written.
  - intros key Hnone. rewrite itemChanges_lookup, obj_get_rev, Hnone by exact Hnd.
    split; [reflexivity|]. now apply apply_update_other.
Qed.

End HandlerProperties.

(** ** Further examples *)

Lemma logAuditAction_appends_one_line_witness :
  exists w' after,
    logAuditAction sample_stringify "root" "ITEM_UPDATE" None
                   (sample_world true (Some []) None) = (w', Returns tt)
    /\ logDir (fs w') = Some after
    /\ content_of after "audit-2024-01-04.json"
       = written [sample_line "2024-01-04T12:00:00.000Z" "ITEM_UPDATE"].
Proof.
  destruct (logAuditAction_appends_one_line sample_stringify "root" "ITEM_UPDATE" None
              (sample_world true (Some []) None)
              (sample_line "2024-01-04T12:00:00.000Z" "ITEM_UPDATE")
              eq_refl eq_refl (fun _ => eq_refl) eq_refl)
    as (w' & after & Hrun & Hdir & _ & Hlines & _).
  exists w', after. split; [exact Hrun|]. split; [exact Hdir|].
  exact (Hlines [] eq_refl).
Defined.

Lemma logAuditAction_append_only_witness :
  exists w' f',
    logAuditAction sample_stringify "root" "ITEM_UPDATE" None
                   (sample_world true (Some three_days) None) = (w', Returns tt)
    /\ obj_get (default [] (logDir (fs w'))) "audit-2024-01-02.json" = Some f'
    /\ exists suffix, content f' = content day2 ++ suffix.
Proof.
  destruct (logAuditAction_append_only sample_stringify "root" "ITEM_UPDATE" None
              (sample_world true (Some three_days) None)) as (w' & Hrun & Hkeep).
  destruct (Hkeep "audit-2024-01-02.json" day2 eq_refl) as (f' & Hf & _ & Hsuffix).
  exists w', f'. split; [exact Hrun|]. split; [exact Hf|exact Hsuffix].
Defined.

Lemma logged_entry_is_read_back_witness :
  exists w1 w2 l,
    logAuditAction sample_stringify "root" "ITEM_UPDATE" None
                   (sample_world true (Some two_days) None) = (w1, Returns tt)
    /\ readAuditLogs sample_parse sample_localeCompare None None w1 = (w2, Returns l)
    /\ l ≡ₚ [sample_value "2024-01-03T10:15:00.000Z" "CHARACTER_UPDATE";
             sample_value "2024-01-04T08:00:00.000Z" "LOGIN_SUCCESS";
             sample_value "2024-01-04T12:00:00.000Z" "ITEM_UPDATE"].
Proof.
  apply (logged_entry_is_read_back sample_stringify sample_parse sample_localeCompare
           "root" "ITEM_UPDATE" None (sample_world true (Some two_days) None)
           (sample_line "2024-01-04T12:00:00.000Z" "ITEM_UPDATE")
           (sample_value "2024-01-04T12:00:00.000Z" "ITEM_UPDATE")
           "2024-01-04" "12:00:00.001Z"
           [sample_line "2024-01-04T08:00:00.000Z" "LOGIN_SUCCESS"] None None);
    try reflexivity.
  - apply (bool_decide_unpack _). vm_compute. exact I.
  - repeat constructor.
  - vm_compute. repeat econstructor.
  - split; intros ? [=].
Defined.

Lemma match_date_leftmost_witness :
  EmbeddedDate "old-audit-2024-01-02.json.bak" "2024-01-02"
  /\ match_date "audit-2024-1-2.json" = None.
Proof.
  destruct (match_date_leftmost "old-audit-2024-01-02.json.bak") as (Hdate & _ & _).
  split.
  - apply Hdate. reflexivity.
  - reflexivity.
Defined.

Lemma readAuditLogs_makes_directory_witness :
  exists w',
    readAuditLogs sample_parse sample_localeCompare None None (sample_world true None None)
    = (w', Returns [])
    /\ logDir (fs w') = Some [] /\ console w' = [].
Proof.
  destruct (readAuditLogs_makes_directory sample_parse sample_localeCompare None None
              (sample_world true None None) eq_refl) as [Hmade _].
  exact (Hmade eq_refl eq_refl).
Defined.

Lemma readAuditLogs_inverted_range_witness :
  exists w',
    readAuditLogs sample_parse sample_localeCompare (Some "2024-01-03") (Some "2024-01-01")
                  (sample_world true (Some three_days) None) = (w', Returns [])
    /\ console w' = []
    /\ fs w' = fs (sample_world true (Some three_days) None).
Proof.
  apply (readAuditLogs_inverted_range sample_parse sample_localeCompare
           "2024-01-03" "2024-01-01" three_days
           (sample_world true (Some three_days) None));
    [reflexivity|reflexivity|discriminate|reflexivity].
Defined.

Lemma readAuditLogs_keeps_read_order_witness :
  exists w',
    readAuditLogs sample_parse sample_localeCompare None None
                  (sample_world true (Some [("audit-2024-01-03.json", day3);
                                            ("audit-2024-01-01.json", day1)]) None)
    = (w', Returns [sample_value "2024-01-03T10:15:00.000Z" "CHARACTER_UPDATE";
                    sample_value "2024-01-01T08:00:00.000Z" "LOGIN_SUCCESS"]).
Proof.
  destruct (readAuditLogs_total sample_parse sample_localeCompare None None
              (sample_world true (Some [("audit-2024-01-03.json", day3);
                                        ("audit-2024-01-01.json", day1)]) None)
              (fun H => eq_refl) eq_refl eq_refl) as (w' & Hrun).
  { vm_compute. repeat econstructor. }
  exists w'. rewrite Hrun.
  rewrite (readAuditLogs_keeps_read_order sample_parse sample_localeCompare None None
             _ w' _ Hrun); [reflexivity|].
  match goal with
  | |- StronglySorted ?R ?l =>
      let l' := eval vm_compute in l in change (StronglySorted R l')
  end.
  repeat (first [apply SSorted_nil | apply SSorted_cons
                | apply List.Forall_nil | apply List.Forall_cons]).
  do 2 eexists. split; [reflexivity|]. split; [reflexivity|].
  vm_compute. discriminate.
Defined.

Lemma validateAdminCredentials_gate_witness :
  validateAdminCredentials (JsString "root") (JsString "secret")
                           (sample_world true None None)
  = (sample_world true None None, Returns true).
Proof.
  destruct (validateAdminCredentials_gate (JsString "root") (JsString "secret")
              (sample_world true None None)) as [Hset _].
  destruct (Hset "root" "secret" eq_refl eq_refl) as (b & Hrun & Hb);
    [discriminate|discriminate|].
  rewrite Hrun. f_equal. f_equal. apply Hb. split; reflexivity.
Defined.

Lemma authMiddleware_requires_token_witness :
  authMiddleware sample_stringify sample_verify
                 (sample_exchange "GET" "/items/" "7" []) (me sample_stringify)
                 (sample_world true None None)
  = (sample_world true None None,
     Returns (emit (error_body "Authentication required")
                   (status 401 (sample_exchange "GET" "/items/" "7" [])))).
Proof.
  apply (authMiddleware_requires_token sample_stringify sample_verify
           (sample_exchange "GET" "/items/" "7" []) (me sample_stringify)
           (sample_world true None None)); [reflexivity|].
  left. split; [left; reflexivity|reflexivity].
Defined.

Lemma authMiddleware_verifies_token_witness :
  authMiddleware sample_stringify sample_verify (sample_bearer "token-for-root")
                 (me sample_stringify) (sample_world true None None)
  = me sample_stringify
       (set_admin (sample_bearer "token-for-root") (mkAdmin "root" 0 86400))
       (sample_world true None None).
Proof.
  destruct (authMiddleware_verifies_token sample_stringify sample_verify
              (sample_bearer "token-for-root") (me sample_stringify)
              (sample_world true None None) "token-for-root" "key")
    as [Hgood _];
    [reflexivity|left; reflexivity|discriminate|reflexivity|discriminate|].
  exact (Hgood _ eq_refl).
Defined.

Lemma authMiddleware_without_secret_witness :
  authMiddleware sample_stringify sample_verify (sample_bearer "token-for-root")
                 (me sample_stringify)
                 (without "JWT_SECRET" (sample_world true None None))
  = (without "JWT_SECRET" (sample_world true None None), Throws secret_missing).
Proof.
  apply (authMiddleware_without_secret sample_stringify sample_verify
           (sample_bearer "token-for-root") (me sample_stringify)
           (without "JWT_SECRET" (sample_world true None None)) "token-for-root");
    [left; reflexivity|discriminate|reflexivity].
Defined.

Lemma login_requires_both_credentials_witness :
  login sample_stringify sample_sign
        (sample_exchange "POST" "/auth/login" "" [("username", JsString "root")])
        (sample_world true None None)
  = (sample_world true None None,
     Returns (emit (error_body "Username and password are required")
                   (status 400 (sample_exchange "POST" "/auth/login" ""
                                                [("username", JsString "root")])))).
Proof.
  apply (login_requires_both_credentials sample_stringify sample_sign);
    [reflexivity|right; reflexivity].
Defined.

Lemma login_without_secret_witness :
  exists w' x',
    login sample_stringify sample_sign
          (sample_exchange "POST" "/auth/login" ""
             [("username", JsString "root"); ("password", JsString "secret")])
          (without "JWT_SECRET" (sample_world true None None))
    = (w', Returns x')
    /\ emitted (res x') = [(500, error_body "Internal server error")]
    /\ set_cookies (res x') = [].
Proof.
  destruct (login_without_secret sample_stringify sample_sign
              (sample_exchange "POST" "/auth/login" ""
                 [("username", JsString "root"); ("password", JsString "secret")])
              (without "JWT_SECRET" (sample_world true None None))
              eq_refl eq_refl eq_refl eq_refl eq_refl)
    as (w' & x' & Hrun & Hout & Hcookies & _).
  exists w', x'. split; [exact Hrun|]. split; [exact Hout|exact Hcookies].
Defined.

Lemma login_token_opens_gate_witness :
  exists w' x',
    login sample_stringify sample_sign
          (sample_exchange "POST" "/auth/login" ""
             [("username", JsString "root"); ("password", JsString "secret")])
          (sample_world true (Some []) None)
    = (w', Returns x')
    /\ run_chain sample_stringify sample_verify [AuthGate] (me sample_stringify)
                 (sample_bearer "token-for-root") w'
       = (w', Returns (emit (JsObject [("user",
                                        JsObject [("username", JsString "root");
                                                  ("role", JsString "admin")])])
                            (set_admin (sample_bearer "token-for-root")
                                       (mkAdmin "root" 0 86400)))).
Proof.
  destruct (login_token_opens_gate sample_stringify sample_sign sample_verify
              (sample_exchange "POST" "/auth/login" ""
                 [("username", JsString "root"); ("password", JsString "secret")])
              (sample_bearer "token-for-root")
              (sample_world true (Some []) None)
              "root" "token-for-root" "key" (mkAdmin "root" 0 86400))
    as (w' & x' & Hrun & _ & Hme);
    [reflexivity|reflexivity|reflexivity|discriminate|reflexivity|reflexivity
    |discriminate|reflexivity|discriminate|reflexivity|reflexivity|reflexivity
    |left; reflexivity|].
  exists w', x'. split; [exact Hrun|exact Hme].
Defined.

Lemma patchCharacter_failures_witness :
  patchCharacter sample_stringify (Returns [("level", JsNumber 6)])
                 (sample_exchange "PATCH" "/characters/" "nobody" [])
                 (sample_world true None None)
  = (sample_world true None None,
     Returns (emit (error_body "Character not found")
                   (status 404 (sample_exchange "PATCH" "/characters/" "nobody" [])))).
Proof.
  pose proof (patchCharacter_failures sample_stringify (Returns [("level", JsNumber 6)])
                (sample_exchange "PATCH" "/characters/" "nobody" [])
                (sample_world true None None) eq_refl) as H.
  cbv zeta in H. destruct H as (_ & _ & Hmissing).
  exact (Hmissing _ eq_refl eq_refl eq_refl).
Defined.

Lemma patchCharacter_records_what_is_stored_witness :
  exists w' stored,
    patchCharacter sample_stringify
                   (Returns [("level", JsNumber 6); ("gold", JsNumber 100)])
                   (sample_exchange "PATCH" "/characters/" "c1" [])
                   (sample_world true None None)
    = (w', Returns (emit (JsObject (select character_updated_columns stored))
                         (sample_exchange "PATCH" "/characters/" "c1" [])))
    /\ obj_get (characters (db w')) "c1" = Some stored
    /\ obj_get stored "level" = Some (JsNumber 6).
Proof.
  destruct (patchCharacter_records_what_is_stored sample_stringify
              [("level", JsNumber 6); ("gold", JsNumber 100)]
              (sample_exchange "PATCH" "/characters/" "c1" [])
              (sample_world true None None) "c1" _ eq_refl eq_refl eq_refl eq_refl)
    as (w1 & w' & stored & _ & Hres & Hstored & Hchanges & _).
  { apply (bool_decide_unpack _). vm_compute. exact I. }
  exists w', stored. split; [exact Hres|]. split; [exact Hstored|].
  exact (proj1 (Hchanges "level" {| from := JsNumber 5; to := JsNumber 6 |} eq_refl)).
Defined.

Lemma deleteItem_requires_confirmation_witness :
  deleteItem sample_stringify (sample_exchange "DELETE" "/items/" "7" [])
             (sample_world true None None)
  = (set_console (sample_world true None None)
                 [mkLine Error [Text "[Items] Delete error:"; Thrown ZodError]],
     Returns (emit (error_body "Failed to delete item")
                   (status 500 (sample_exchange "DELETE" "/items/" "7" [])))).
Proof.
  apply (deleteItem_requires_confirmation sample_stringify
           (sample_exchange "DELETE" "/items/" "7" []) (sample_world true None None));
    [reflexivity|discriminate].
Defined.

Lemma deleteItem_removes_and_records_witness :
  exists w',
    deleteItem sample_stringify
               (sample_exchange "DELETE" "/items/" "7" [("confirm", JsString "DELETE")])
               (sample_world true None None)
    = (w', Returns (emit (JsObject [("success", JsBool true);
                                    ("message", JsString "Deleted item Iron Sword")])
                         (sample_exchange "DELETE" "/items/" "7"
                                          [("confirm", JsString "DELETE")])))
    /\ find_item 7 (items (db w')) = None.
Proof.
  destruct (deleteItem_removes_and_records sample_stringify
              (sample_exchange "DELETE" "/items/" "7" [("confirm", JsString "DELETE")])
              (sample_world true None None) 7 _ eq_refl eq_refl eq_refl eq_refl)
    as (w1 & w' & _ & Hres & Hgone & _).
  { apply (bool_decide_unpack _). vm_compute. exact I. }
  { reflexivity. }
  exists w'. split; [exact Hres|exact (Hgone 7)].
Defined.

Lemma addCurrency_needs_an_amount_witness :
  addCurrency sample_stringify (Returns (mkAmounts (Some 0) None))
              (sample_exchange "POST" "/characters/" "c1" [("gold", JsNumber 0)])
              (sample_world true None None)
  = (sample_world true None None,
     Returns (emit (error_body "Specify gold or coins amount")
                   (status 400 (sample_exchange "POST" "/characters/" "c1"
                                                [("gold", JsNumber 0)])))).
Proof.
  apply (addCurrency_needs_an_amount sample_stringify (mkAmounts (Some 0) None));
    [reflexivity|right; reflexivity|left; reflexivity].
Defined.

Lemma addCurrency_records_new_balance_witness :
  exists w' x' stored,
    addCurrency sample_stringify (Returns (mkAmounts (Some (-30)) None))
                (sample_exchange "POST" "/characters/" "c1" [("gold", JsNumber (-30))])
                (sample_world true None None)
    = (w', Returns x')
    /\ obj_get (characters (db w')) "c1" = Some stored
    /\ get stored "gold" = JsNumber 70
    /\ get stored "coins" = JsNumber 0.
Proof.
  destruct (addCurrency_records_new_balance sample_stringify
              (mkAmounts (Some (-30)) None)
              (sample_exchange "POST" "/characters/" "c1" [("gold", JsNumber (-30))])
              (sample_world true None None) "c1" _ 100 0
              eq_refl eq_refl eq_refl eq_refl eq_refl eq_refl eq_refl)
    as (w1 & w' & stored & _ & Hres & Hstored & Hgold & Hcoins & _).
  exists w'. eexists. exists stored.
  split; [exact Hres|]. split; [exact Hstored|]. split; [exact Hgold|exact Hcoins].
Defined.

Lemma routes_behind_gate_witness :
  ~ In ("DELETE", "/items/:id") public_routes.
Proof.
  destruct (routes_behind_gate "DELETE" "/items/:id" [AuthGate]) as [[_ H]|[H _]].
  - vm_compute. repeat (first [left; reflexivity | right]).
  - discriminate H.
  - exact H.
Defined.

Lemma patchItem_records_every_field_witness :
  exists w' stored,
    patchItem sample_stringify (Returns [("gold", JsNumber 3)])
              (sample_exchange "PATCH" "/items/" "7" [("gold", JsNumber 3)])
              (sample_world true None None)
    = (w', Returns (emit (JsObject stored)
                         (sample_exchange "PATCH" "/items/" "7" [("gold", JsNumber 3)])))
    /\ find_item 7 (items (db w')) = Some stored
    /\ obj_get (itemChanges [("gold", JsNumber 3)]) "gold"
       = Some {| from := JsString "N/A"; to := JsNumber 3 |}
    /\ obj_get stored "gold" = Some (JsNumber 3).
Proof.
  destruct (patchItem_records_every_field sample_stringify [("gold", JsNumber 3)]
              (sample_exchange "PATCH" "/items/" "7" [("gold", JsNumber 3)])
              (sample_world true None None) 7 _ eq_refl eq_refl eq_refl eq_refl)
    as (w1 & w' & stored & _ & Hres & Hfind & Hfields & _).
  { apply (bool_decide_unpack _). vm_compute. exact I. }
  destruct (Hfields "gold" (JsNumber 3) eq_refl) as [Hchange Hstored].
  exists w', stored. split; [exact Hres|]. split; [exact (Hfind 7)|].
  split; [exact Hchange|exact (Hstored eq_refl)].
Defined.
